(** * ChatAppDotNet: the health chatbot server (src/server/index.js)

    A shallow embedding of the Express server's engine: the in-memory
    stores, the keyword-driven [HealthChatbot], the summary renderer and
    the insights (trend) computation, together with the parts of the
    JavaScript runtime they rely on.

    Conventions of the model.
    - A JavaScript string is its UTF-8 encoding, a [string] of bytes; a
      character outside ASCII is the two, three or four bytes of its
      encoding, none of which is an ASCII byte.
    - A JavaScript number is an IEEE 754 binary64 value, a primitive
      [float].
    - A [Date] is its time value, the milliseconds since the epoch, in [Z].
    - Arrays that the code mutates in place live in a heap of array
      objects and are passed around by reference. *)

From Stdlib Require Import ZArith String Ascii List Floats Lia Bool.
From Stdlib Require Import Sorting.Sorted Sorting.Permutation.
From stdpp Require Import base option list gmap strings.

Local Open Scope string_scope.
Local Open Scope list_scope.
Local Open Scope Z_scope.

(** ** JavaScript strings *)

(** The byte [n]. *)
Definition byte (n : nat) : ascii := ascii_of_nat n.

Definition is_byte (c : ascii) (n : nat) : bool := (nat_of_ascii c =? n)%nat.

Definition is_upper (c : ascii) : bool :=
  let n := nat_of_ascii c in (65 <=? n)%nat && (n <=? 90)%nat.

Definition is_lower (c : ascii) : bool :=
  let n := nat_of_ascii c in (97 <=? n)%nat && (n <=? 122)%nat.

Definition lower_char (c : ascii) : ascii :=
  if is_upper c then ascii_of_nat (nat_of_ascii c + 32) else c.

Definition upper_char (c : ascii) : ascii :=
  if is_lower c then ascii_of_nat (nat_of_ascii c - 32) else c.

Fixpoint string_map (f : ascii -> ascii) (s : string) : string :=
  match s with
  | EmptyString => EmptyString
  | String c s' => String (f c) (string_map f s')
  end.

(** [s.toLowerCase()].  The ASCII letters are mapped by [lower_char].
    Two characters outside ASCII have ASCII letters in their lower case:
    U+0130 (bytes 196 176) becomes [i] and U+0307 (bytes 204 135), and
    U+212A (bytes 226 132 170) becomes [k].  Every other character outside
    ASCII becomes characters outside ASCII again; its bytes are left as
    they are, which a search for an ASCII text cannot tell apart. *)
Fixpoint toLowerCase (s : string) : string :=
  match s with
  | EmptyString => EmptyString
  | String c s1 =>
      match s1 with
      | EmptyString => String (lower_char c) EmptyString
      | String c2 s2 =>
          if is_byte c 196 && is_byte c2 176
          then String "i" (String (byte 204) (String (byte 135) (toLowerCase s2)))
          else
            match s2 with
            | EmptyString => String (lower_char c) (toLowerCase s1)
            | String c3 s3 =>
                if is_byte c 226 && is_byte c2 132 && is_byte c3 170
                then String "k" (toLowerCase s3)
                else String (lower_char c) (toLowerCase s1)
            end
      end
  end.

(** [s.toUpperCase()], on the ASCII text of a type name. *)
Definition toUpperCase (s : string) : string := string_map upper_char s.

(** [s.startsWith(p)]. *)
Fixpoint startsWith (s p : string) {struct p} : bool :=
  match p, s with
  | EmptyString, _ => true
  | String _ _, EmptyString => false
  | String a p', String b s' => Ascii.eqb a b && startsWith s' p'
  end.

(** [s.includes(sub)]: [sub] occurs in [s] at some position. *)
Fixpoint includes (s sub : string) : bool :=
  startsWith s sub ||
  match s with
  | EmptyString => false
  | String _ s' => includes s' sub
  end.

(** [s.replace(pat, by)] with a string pattern: only the first occurrence
    is replaced. *)
Fixpoint replace (s pat by_ : string) : string :=
  if startsWith s pat then by_ +:+ String.substring (String.length pat) (String.length s - String.length pat) s
  else match s with
       | EmptyString => EmptyString
       | String c s' => String c (replace s' pat by_)
       end.

(** Decimal rendering of an array length or another non-negative integer. *)
Definition digit_char (d : Z) : ascii := ascii_of_nat (48 + Z.to_nat d).

Fixpoint digits_fuel (fuel : nat) (n : Z) (acc : string) : string :=
  match fuel with
  | O => acc
  | S fuel' =>
      let acc' := String (digit_char (n mod 10)) acc in
      if n <? 10 then acc' else digits_fuel fuel' (n / 10) acc'
  end.

(** The decimal digits of [n >= 0]; ["0"] for zero. *)
Definition Z_digits (n : Z) : string :=
  digits_fuel (S (Z.to_nat (Z.log2 n))) n "".

Definition Nat_toString (n : nat) : string := Z_digits (Z.of_nat n).

(** ** JavaScript numbers *)

(** A non-negative rational [num / den], [den > 0], for the exact value of
    a finite number. *)
Record ratio := Ratio { num : Z; den : Z }.

Definition ratio_of_finite (m : positive) (e : Z) : ratio :=
  if 0 <=? e then Ratio (Z.pos m * 2 ^ e) 1 else Ratio (Z.pos m) (2 ^ (- e)).

(** The number nearest to [m * 10^e] for [m > 0] (ties to even), as the
    conversion of a decimal literal has it. *)
Definition float_of_decimal (neg : bool) (m : Z) (e : Z) : float :=
  if m =? 0 then (if neg then (-0)%float else 0%float)
  else
    let sm := if neg then - m else m in
    if 0 <=? e then SF2Prim (binary_normalize prec emax (sm * 10 ^ e) 0 false)
    else
      let d := 10 ^ (- e) in
      let k := Z.max 0 (64 + Z.log2 d - Z.log2 m) in
      let q := (m * 2 ^ k) / d in
      let sticky := if (m * 2 ^ k) mod d =? 0 then 0 else 1 in
      let mant := 2 * q + sticky in
      SF2Prim (binary_normalize prec emax (if neg then - mant else mant) (- k - 1) false).

(** The integer [p] with [10^(p-1) <= x < 10^p], searched upwards. *)
Fixpoint point_from (fuel : nat) (x : ratio) (p : Z) : Z :=
  match fuel with
  | O => p
  | S fuel' =>
      let below :=
        if 0 <=? p then num x <? den x * 10 ^ p
        else num x * 10 ^ (- p) <? den x in
      if below then p else point_from fuel' x (p + 1)
  end.

Definition decimal_point (x : ratio) : Z := point_from 640 x (-325).

(** [floor (x / 10^e)]. *)
Definition scaled_floor (x : ratio) (e : Z) : Z :=
  if 0 <=? e then num x / (den x * 10 ^ e) else (num x * 10 ^ (- e)) / den x.

(** Sign of [(a + b) * 10^e - 2 x], with [a] and [b] integers: which of
    [a * 10^e] and [b * 10^e] is nearer to [x]. *)
Definition midpoint_cmp (x : ratio) (a b e : Z) : comparison :=
  if 0 <=? e then ((a + b) * 10 ^ e * den x ?= 2 * num x)
  else ((a + b) * den x ?= 2 * num x * 10 ^ (- e)).

(** The digit string [s] with [nd] digits and the position [p] of the
    decimal point for which [s * 10^(p - nd)] reads back as [x], with [nd]
    as small as possible (at most 17 for binary64). *)
Fixpoint shortest_from (fuel : nat) (x : float) (r : ratio) (p : Z) (nd : Z) : Z * Z * Z :=
  let e := p - nd in
  let lo := scaled_floor r e in
  let hi := lo + 1 in
  let ok s := (10 ^ (nd - 1) <=? s) && PrimFloat.eqb (float_of_decimal false s e) x in
  let norm s := if s =? 10 ^ nd then (10 ^ (nd - 1), nd, p + 1) else (s, nd, p) in
  match fuel with
  | O => norm lo
  | S fuel' =>
      match ok lo, ok hi with
      | true, true =>
          match midpoint_cmp r lo hi e with
          | Lt => norm hi
          | Gt => norm lo
          | Eq => if Z.even lo then norm lo else norm hi
          end
      | true, false => norm lo
      | false, true => norm hi
      | false, false => shortest_from fuel' x r p (nd + 1)
      end
  end.

Fixpoint repeat_char (c : ascii) (n : nat) : string :=
  match n with
  | O => EmptyString
  | S n' => String c (repeat_char c n')
  end.

Definition zeros (n : Z) : string := repeat_char "0" (Z.to_nat n).

(** Number::toString for a finite [x > 0] with exact value [m * 2^e]. *)
Definition positive_toString (x : float) (m : positive) (e : Z) : string :=
  let r := ratio_of_finite m e in
  let '(s, k, n) := shortest_from 20 x r (decimal_point r) 1 in
  let ds := Z_digits s in
  if (k <=? n) && (n <=? 21) then ds +:+ zeros (n - k)
  else if (0 <? n) && (n <=? 21) then
    String.substring 0 (Z.to_nat n) ds +:+ "." +:+ String.substring (Z.to_nat n) (Z.to_nat (k - n)) ds
  else if (-6 <? n) && (n <=? 0) then "0." +:+ zeros (- n) +:+ ds
  else
    let ex := (if n - 1 <? 0 then "-" else "+") +:+ Z_digits (Z.abs (n - 1)) in
    if k =? 1 then ds +:+ "e" +:+ ex
    else String.substring 0 1 ds +:+ "." +:+ String.substring 1 (Z.to_nat (k - 1)) ds +:+ "e" +:+ ex.

(** Number::toString(x), radix 10. *)
Definition Number_toString (x : float) : string :=
  match Prim2SF x with
  | S754_nan => "NaN"
  | S754_zero _ => "0"
  | S754_infinity false => "Infinity"
  | S754_infinity true => "-Infinity"
  | S754_finite sg m e =>
      (if sg then "-" else "") +:+ positive_toString (PrimFloat.abs x) m e
  end.

(** [x.toFixed(f)]: the integer [n] nearest to [|x| * 10^f], the larger one
    on a tie, printed with [f] digits after the point. *)
Definition toFixed (x : float) (f : nat) : string :=
  match Prim2SF x with
  | S754_finite sg m e =>
      let r := ratio_of_finite m e in
      if 10 ^ 21 * den r <=? num r then Number_toString x
      else
        let n := (2 * num r * 10 ^ Z.of_nat f + den r) / (2 * den r) in
        let ds := Z_digits n in
        let k := String.length ds in
        let ds := if (k <=? f)%nat then zeros (Z.of_nat (f + 1 - k)) +:+ ds else ds in
        let k := String.length ds in
        (if sg then "-" else "") +:+
        (if (f =? 0)%nat then ds
         else String.substring 0 (k - f) ds +:+ "." +:+ String.substring (k - f) f ds)
  | S754_zero _ =>
      if (f =? 0)%nat then "0" else "0." +:+ zeros (Z.of_nat f)
  | _ => Number_toString x
  end.

(** *** parseFloat *)

Definition is_digit (c : ascii) : bool :=
  let n := nat_of_ascii c in (48 <=? n)%nat && (n <=? 57)%nat.

(** The ASCII members of StrWhiteSpaceChar: tab, line feed, vertical tab,
    form feed, carriage return and space. *)
Definition is_space (c : ascii) : bool :=
  let n := nat_of_ascii c in ((9 <=? n)%nat && (n <=? 13)%nat) || (n =? 32)%nat.

Fixpoint bytes (l : list nat) : string :=
  match l with
  | [] => EmptyString
  | n :: l' => String (byte n) (bytes l')
  end.

(** The other members of StrWhiteSpaceChar, in UTF-8: U+00A0, U+1680,
    U+2000 to U+200A, U+2028, U+2029, U+202F, U+205F, U+3000 and U+FEFF. *)
Definition unicode_spaces : list string :=
  ([ bytes [194; 160]; bytes [225; 154; 128] ] ++
   map (fun n => bytes [226; 128; n]) (seq 128 11) ++
   [ bytes [226; 128; 168]; bytes [226; 128; 169]; bytes [226; 128; 175];
     bytes [226; 129; 159]; bytes [227; 128; 128]; bytes [239; 187; 191] ])%nat.

(** [s] without the prefix [p], when it starts with it. *)
Fixpoint strip_prefix (s p : string) {struct p} : option string :=
  match p, s with
  | EmptyString, _ => Some s
  | String _ _, EmptyString => None
  | String a p', String b s' => if Ascii.eqb a b then strip_prefix s' p' else None
  end.

Fixpoint strip_any (s : string) (ps : list string) : option string :=
  match ps with
  | [] => None
  | p :: ps' =>
      match strip_prefix s p with
      | Some rest => Some rest
      | None => strip_any s ps'
      end
  end.

(** [s] without its first character, when that is white space. *)
Definition strip_space (s : string) : option string :=
  match s with
  | String c s' => if is_space c then Some s' else strip_any s unicode_spaces
  | EmptyString => None
  end.

Fixpoint trimStart_fuel (fuel : nat) (s : string) : string :=
  match fuel with
  | O => s
  | S fuel' =>
      match strip_space s with
      | Some rest => trimStart_fuel fuel' rest
      | None => s
      end
  end.

(** [s.trimStart()], which is also how [parseFloat] skips leading white
    space. *)
Definition trimStart (s : string) : string := trimStart_fuel (String.length s) s.

(** Reads DecimalDigits: the value read after [acc], how many digits were
    read, and the rest of the text. *)
Fixpoint read_digits (s : string) (acc : Z) (cnt : Z) : Z * Z * string :=
  match s with
  | String c s' =>
      if is_digit c
      then read_digits s' (10 * acc + (Z.of_nat (nat_of_ascii c) - 48)) (cnt + 1)
      else (acc, cnt, s)
  | EmptyString => (acc, cnt, s)
  end.

(** A sign character, if there is one, and the rest. *)
Definition read_sign (s : string) : bool * string :=
  match s with
  | String "-" s' => (true, s')
  | String "+" s' => (false, s')
  | _ => (false, s)
  end.

(** ExponentPart, when a complete one follows; otherwise exponent 0. *)
Definition read_exponent (s : string) : Z :=
  match s with
  | String c s' =>
      if Ascii.eqb c "e" || Ascii.eqb c "E" then
        let '(neg, s'') := read_sign s' in
        let '(ex, cnt, _) := read_digits s'' 0 0 in
        if cnt =? 0 then 0 else if neg then - ex else ex
      else 0
  | EmptyString => 0
  end.

(** [parseFloat] of a string: the longest prefix of the trimmed text that
    is a StrDecimalLiteral gives the number, and NaN when there is none. *)
Definition parseFloat_string (input : string) : float :=
  let '(neg, s) := read_sign (trimStart input) in
  if startsWith s "Infinity" then (if neg then neg_infinity else infinity)
  else
    let '(ip, ni, s1) := read_digits s 0 0 in
    let '(m, nf, s2) :=
      match s1 with
      | String "." s1' =>
          let '(m, nf, s2) := read_digits s1' ip 0 in
          if (ni =? 0) && (nf =? 0) then (ip, 0, s1) else (m, nf, s2)
      | _ => (ip, 0, s1)
      end in
    if (ni =? 0) && (nf =? 0) then nan
    else float_of_decimal neg m (read_exponent s2 - nf).

(** ** Data model *)

(** The metric kinds that the validation schema [healthMetricSchema]
    admits for [type]. *)
Inductive MetricType : Set :=
  | weight | height | blood_pressure | heart_rate | blood_sugar
  | temperature | sleep_hours | steps | water_intake | exercise_minutes.

#[global] Instance MetricType_eq_dec : EqDecision MetricType.
Proof. solve_decision. Defined.

(** The string each kind is in the JSON. *)
Definition type_name (t : MetricType) : string :=
  match t with
  | weight => "weight"
  | height => "height"
  | blood_pressure => "blood_pressure"
  | heart_rate => "heart_rate"
  | blood_sugar => "blood_sugar"
  | temperature => "temperature"
  | sleep_hours => "sleep_hours"
  | steps => "steps"
  | water_intake => "water_intake"
  | exercise_minutes => "exercise_minutes"
  end.

(** [value]: a number, a string or an object.  An object is what
    [JSON.parse] made of the body, given by the names of its own members;
    none of them is a function. *)
Inductive JsValue : Set :=
  | VNum (x : float)
  | VStr (s : string)
  | VObj (members : list string).

(** ToString of a value, as a template literal applies it; [None] is the
    TypeError it throws.  An object is converted by its [toString] and
    then its [valueOf]: with no own member [toString] the inherited one
    answers ["[object Object]"]; an own member [toString] is not callable
    and is passed over, and [valueOf], own or inherited, gives no
    primitive value, so the conversion throws. *)
Definition ToString (v : JsValue) : option string :=
  match v with
  | VNum x => Some (Number_toString x)
  | VStr s => Some s
  | VObj members =>
      if existsb (String.eqb "toString") members then None
      else Some "[object Object]"
  end.

(** [parseFloat(v)] converts its argument to a string first. *)
Definition parseFloat (v : JsValue) : option float :=
  match ToString v with
  | Some text => Some (parseFloat_string text)
  | None => None
  end.

(** A stored health metric: the validated body with [id] and [timestamp]. *)
Record HealthMetric : Set := mkHealthMetric {
  m_id : string;
  m_type : MetricType;
  m_value : JsValue;
  m_unit : string;
  m_timestamp : Z;
  m_notes : option string;
  m_userId : option string
}.

(** A conversation entry; [c_type] is ['user'] or ['bot']. *)
Record ChatMessage : Set := mkChatMessage {
  c_type : string;
  c_message : string;
  c_timestamp : Z
}.

(** ** HealthChatbot *)

Definition nl : string := String (ascii_of_nat 10) EmptyString.
Definition quote : string := String (ascii_of_nat 34) EmptyString.

(** [this.responses.greeting]. *)
Definition responses_greeting : list string :=
  [ "Hello! I'm your health assistant. How can I help you track your health today?";
    "Hi there! I'm here to help you monitor your health metrics. What would you like to know?";
    "Welcome! I can help you track weight, blood pressure, heart rate, and more. How can I assist you?" ].

(** The [advice] strings of [this.responses]. *)
Definition responses_weight_advice : string :=
  "For healthy weight management: eat balanced meals, stay hydrated, exercise regularly, and get adequate sleep.".
Definition responses_blood_pressure_advice : string :=
  "To maintain healthy blood pressure: reduce sodium intake, exercise regularly, manage stress, and limit alcohol.".
Definition responses_heart_rate_advice : string :=
  "To improve heart health: do cardio exercises, manage stress, get quality sleep, and maintain a healthy diet.".
Definition responses_blood_sugar_advice : string :=
  "To maintain healthy blood sugar: eat balanced meals, exercise regularly, monitor portions, and take medications as prescribed.".

(** [Math.floor(Math.random() * len)].  A draw of [Math.random()] is a
    number [k / 2^53] with [0 <= k < 2^53]; the environment supplies it as
    a natural number, of which the low 53 bits are [k].  The floor is that
    of the exact product [k * len / 2^53]; the code floors the product
    rounded to a number, which for some draws is the next index, within
    the array as well. *)
Definition random_index (draw : N) (len : nat) : nat :=
  N.to_nat (((draw mod 2 ^ 53) * N.of_nat len) / 2 ^ 53)%N.

(** [getRandomResponse(responses)].  The index is within the array whenever
    the array is not empty (see [random_index_lt]). *)
Definition getRandomResponse (draw : N) (responses : list string) : string :=
  nth (random_index draw (length responses)) responses "undefined".

(** [healthData.filter(d => d.type === t)]. *)
Definition of_type (t : MetricType) (healthData : list HealthMetric) : list HealthMetric :=
  filter (fun d => m_type d = t) healthData.

(** The grouping loop of [generateHealthSummary]: [typeGroups] is an object
    whose keys are kept in the order in which they were added. *)
Fixpoint group_lookup {A} (typeGroups : list (MetricType * A)) (t : MetricType) : option A :=
  match typeGroups with
  | [] => None
  | (k, g) :: rest => if decide (k = t) then Some g else group_lookup rest t
  end.

Fixpoint group_update {A} (typeGroups : list (MetricType * A)) (t : MetricType) (g : A)
  : list (MetricType * A) :=
  match typeGroups with
  | [] => [(t, g)]
  | (k, g0) :: rest =>
      if decide (k = t) then (k, g) :: rest else (k, g0) :: group_update rest t g
  end.

Definition group_push (typeGroups : list (MetricType * list HealthMetric)) (data : HealthMetric)
  : list (MetricType * list HealthMetric) :=
  let typeGroups' :=
    match group_lookup typeGroups (m_type data) with
    | None => group_update typeGroups (m_type data) []
    | Some _ => typeGroups
    end in
  match group_lookup typeGroups' (m_type data) with
  | Some g => group_update typeGroups' (m_type data) (g ++ [data])
  | None => typeGroups'
  end.

Definition summary_header : string := "📊 **Health Summary:**" +:+ nl +:+ nl.

Definition summary_footer : string :=
  nl +:+ "💡 Keep up the great work tracking your health! Regular monitoring helps you stay on top of your wellness goals.".

(** One line of the summary, for a group's latest record and its size;
    [None] when the conversion of the value throws. *)
Definition summary_line (t : MetricType) (latest : HealthMetric) (count : nat) : option string :=
  match ToString (m_value latest) with
  | Some value =>
      Some ("• **" +:+ toUpperCase (replace (type_name t) "_" " ") +:+ "**: " +:+
            value +:+ " " +:+ m_unit latest +:+
            " (" +:+ Nat_toString count +:+ " recordings)" +:+ nl)
  | None => None
  end.

(** The [Object.keys(typeGroups).forEach] loop.  [None] is a TypeError:
    that of reading [latest.value] when [latest] is undefined, or that of
    the line. *)
Fixpoint summary_lines (typeGroups : list (MetricType * list HealthMetric)) (summary : string)
  : option string :=
  match typeGroups with
  | [] => Some summary
  | (t, data) :: rest =>
      match last data with
      | Some latest =>
          match summary_line t latest (length data) with
          | Some line => summary_lines rest (summary +:+ line)
          | None => None
          end
      | None => None
      end
  end.

(** [generateHealthSummary(healthData)]. *)
Definition generateHealthSummary (healthData : list HealthMetric) : option string :=
  let typeGroups := fold_left group_push healthData [] in
  match summary_lines typeGroups summary_header with
  | Some summary => Some (summary +:+ summary_footer)
  | None => None
  end.

Definition help_text : string :=
  "I can help you:" +:+ nl +:+
  "• Track health metrics (weight, blood pressure, heart rate, blood sugar, etc.)" +:+ nl +:+
  "• Provide health tips and advice" +:+ nl +:+
  "• Give you summaries of your health data" +:+ nl +:+
  "• Answer questions about your health trends" +:+ nl +:+ nl +:+
  "Try saying things like " +:+ quote +:+ "log my weight" +:+ quote +:+ " or " +:+
  quote +:+ "show my blood pressure" +:+ quote +:+ " or " +:+
  quote +:+ "give me a health summary" +:+ quote.

Definition default_response (message : string) : string :=
  "I understand you're asking about " +:+ quote +:+ message +:+ quote +:+
  ". I can help you track health metrics, provide health advice, and analyze your data. Try asking me to " +:+
  quote +:+ "log weight" +:+ quote +:+ ", " +:+ quote +:+ "show blood pressure" +:+ quote +:+
  ", or " +:+ quote +:+ "give health summary" +:+ quote +:+
  ". What specific health information would you like to discuss?".

Definition no_weight_data : string :=
  "I don't have any weight data recorded yet. Would you like to log your weight?".
Definition no_blood_pressure_data : string :=
  "No blood pressure data found. Would you like to record your blood pressure?".
Definition no_heart_rate_data : string :=
  "No heart rate data recorded. Would you like to log your heart rate?".
Definition no_data_at_all : string :=
  "You haven't recorded any health data yet. Start by logging some metrics like weight, blood pressure, or heart rate!".

(** [generateResponse(message, healthData)]; [draw] is what [Math.random()]
    returns when the greeting branch asks for it.  The result is [None]
    when the call throws. *)
Definition generateResponse (draw : N) (message : string) (healthData : list HealthMetric)
  : option string :=
  let msg := toLowerCase message in
  if includes msg "hello" || includes msg "hi" || includes msg "hey" then
    Some (getRandomResponse draw responses_greeting)
  else if includes msg "weight" then
    let weightData := of_type weight healthData in
    match last weightData with
    | Some latest =>
        match ToString (m_value latest) with
        | Some value =>
            Some ("Your latest weight is " +:+ value +:+ " " +:+ m_unit latest +:+
                  ". " +:+ responses_weight_advice)
        | None => None
        end
    | None => Some no_weight_data
    end
  else if includes msg "blood pressure" then
    let bpData := of_type blood_pressure healthData in
    match last bpData with
    | Some latest =>
        match ToString (m_value latest) with
        | Some value =>
            Some ("Your latest blood pressure is " +:+ value +:+
                  ". " +:+ responses_blood_pressure_advice)
        | None => None
        end
    | None => Some no_blood_pressure_data
    end
  else if includes msg "heart rate" then
    let hrData := of_type heart_rate healthData in
    match last hrData with
    | Some latest =>
        match ToString (m_value latest) with
        | Some value =>
            Some ("Your latest heart rate is " +:+ value +:+ " " +:+ m_unit latest +:+
                  ". " +:+ responses_heart_rate_advice)
        | None => None
        end
    | None => Some no_heart_rate_data
    end
  else if includes msg "summary" || includes msg "overview" then
    match healthData with
    | [] => Some no_data_at_all
    | _ => generateHealthSummary healthData
    end
  else if includes msg "help" || includes msg "what can you do" then
    Some help_text
  else
    Some (default_response message).

(** ** Arrays by reference *)

(** The arrays of metric records that the server allocates: the array
    object at address [r] is the [r]-th entry. *)
Abbreviation Heap := (list (list HealthMetric)).
Abbreviation ref := nat.

(** Computations that read and write array objects. *)
Definition M (A : Type) : Type := Heap -> A * Heap.

Definition ret {A} (a : A) : M A := fun h => (a, h).

Definition bind {A B} (m : M A) (k : A -> M B) : M B :=
  fun h => let (a, h') := m h in k a h'.

Notation "'let*' x ':=' m 'in' k" := (bind m (fun x => k))
  (at level 10, x name, m at level 100, k at level 200).
Notation "'run' m 'in' k" := (bind m (fun _ => k))
  (at level 10, m at level 100, k at level 200).

(** [[]]: a new, empty array object. *)
Definition new_array : M ref := fun h => (length h, h ++ [[]]).

(** The elements of the array at [r]. *)
Definition array_get (r : ref) : M (list HealthMetric) :=
  fun h => (default [] (h !! r), h).

(** [r.push(x)]. *)
Definition array_push (r : ref) (x : HealthMetric) : M unit :=
  fun h => (tt, alter (fun a => a ++ [x]) r h).

(** [Array.prototype.sort(cmp)] on a list: the sort is stable, and [cmp]
    returns a negative number, zero or a positive number. *)
Fixpoint sort_insert {A} (cmp : A -> A -> Z) (x : A) (l : list A) : list A :=
  match l with
  | [] => [x]
  | y :: l' => if cmp x y <=? 0 then x :: l else y :: sort_insert cmp x l'
  end.

Fixpoint Array_sort {A} (cmp : A -> A -> Z) (l : list A) : list A :=
  match l with
  | [] => []
  | x :: l' => sort_insert cmp x (Array_sort cmp l')
  end.

(** [r.sort(cmp)] sorts the array object in place and returns it. *)
Definition array_sort (cmp : HealthMetric -> HealthMetric -> Z) (r : ref) : M ref :=
  fun h => (r, alter (Array_sort cmp) r h).

(** [arr.slice(-n)]: the last [n] elements, or all of them. *)
Definition slice_last {A} (n : nat) (l : list A) : list A :=
  drop (length l - n) l.

(** ** Insights *)

Record Trend : Set := mkTrend {
  change : float;
  percentChange : string;
  direction : string;
  recordCount : nat
}.

Record Insights : Set := mkInsights {
  totalRecords : nat;
  metricsTracked : list MetricType;
  trends : list (MetricType * Trend);
  recommendations : list string
}.

(** [[...new Set(types)]]: the distinct types, each where it first
    occurs. *)
Definition Set_add (seen : list MetricType) (t : MetricType) : list MetricType :=
  if decide (t ∈ seen) then seen else seen ++ [t].

Definition Set_of (types : list MetricType) : list MetricType :=
  fold_left Set_add types [].

(** The body of [data.forEach(record => ...)]: [typeGroups] maps a type to
    the array object of its group. *)
Definition group_record (typeGroups : list (MetricType * ref)) (record : HealthMetric)
  : M (list (MetricType * ref)) :=
  let* typeGroups' :=
    match group_lookup typeGroups (m_type record) with
    | None => let* a := new_array in ret (group_update typeGroups (m_type record) a)
    | Some _ => ret typeGroups
    end in
  match group_lookup typeGroups' (m_type record) with
  | Some a => run array_push a record in ret typeGroups'
  | None => ret typeGroups'
  end.

Fixpoint group_records (records : list HealthMetric) (typeGroups : list (MetricType * ref))
  : M (list (MetricType * ref)) :=
  match records with
  | [] => ret typeGroups
  | record :: rest =>
      let* typeGroups' := group_record typeGroups record in
      group_records rest typeGroups'
  end.

(** The comparator [(a, b) => new Date(a.timestamp) - new Date(b.timestamp)]. *)
Definition by_timestamp (a b : HealthMetric) : Z := m_timestamp a - m_timestamp b.

(** The trend entry of a sorted group, if one is written: [Some None] when
    none is, and [None] when [parseFloat] throws. *)
Definition trend_of (records : list HealthMetric) : option (option Trend) :=
  if (2 <=? length records)%nat then
    match head records, last records with
    | Some r0, Some rn =>
        match parseFloat (m_value r0) with
        | None => None
        | Some first =>
            match parseFloat (m_value rn) with
            | None => None
            | Some last =>
                if negb (PrimFloat.is_nan first) && negb (PrimFloat.is_nan last) then
                  let change := (last - first)%float in
                  let percentChange := toFixed ((change / first) * 100)%float 1 in
                  Some (Some {| change := change;
                                percentChange := percentChange;
                                direction := if (0 <? change)%float then "increase"
                                             else if (change <? 0)%float then "decrease"
                                             else "stable";
                                recordCount := length records |})
                else Some None
            end
        end
    | _, _ => Some None
    end
  else Some None.

(** The body of [Object.keys(typeGroups).forEach(type => ...)]; [None] when
    it throws, the group sorted by then. *)
Definition trend_record (trends : list (MetricType * Trend)) (entry : MetricType * ref)
  : M (option (list (MetricType * Trend))) :=
  let (type, group) := entry in
  let* sorted := array_sort by_timestamp group in
  let* records := array_get sorted in
  match trend_of records with
  | Some (Some t) => ret (Some (group_update trends type t))
  | Some None => ret (Some trends)
  | None => ret None
  end.

(** The loop ends at the first group whose body throws. *)
Fixpoint trend_records (entries : list (MetricType * ref)) (trends : list (MetricType * Trend))
  : M (option (list (MetricType * Trend))) :=
  match entries with
  | [] => ret (Some trends)
  | entry :: rest =>
      let* result := trend_record trends entry in
      match result with
      | Some trends' => trend_records rest trends'
      | None => ret None
      end
  end.

Definition recommend_more_metrics : string :=
  "Consider tracking more health metrics like blood pressure, heart rate, or sleep hours for a complete picture.".
Definition recommend_more_often : string :=
  "Try to log health data more frequently for better trend analysis.".
Definition recommend_keep_going : string :=
  "Great job tracking your health! Consistency is key to achieving your wellness goals.".

(** [generateHealthInsights(data)], with [data] the array it is called on;
    [None] when it throws. *)
Definition generateHealthInsights (data : ref) : M (option Insights) :=
  let* records := array_get data in
  let totalRecords := length records in
  let metricsTracked := Set_of (map m_type records) in
  let* typeGroups := group_records records [] in
  let* result := trend_records typeGroups [] in
  match result with
  | Some trends =>
      let recommendations :=
        (if (length metricsTracked <? 3)%nat then [recommend_more_metrics] else []) ++
        (if (length records <? 7)%nat then [recommend_more_often] else []) ++
        [recommend_keep_going] in
      ret (Some {| totalRecords := totalRecords;
                   metricsTracked := metricsTracked;
                   trends := trends;
                   recommendations := recommendations |})
  | None => ret None
  end.

(** ** The server *)

(** The module-level state: the array objects, and the two maps
    [healthData] (user to array) and [conversations] (session to
    conversation). *)
Record Server : Type := mkServer {
  heap : Heap;
  healthData : gmap string ref;
  conversations : gmap string (list ChatMessage)
}.

Definition initial : Server :=
  {| heap := []; healthData := ∅; conversations := ∅ |}.

(** A body that [healthMetricSchema] accepts.  The conversion of [value]
    by the alternatives of the schema is not part of the model: [b_value]
    is the value that validation returns for the body, which is the value
    of the body when that is a number or an object (see [kept_value]). *)
Record MetricBody : Set := mkMetricBody {
  b_type : MetricType;
  b_value : JsValue;
  b_unit : string;
  b_timestamp : option Z;
  b_notes : option string;
  b_userId : option string
}.

(** A body that [chatMessageSchema] accepts. *)
Record ChatBody : Set := mkChatBody {
  q_message : string;
  q_sessionId : option string;
  q_userId : option string
}.

(** The requests, each with what the environment supplies while it is
    served: the clock ([new Date()], [Date.now]), [uuidv4()] and
    [Math.random()].  The chat handler reads the clock twice, for the user
    entry and then for the bot entry. *)
Inductive Request : Set :=
  | GetHealthData (userId : option string)
  | PostHealthData (body : MetricBody) (uuid : string) (now : Z)
  | PostChat (body : ChatBody) (draw : N) (now : Z) (now' : Z)
  | GetChatHistory (sessionId : string)
  | GetInsights (userId : option string).

(** The answers.  [InternalServerError] is the status 500 that a handler
    sends from its [catch]; [UncaughtError] is the status 500 with which
    Express answers an exception that the handler does not catch. *)
Inductive Response : Set :=
  | HealthDataJson (userData : list HealthMetric)
  | MetricCreated (data : HealthMetric)
  | ChatJson (response : string) (sessionId : string) (conversation : list ChatMessage)
  | HistoryJson (conversation : list ChatMessage)
  | InsightsMessage (message : string)
  | InsightsJson (insights : Insights)
  | InternalServerError
  | UncaughtError.

(** [req.params.userId || 'default']. *)
Definition param_userId (userId : option string) : string :=
  match userId with
  | Some u => if String.eqb u "" then "default" else u
  | None => "default"
  end.

(** [healthData.get(userId) || []], read. *)
Definition userData_of (s : Server) (userId : string) : list HealthMetric :=
  match healthData s !! userId with
  | Some r => default [] (heap s !! r)
  | None => []
  end.

(** GET /api/health/data/:userId? *)
Definition getHealthData (userId : option string) (s : Server) : Response * Server :=
  (HealthDataJson (userData_of s (param_userId userId)), s).

(** What validation returns for a body whose value it returns as it is:
    [timestamp] defaults to [Date.now]. *)
Definition healthMetricSchema_validate (now : Z) (body : MetricBody) : MetricBody :=
  {| b_type := b_type body; b_value := b_value body; b_unit := b_unit body;
     b_timestamp := Some (default now (b_timestamp body));
     b_notes := b_notes body; b_userId := b_userId body |}.

(** [{ id: uuid, ...value }]. *)
Definition spread_value (uuid : string) (now : Z) (value : MetricBody) : HealthMetric :=
  {| m_id := uuid; m_type := b_type value; m_value := b_value value; m_unit := b_unit value;
     m_timestamp := default now (b_timestamp value);
     m_notes := b_notes value; m_userId := b_userId value |}.

(** [{ ...metric, timestamp: t }]. *)
Definition with_timestamp (t : Z) (metric : HealthMetric) : HealthMetric :=
  {| m_id := m_id metric; m_type := m_type metric; m_value := m_value metric;
     m_unit := m_unit metric; m_timestamp := t;
     m_notes := m_notes metric; m_userId := m_userId metric |}.

(** POST /api/health/data *)
Definition postHealthData (body : MetricBody) (uuid : string) (now : Z) (s : Server)
  : Response * Server :=
  let value := healthMetricSchema_validate now body in
  let userId := default "default" (b_userId value) in
  let healthMetric := with_timestamp now (spread_value uuid now value) in
  let '(r, h, hd) :=
    match healthData s !! userId with
    | Some r => (r, heap s, healthData s)
    | None =>
        let (r, h) := new_array (heap s) in
        (r, h, <[userId := r]> (healthData s))
    end in
  let (_, h') := array_push r healthMetric h in
  (MetricCreated healthMetric,
   {| heap := h'; healthData := hd; conversations := conversations s |}).

(** POST /api/chat.  When [generateResponse] throws, nothing has been
    stored yet and the [catch] answers. *)
Definition postChat (body : ChatBody) (draw : N) (now now' : Z) (s : Server)
  : Response * Server :=
  let message := q_message body in
  let sessionId := default "default" (q_sessionId body) in
  let userId := default "default" (q_userId body) in
  let userData := userData_of s userId in
  match generateResponse draw message userData with
  | None => (InternalServerError, s)
  | Some response =>
      let conversation :=
        default [] (conversations s !! sessionId) ++
        [ {| c_type := "user"; c_message := message; c_timestamp := now |};
          {| c_type := "bot"; c_message := response; c_timestamp := now' |} ] in
      (ChatJson response sessionId (slice_last 10 conversation),
       {| heap := heap s; healthData := healthData s;
          conversations := <[sessionId := conversation]> (conversations s) |})
  end.

(** GET /api/chat/history/:sessionId *)
Definition getChatHistory (sessionId : string) (s : Server) : Response * Server :=
  (HistoryJson (default [] (conversations s !! sessionId)), s).

Definition no_insights : string :=
  "No health data available for insights. Start tracking your health metrics!".

(** GET /api/health/insights/:userId?  The handler has no [try]: when
    [generateHealthInsights] throws, the groups made and sorted by then
    stay as they are and Express answers. *)
Definition getInsights (userId : option string) (s : Server) : Response * Server :=
  match healthData s !! param_userId userId with
  | None => (InsightsMessage no_insights, s)
  | Some r =>
      if (length (default [] (heap s !! r)) =? 0)%nat then (InsightsMessage no_insights, s)
      else
        let (result, h) := generateHealthInsights r (heap s) in
        (match result with
         | Some insights => InsightsJson insights
         | None => UncaughtError
         end,
         {| heap := h; healthData := healthData s; conversations := conversations s |})
  end.

Definition handle (req : Request) (s : Server) : Response * Server :=
  match req with
  | GetHealthData userId => getHealthData userId s
  | PostHealthData body uuid now => postHealthData body uuid now s
  | PostChat body draw now now' => postChat body draw now now' s
  | GetChatHistory sessionId => getChatHistory sessionId s
  | GetInsights userId => getInsights userId s
  end.

(** The server handles one request after the other. *)
Fixpoint serve (reqs : list Request) (s : Server) : list Response * Server :=
  match reqs with
  | [] => ([], s)
  | req :: rest =>
      let (resp, s') := handle req s in
      let (resps, s'') := serve rest s' in
      (resp :: resps, s'')
  end.

Definition reachable (s : Server) : Prop := exists reqs, snd (serve reqs initial) = s.

(** ** The intent of a message *)

(** The branch of [generateResponse] that a message takes, under the names
    the specification gives the intents. *)
Inductive Intent : Set :=
  | Greeting
  | MetricQuery (t : MetricType)
  | Summary
  | Help
  | Unknown.

Definition has_greeting (msg : string) : bool :=
  includes msg "hello" || includes msg "hi" || includes msg "hey".

Definition matched_intent (message : string) : Intent :=
  let msg := toLowerCase message in
  if has_greeting msg then Greeting
  else if includes msg "weight" then MetricQuery weight
  else if includes msg "blood pressure" then MetricQuery blood_pressure
  else if includes msg "heart rate" then MetricQuery heart_rate
  else if includes msg "summary" || includes msg "overview" then Summary
  else if includes msg "help" || includes msg "what can you do" then Help
  else Unknown.

(** The name of a metric kind in a message: its type with the underscore
    as a space. *)
Definition human_name (t : MetricType) : string := replace (type_name t) "_" " ".

(** The reply of the branch of a kind when no record of the kind is there;
    the code has such a branch for three kinds. *)
Definition no_data_prompt (t : MetricType) : option string :=
  match t with
  | weight => Some no_weight_data
  | blood_pressure => Some no_blood_pressure_data
  | heart_rate => Some no_heart_rate_data
  | _ => None
  end.

(** The types of a list, each once, in the order of their first
    occurrence. *)
Fixpoint first_occurrences (types : list MetricType) : list MetricType :=
  match types with
  | [] => []
  | t :: rest => t :: filter (fun t' => t' <> t) (first_occurrences rest)
  end.

(** The line of the summary for the kind [t]: from the record of the kind
    that was inserted last, and the number of records of the kind. *)
Definition summary_entry (healthData : list HealthMetric) (t : MetricType) : string :=
  match last (of_type t healthData) with
  | Some latest => default "" (summary_line t latest (length (of_type t healthData)))
  | None => ""
  end.

(** The conversion of the value to a string does not throw. *)
Definition converts (v : JsValue) : bool :=
  match ToString v with
  | Some _ => true
  | None => false
  end.

(** The values of all the records convert to a string. *)
Definition all_convert (records : list HealthMetric) : Prop :=
  Forall (fun r => converts (m_value r) = true) records.

(** The record of each kind that was inserted last has a value that
    converts to a string. *)
Definition latest_convert (healthData : list HealthMetric) : Prop :=
  forall (t : MetricType) (latest : HealthMetric),
    last (of_type t healthData) = Some latest -> converts (m_value latest) = true.

(** The reply of each intent, as [generateResponse] composes it. *)
Definition reply_for (i : Intent) (draw : N) (message : string) (healthData : list HealthMetric)
  : option string :=
  match i with
  | Greeting => Some (getRandomResponse draw responses_greeting)
  | MetricQuery t =>
      match last (of_type t healthData) with
      | Some latest =>
          match ToString (m_value latest) with
          | Some value =>
              match t with
              | weight =>
                  Some ("Your latest weight is " +:+ value +:+ " " +:+
                        m_unit latest +:+ ". " +:+ responses_weight_advice)
              | blood_pressure =>
                  Some ("Your latest blood pressure is " +:+ value +:+
                        ". " +:+ responses_blood_pressure_advice)
              | heart_rate =>
                  Some ("Your latest heart rate is " +:+ value +:+ " " +:+
                        m_unit latest +:+ ". " +:+ responses_heart_rate_advice)
              | _ => Some (default_response message)
              end
          | None => None
          end
      | None =>
          match no_data_prompt t with
          | Some prompt => Some prompt
          | None => Some (default_response message)
          end
      end
  | Summary =>
      match healthData with
      | [] => Some no_data_at_all
      | _ => generateHealthSummary healthData
      end
  | Help => Some help_text
  | Unknown => Some (default_response message)
  end.

(** The lines of a text, one after the other. *)
Definition join_lines (lines : list string) : string := fold_right String.append "" lines.

(** The table that gives every key of [keys] the value [f] has for it. *)
Definition tabulate {A} (f : MetricType -> A) (keys : list MetricType) : list (MetricType * A) :=
  map (fun k => (k, f k)) keys.

(** The array object at [r]. *)
Definition at_ref (h : Heap) (r : ref) : list HealthMetric := default [] (h !! r).

(** The groups that a [typeGroups] object holds, read through the heap. *)
Definition deref (h : Heap) (typeGroups : list (MetricType * ref))
  : list (MetricType * list HealthMetric) :=
  map (fun entry => (fst entry, at_ref h (snd entry))) typeGroups.

(** The arrays of [typeGroups] are distinct objects, allocated at or after
    address [n0]. *)
Definition fresh_groups (n0 : nat) (h : Heap) (typeGroups : list (MetricType * ref)) : Prop :=
  (n0 <= length h)%nat /\
  NoDup (map snd typeGroups) /\
  Forall (fun r => (n0 <= r < length h)%nat) (map snd typeGroups).

(** What one round of the trend loop does to [trends], given the records
    of the group. *)
Definition trend_step (result : option (list (MetricType * Trend)))
    (entry : MetricType * list HealthMetric) : option (list (MetricType * Trend)) :=
  match result with
  | Some trends =>
      match trend_of (Array_sort by_timestamp (snd entry)) with
      | Some (Some t) => Some (group_update trends (fst entry) t)
      | Some None => Some trends
      | None => None
      end
  | None => None
  end.

(** Every array that [healthData] refers to is allocated. *)
Definition store_ok (s : Server) : Prop :=
  forall (userId : string) (r : ref), healthData s !! userId = Some r -> (r < length (heap s))%nat.

(** A conversation made of exchanges: a user entry and the bot entry that
    answers it. *)
Fixpoint paired (conversation : list ChatMessage) : Prop :=
  match conversation with
  | [] => True
  | user :: bot :: rest => c_type user = "user" /\ c_type bot = "bot" /\ paired rest
  | _ => False
  end.

Definition conversations_paired (s : Server) : Prop :=
  forall (sessionId : string) (conversation : list ChatMessage),
    conversations s !! sessionId = Some conversation -> paired conversation.

(** The requests that record a measurement. *)
Definition is_record (req : Request) : bool :=
  match req with
  | PostHealthData _ _ _ => true
  | _ => false
  end.

(** No array is the store of two users. *)
Definition store_separate (s : Server) : Prop :=
  forall (u1 u2 : string) (r : ref),
    healthData s !! u1 = Some r -> healthData s !! u2 = Some r -> u1 = u2.

(** The record that POST /api/health/data creates for a body. *)
Definition created_metric (body : MetricBody) (uuid : string) (now : Z) : HealthMetric :=
  {| m_id := uuid; m_type := b_type body; m_value := b_value body;
     m_unit := b_unit body; m_timestamp := now;
     m_notes := b_notes body; m_userId := b_userId body |}.

(** The records that a sequence of requests creates for a user, in the
    order of the requests. *)
Fixpoint posted_for (userId : string) (reqs : list Request) : list HealthMetric :=
  match reqs with
  | [] => []
  | PostHealthData body uuid now :: rest =>
      (if decide (default "default" (b_userId body) = userId)
       then [created_metric body uuid now] else []) ++ posted_for userId rest
  | _ :: rest => posted_for userId rest
  end.

(** The records that the answers of a run report as created for a user,
    in the order of the answers. *)
Fixpoint recorded_for (userId : string) (resps : list Response) : list HealthMetric :=
  match resps with
  | [] => []
  | MetricCreated data :: rest =>
      (if decide (default "default" (m_userId data) = userId) then [data] else []) ++
      recorded_for userId rest
  | _ :: rest => recorded_for userId rest
  end.

(** The clock readings of the requests that record a measurement. *)
Fixpoint record_clocks (reqs : list Request) : list Z :=
  match reqs with
  | [] => []
  | PostHealthData _ _ now :: rest => now :: record_clocks rest
  | _ :: rest => record_clocks rest
  end.

(** The conversation that is stored for a session. *)
Definition history_of (s : Server) (sessionId : string) : list ChatMessage :=
  default [] (conversations s !! sessionId).

(** The two entries that a chat request adds to its conversation, each
    with its reading of the clock. *)
Definition exchange (message response : string) (now now' : Z) : list ChatMessage :=
  [ {| c_type := "user"; c_message := message; c_timestamp := now |};
    {| c_type := "bot"; c_message := response; c_timestamp := now' |} ].

(** The exchanges of a session in a run: for every chat request of the
    session that was answered with a reply, its message and that reply. *)
Fixpoint answered (sessionId : string) (reqs : list Request) (resps : list Response)
  : list ChatMessage :=
  match reqs, resps with
  | PostChat body _ now now' :: reqs', ChatJson response _ _ :: resps' =>
      (if decide (default "default" (q_sessionId body) = sessionId)
       then exchange (q_message body) response now now' else []) ++
      answered sessionId reqs' resps'
  | _ :: reqs', _ :: resps' => answered sessionId reqs' resps'
  | _, _ => []
  end.

(** The values that the alternatives of the schema surely return as they
    are: a number and an object.  A string that [Joi.number()] reads as a
    number is returned as that number; which strings these are is not
    modelled. *)
Definition kept_value (v : JsValue) : bool :=
  match v with
  | VStr _ => false
  | _ => true
  end.

(** Every measurement that the requests record has such a value. *)
Definition kept_values (reqs : list Request) : Prop :=
  Forall (fun req => match req with
                     | PostHealthData body _ _ => kept_value (b_value body) = true
                     | _ => True
                     end) reqs.

(** ** The client's validation (validateHealthData) *)

(** [s.trimEnd()]: the text up to the point from which only white space
    follows; and the trimming of both ends that the conversion of a string
    to a number starts with. *)
Fixpoint trimEnd (s : string) : string :=
  match s with
  | EmptyString => EmptyString
  | String c s' =>
      if String.eqb (trimStart s) EmptyString then EmptyString
      else String c (trimEnd s')
  end.

Definition trim (s : string) : string := trimEnd (trimStart s).

(** The value of a digit in the radix, if the character is one. *)
Definition radix_digit (radix : Z) (c : ascii) : option Z :=
  let n := Z.of_nat (nat_of_ascii c) in
  let v := if (48 <=? n) && (n <=? 57) then n - 48
           else if (97 <=? n) && (n <=? 102) then n - 87
           else if (65 <=? n) && (n <=? 70) then n - 55
           else 16 in
  if v <? radix then Some v else None.

(** The integer that a text of digits of the radix denotes, when the whole
    text is such digits and there is one at least. *)
Fixpoint radix_digits (radix : Z) (s : string) (acc : Z) (cnt : nat) : option Z :=
  match s with
  | EmptyString => if (cnt =? 0)%nat then None else Some acc
  | String c s' =>
      match radix_digit radix c with
      | Some v => radix_digits radix s' (radix * acc + v) (S cnt)
      | None => None
      end
  end.

(** ExponentPart and the text after it; exponent 0 and the text itself when
    no complete ExponentPart is there. *)
Definition read_exponent_rest (s : string) : Z * string :=
  match s with
  | String c s' =>
      if Ascii.eqb c "e" || Ascii.eqb c "E" then
        let '(neg, s'') := read_sign s' in
        let '(ex, cnt, rest) := read_digits s'' 0 0 in
        if cnt =? 0 then (0, s) else (if neg then - ex else ex, rest)
      else (0, s)
  | EmptyString => (0, s)
  end.

(** The StrDecimalLiteral at the start of a text, with the text after it. *)
Definition read_StrDecimalLiteral (input : string) : option (float * string) :=
  let '(neg, s) := read_sign input in
  if startsWith s "Infinity"
  then Some (if neg then neg_infinity else infinity,
             String.substring 8 (String.length s - 8) s)
  else
    let '(ip, ni, s1) := read_digits s 0 0 in
    let '(m, nf, s2) :=
      match s1 with
      | String "." s1' =>
          let '(m, nf, s2) := read_digits s1' ip 0 in
          if (ni =? 0) && (nf =? 0) then (ip, 0, s1) else (m, nf, s2)
      | _ => (ip, 0, s1)
      end in
    if (ni =? 0) && (nf =? 0) then None
    else
      let '(ex, rest) := read_exponent_rest s2 in
      Some (float_of_decimal neg m (ex - nf), rest).

(** [Number(s)] for a string: the number that the trimmed text denotes as a
    whole, 0 for the empty text, NaN when it is no numeric literal. *)
Definition StringToNumber (s : string) : float :=
  let t := trim s in
  match t with
  | EmptyString => 0%float
  | String "0" (String c digits) =>
      let radix :=
        if Ascii.eqb c "x" || Ascii.eqb c "X" then 16
        else if Ascii.eqb c "o" || Ascii.eqb c "O" then 8
        else if Ascii.eqb c "b" || Ascii.eqb c "B" then 2
        else 0 in
      if radix =? 0 then
        match read_StrDecimalLiteral t with
        | Some (x, EmptyString) => x
        | _ => nan
        end
      else
        match radix_digits radix digits 0 0 with
        | Some n => float_of_decimal false n 0
        | None => nan
        end
  | _ =>
      match read_StrDecimalLiteral t with
      | Some (x, EmptyString) => x
      | _ => nan
      end
  end.

(** A value of any kind, as a partial record may hold it. *)
Inductive JsAny : Set :=
  | AUndefined
  | ANull
  | ANumber (x : float)
  | AString (s : string)
  | AObject.

(** [Partial<HealthMetric>], with the fields that the validation reads; an
    absent field is [None] or [AUndefined]. *)
Record PartialMetric : Set := mkPartialMetric {
  p_type : option string;
  p_value : JsAny;
  p_unit : option string
}.

(** [!x] for a string that may be undefined. *)
Definition falsy (x : option string) : bool :=
  match x with
  | None => true
  | Some s => String.eqb s ""
  end.

Definition validTypes : list string :=
  ["weight"; "height"; "blood_pressure"; "heart_rate"; "blood_sugar";
   "temperature"; "sleep_hours"; "steps"; "water_intake"; "exercise_minutes"].

Definition numericMetrics : list string :=
  ["weight"; "height"; "heart_rate"; "blood_sugar"; "temperature";
   "sleep_hours"; "steps"; "water_intake"; "exercise_minutes"].

(** [arr.includes(s)] for an array of strings. *)
Definition Array_includes (arr : list string) (s : string) : bool :=
  existsb (String.eqb s) arr.

(** The digits at the start of a text: how many, and what follows. *)
Fixpoint skip_digits (s : string) : nat * string :=
  match s with
  | String c s' =>
      if is_digit c then let (n, rest) := skip_digits s' in (S n, rest) else (O, s)
  | EmptyString => (O, s)
  end.

(** [/^\d+\/\d+$/.test(s)]. *)
Definition bpRegex_test (s : string) : bool :=
  let (n1, rest1) := skip_digits s in
  match rest1 with
  | String "/" rest2 =>
      let (n2, rest3) := skip_digits rest2 in
      (0 <? n1)%nat && (0 <? n2)%nat && String.eqb rest3 ""
  | _ => false
  end.

Definition error_type_required : string := "Type is required".
Definition error_value_required : string := "Value is required".
Definition error_unit_required : string := "Unit is required".
Definition error_invalid_type : string := "Invalid metric type".
Definition error_not_a_number : string := "Value must be a number for this metric type".
Definition error_blood_pressure : string :=
  "Blood pressure must be in format " +:+ quote +:+ "systolic/diastolic" +:+ quote.

(** [validateHealthData(data)]: [isValid] and [errors]. *)
Definition validateHealthData (data : PartialMetric) : bool * list string :=
  let errors := [] in
  let errors := if falsy (p_type data) then errors ++ [error_type_required] else errors in
  let errors :=
    match p_value data with
    | AUndefined | ANull => errors ++ [error_value_required]
    | AString v => if String.eqb v "" then errors ++ [error_value_required] else errors
    | _ => errors
    end in
  let errors := if falsy (p_unit data) then errors ++ [error_unit_required] else errors in
  let errors :=
    match p_type data with
    | Some t =>
        if negb (String.eqb t "") && negb (Array_includes validTypes t)
        then errors ++ [error_invalid_type] else errors
    | None => errors
    end in
  let errors :=
    match p_type data, p_value data with
    | Some t, AString v =>
        if negb (String.eqb t "") && Array_includes numericMetrics t &&
           PrimFloat.is_nan (StringToNumber v)
        then errors ++ [error_not_a_number] else errors
    | _, _ => errors
    end in
  let errors :=
    match p_type data, p_value data with
    | Some t, AString v =>
        if String.eqb t "blood_pressure" && negb (bpRegex_test v)
        then errors ++ [error_blood_pressure] else errors
    | _, _ => errors
    end in
  ((length errors =? 0)%nat, errors).

(** A text that is not empty and has digits only. *)
Fixpoint all_digits (s : string) : bool :=
  match s with
  | EmptyString => true
  | String c s' => is_digit c && all_digits s'
  end.

Definition digits_only (s : string) : Prop := s <> "" /\ all_digits s = true.

(** * Properties *)

(** ** Strings *)

Lemma append_cons (x : ascii) (a b : string) : String x a +:+ b = String x (a +:+ b).
Proof. reflexivity. Qed.

Lemma append_assoc (a b c : string) : (a +:+ b) +:+ c = a +:+ (b +:+ c).
Proof.
  induction a as [|x a IH]; [reflexivity |].
  rewrite !append_cons. f_equal. exact IH.
Qed.

Lemma startsWith_app (p s : string) : startsWith (p +:+ s) p = true.
Proof.
  induction p as [|x p IH]; [reflexivity |].
  rewrite append_cons. simpl. rewrite Ascii.eqb_refl. exact IH.
Qed.

Lemma includes_startsWith (s sub : string) : startsWith s sub = true -> includes s sub = true.
Proof. intros H. destruct s; simpl in *; rewrite H; reflexivity. Qed.

Lemma includes_app_r (a s sub : string) : includes s sub = true -> includes (a +:+ s) sub = true.
Proof.
  intros H. induction a as [|x a IH]; [exact H |].
  rewrite append_cons. simpl. rewrite IH. apply orb_true_r.
Qed.

(** A text that has [sub] somewhere in it includes [sub]. *)
Lemma includes_infix (a sub b : string) : includes (a +:+ sub +:+ b) sub = true.
Proof. apply includes_app_r, includes_startsWith, startsWith_app. Qed.

(** The lower case of U+0130 starts with [i]: "H" followed by it is a
    greeting; and white space outside ASCII, here U+00A0 and U+3000, is
    skipped before a number. *)
Example lower_case_outside_ascii :
  toLowerCase ("H" +:+ bytes [196; 176]%nat) = "hi" +:+ bytes [204; 135]%nat /\
  matched_intent ("H" +:+ bytes [196; 176]%nat) = Greeting /\
  toLowerCase (bytes [226; 132; 170]%nat +:+ "G") = "kg".
Proof. repeat split; vm_compute; reflexivity. Qed.

Example white_space_outside_ascii :
  parseFloat_string (bytes [194; 160; 227; 128; 128]%nat +:+ " 120/80") = 120%float /\
  trim (bytes [239; 187; 191]%nat +:+ "7.5 " +:+ bytes [226; 128; 168]%nat) = "7.5".
Proof. split; vm_compute; reflexivity. Qed.

(** ** The random greeting *)

Lemma random_index_lt (draw : N) (len : nat) : (0 < len)%nat -> (random_index draw len < len)%nat.
Proof.
  intros Hlen. unfold random_index.
  assert (H : ((draw mod 2 ^ 53) * N.of_nat len / 2 ^ 53 < N.of_nat len)%N).
  { apply N.Div0.div_lt_upper_bound.
    apply N.mul_lt_mono_pos_r; [lia |].
    apply N.mod_lt. discriminate. }
  lia.
Qed.

Lemma getRandomResponse_In (draw : N) (responses : list string) :
  responses <> [] -> In (getRandomResponse draw responses) responses.
Proof.
  intros Hne. unfold getRandomResponse. apply nth_In.
  apply random_index_lt. destruct responses; [congruence | simpl; lia].
Qed.

Lemma greeting_In (draw : N) : In (getRandomResponse draw responses_greeting) responses_greeting.
Proof. apply getRandomResponse_In. discriminate. Qed.

(** ** Replies *)

(** [generateResponse] is the reply of the intent that the message
    matches. *)
Lemma generateResponse_by_intent (draw : N) (message : string) (healthData : list HealthMetric) :
  generateResponse draw message healthData
  = reply_for (matched_intent message) draw message healthData.
Proof.
  unfold generateResponse, matched_intent, has_greeting.
  repeat match goal with
         | |- context [if ?b then _ else _] => destruct b eqn:?; simpl
         end;
  try reflexivity;
  repeat match goal with
         | |- context [last ?l] => destruct (last l); simpl
         end; reflexivity.
Qed.

Lemma has_greeting_intent (message : string) :
  has_greeting (toLowerCase message) = true -> matched_intent message = Greeting.
Proof. intros H. unfold matched_intent. rewrite H. reflexivity. Qed.

Lemma greeting_reply (draw : N) (message : string) (healthData : list HealthMetric) :
  matched_intent message = Greeting ->
  generateResponse draw message healthData = Some (getRandomResponse draw responses_greeting).
Proof. intros H. rewrite generateResponse_by_intent, H. reflexivity. Qed.


(** ** Greetings come first *)

(** C6. A message whose lowercased text contains "hello", "hi" or "hey"
    takes the greeting branch and is answered with one of the canned
    greetings, whatever else it contains and whatever data the user has:
    it is never a metric query. *)
Theorem greeting_takes_priority (draw : N) (message : string) (healthData : list HealthMetric) :
  includes (toLowerCase message) "hello" = true \/
  includes (toLowerCase message) "hi" = true \/
  includes (toLowerCase message) "hey" = true ->
  matched_intent message = Greeting /\
  generateResponse draw message healthData = Some (getRandomResponse draw responses_greeting) /\
  In (getRandomResponse draw responses_greeting) responses_greeting.
Proof.
  intros H.
  assert (Hg : has_greeting (toLowerCase message) = true).
  { unfold has_greeting. destruct H as [-> | [-> | ->]];
      rewrite ?orb_true_r; reflexivity. }
  apply has_greeting_intent in Hg.
  split; [exact Hg |]. split; [now apply greeting_reply | apply greeting_In].
Qed.

(** Scenario B: "hello, what's my blood pressure" with no records. *)
Lemma greeting_takes_priority_scenario_B :
  includes (toLowerCase "hello, what's my blood pressure") "blood pressure" = true /\
  matched_intent "hello, what's my blood pressure" = Greeting /\
  generateResponse 0 "hello, what's my blood pressure" []
  = Some (getRandomResponse 0 responses_greeting) /\
  In (getRandomResponse 0 responses_greeting) responses_greeting.
Proof.
  split; [reflexivity |].
  apply (greeting_takes_priority 0 "hello, what's my blood pressure" []).
  left. reflexivity.
Defined.



(** ** Metric queries *)

Lemma metric_query_reply (draw : N) (message : string) (healthData : list HealthMetric)
    (t : MetricType) :
  matched_intent message = MetricQuery t ->
  generateResponse draw message healthData = reply_for (MetricQuery t) draw message healthData.
Proof. intros H. rewrite generateResponse_by_intent, H. reflexivity. Qed.

(** C1, as the code has it.  The chatbot has a branch for weight, blood
    pressure and heart rate, tested in this order after the greeting: when
    the lowercased message contains the name of one of the three, no
    greeting keyword and none of the names tested before it, and the user
    has no record of that kind, the reply is the canned prompt of the
    kind, and the call does not throw. *)
Theorem no_data_prompt_for_queried_kind
    (draw : N) (message : string) (healthData : list HealthMetric) (t : MetricType) :
  has_greeting (toLowerCase message) = false ->
  includes (toLowerCase message) (human_name t) = true ->
  of_type t healthData = [] ->
  t = weight \/
  (t = blood_pressure /\ includes (toLowerCase message) "weight" = false) \/
  (t = heart_rate /\ includes (toLowerCase message) "weight" = false /\
   includes (toLowerCase message) "blood pressure" = false) ->
  matched_intent message = MetricQuery t /\
  exists prompt, no_data_prompt t = Some prompt /\
                 generateResponse draw message healthData = Some prompt.
Proof.
  intros Hg Hname Hnone Ht.
  assert (Hi : matched_intent message = MetricQuery t).
  { unfold matched_intent. rewrite Hg.
    destruct Ht as [-> | [[-> Hw] | (-> & Hw & Hb)]]; simpl in Hname.
    - change (human_name weight) with "weight" in Hname. now rewrite Hname.
    - change (human_name blood_pressure) with "blood pressure" in Hname.
      now rewrite Hw, Hname.
    - change (human_name heart_rate) with "heart rate" in Hname.
      now rewrite Hw, Hb, Hname. }
  split; [exact Hi |].
  rewrite (metric_query_reply _ _ _ _ Hi). simpl. rewrite Hnone. simpl.
  destruct Ht as [-> | [[-> _] | (-> & _)]]; simpl; eauto.
Qed.

Lemma no_data_prompt_for_queried_kind_witness :
  matched_intent "Show my Heart Rate" = MetricQuery heart_rate /\
  exists prompt, no_data_prompt heart_rate = Some prompt /\
    generateResponse 0 "Show my Heart Rate"
      [mkHealthMetric "1" steps (VNum 9000) "steps" 1 None None] = Some prompt.
Proof.
  apply (no_data_prompt_for_queried_kind 0 "Show my Heart Rate"
           [mkHealthMetric "1" steps (VNum 9000) "steps" 1 None None] heart_rate).
  - reflexivity.
  - reflexivity.
  - reflexivity.
  - right. right. split; [reflexivity | split; reflexivity].
Defined.

(** C1 fails as it is stated.  "show my steps" names a kind of the
    enumeration and has no greeting keyword, the user has no steps record,
    and the reply is the fallback that echoes the message; and
    "weight and heart rate" names heart rate, of which the user has no
    record, and is answered with the latest weight. *)
Lemma no_data_prompt_not_for_every_kind :
  (has_greeting (toLowerCase "show my steps") = false /\
   includes (toLowerCase "show my steps") (human_name steps) = true /\
   of_type steps [] = [] /\
   matched_intent "show my steps" = Unknown /\
   generateResponse 0 "show my steps" [] = Some (default_response "show my steps")) /\
  (let healthData := [mkHealthMetric "1" weight (VNum 70) "kg" 1 None None] in
   has_greeting (toLowerCase "weight and heart rate") = false /\
   includes (toLowerCase "weight and heart rate") (human_name heart_rate) = true /\
   of_type heart_rate healthData = [] /\
   matched_intent "weight and heart rate" = MetricQuery weight /\
   generateResponse 0 "weight and heart rate" healthData
   = Some ("Your latest weight is 70 kg. " +:+ responses_weight_advice) /\
   generateResponse 0 "weight and heart rate" healthData <> Some no_heart_rate_data).
Proof.
  split.
  - repeat split; vm_compute; reflexivity.
  - cbv zeta. repeat split; try (vm_compute; reflexivity).
    intros H. vm_compute in H. discriminate H.
Qed.

(** A metric query is answered from the record of the kind that was
    inserted last, whatever the timestamps are. *)
Lemma metric_reply_of_last_inserted
    (draw : N) (message : string) (healthData earlier : list HealthMetric)
    (t : MetricType) (latest : HealthMetric) :
  matched_intent message = MetricQuery t ->
  of_type t healthData = earlier ++ [latest] ->
  generateResponse draw message healthData
  = match ToString (m_value latest) with
    | Some value =>
        Some (match t with
              | blood_pressure =>
                  "Your latest blood pressure is " +:+ value +:+
                  ". " +:+ responses_blood_pressure_advice
              | heart_rate =>
                  "Your latest heart rate is " +:+ value +:+ " " +:+
                  m_unit latest +:+ ". " +:+ responses_heart_rate_advice
              | _ =>
                  "Your latest weight is " +:+ value +:+ " " +:+
                  m_unit latest +:+ ". " +:+ responses_weight_advice
              end)
    | None => None
    end.
Proof.
  intros Hi Hlast. rewrite (metric_query_reply _ _ _ _ Hi). simpl.
  rewrite Hlast, last_snoc.
  destruct (ToString (m_value latest)); [| reflexivity].
  unfold matched_intent in Hi.
  repeat match type of Hi with
         | (if ?b then _ else _) = _ => destruct b
         end; try discriminate Hi; injection Hi as <-; reflexivity.
Qed.

Example latest_is_last_inserted :
  generateResponse 0 "my weight"
    [ mkHealthMetric "1" weight (VNum 70) "kg" 3000 None None;
      mkHealthMetric "2" weight (VNum 68) "kg" 1000 None None ]
  = Some ("Your latest weight is 68 kg. " +:+ responses_weight_advice).
Proof. vm_compute. reflexivity. Qed.

(** C4, at the input where the code departs from it: the reply to a blood
    pressure query holds the value of the last record and the advice, and
    not the unit; the weight branch puts the unit after the value. *)
Theorem blood_pressure_reply_lacks_unit :
  let bp := mkHealthMetric "1" blood_pressure (VStr "120/80") "mmHg" 1 None None in
  let w := mkHealthMetric "2" weight (VNum 70) "kg" 2 None None in
  generateResponse 0 "show my blood pressure" [bp; w]
  = Some ("Your latest blood pressure is 120/80. " +:+ responses_blood_pressure_advice) /\
  includes ("Your latest blood pressure is 120/80. " +:+ responses_blood_pressure_advice) "mmHg"
  = false /\
  generateResponse 0 "show my weight" [bp; w]
  = Some ("Your latest weight is 70 kg. " +:+ responses_weight_advice).
Proof. cbv zeta. repeat split; vm_compute; reflexivity. Qed.

(** ** Groups by type *)

Section Groups.
Context {A : Type}.
Implicit Types (typeGroups : list (MetricType * A)) (t k : MetricType) (g : A).
Implicit Types (keys : list MetricType).

Lemma group_lookup_update typeGroups k g t :
  group_lookup (group_update typeGroups k g) t
  = if decide (k = t) then Some g else group_lookup typeGroups t.
Proof.
  induction typeGroups as [|[k0 g0] rest IH]; simpl.
  - destruct (decide (k = t)); reflexivity.
  - destruct (decide (k0 = k)) as [-> | Hne]; simpl.
    + destruct (decide (k = t)); reflexivity.
    + rewrite IH. destruct (decide (k0 = t)) as [-> | ?]; [| reflexivity].
      destruct (decide (k = t)); [congruence | reflexivity].
Qed.

Lemma group_lookup_None typeGroups t :
  group_lookup typeGroups t = None <-> t ∉ map fst typeGroups.
Proof.
  induction typeGroups as [|[k0 g0] rest IH]; simpl.
  - split; [intros _; apply not_elem_of_nil | reflexivity].
  - rewrite not_elem_of_cons. destruct (decide (k0 = t)) as [-> | Hne].
    + split; [discriminate | intros [? _]; congruence].
    + rewrite IH. split; [intros ?; split; congruence | intros [_ ?]; assumption].
Qed.

Lemma group_update_fresh typeGroups t g :
  group_lookup typeGroups t = None -> group_update typeGroups t g = typeGroups ++ [(t, g)].
Proof.
  induction typeGroups as [|[k0 g0] rest IH]; simpl; [reflexivity |].
  destruct (decide (k0 = t)); [discriminate |].
  intros H. now rewrite IH.
Qed.

Lemma group_update_last typeGroups t g0 g :
  group_lookup typeGroups t = None ->
  group_update (typeGroups ++ [(t, g0)]) t g = typeGroups ++ [(t, g)].
Proof.
  induction typeGroups as [|[k0 g1] rest IH]; simpl.
  - now rewrite decide_True.
  - destruct (decide (k0 = t)); [discriminate |].
    intros H. now rewrite IH.
Qed.

Lemma group_lookup_tabulate (f : MetricType -> A) keys t :
  group_lookup (tabulate f keys) t = if decide (t ∈ keys) then Some (f t) else None.
Proof.
  induction keys as [|k0 keys IH]; simpl.
  - destruct (decide (t ∈ [])) as [H | ?]; [| reflexivity].
    now apply elem_of_nil in H.
  - destruct (decide (k0 = t)) as [-> | Hne].
    + destruct (decide (t ∈ t :: keys)) as [? | H]; [reflexivity |].
      exfalso. apply H. left.
    + rewrite IH. destruct (decide (t ∈ keys)) as [Hin | Hnin].
      * destruct (decide (t ∈ k0 :: keys)) as [? | H]; [reflexivity |].
        exfalso. apply H. now right.
      * destruct (decide (t ∈ k0 :: keys)) as [H | ?]; [| reflexivity].
        apply elem_of_cons in H as [? | ?]; congruence.
Qed.

Lemma group_update_tabulate (f : MetricType -> A) keys t g :
  NoDup keys -> t ∈ keys ->
  group_update (tabulate f keys) t g
  = tabulate (fun k => if decide (k = t) then g else f k) keys.
Proof.
  induction 1 as [|k0 keys Hnin Hnd IH]; simpl.
  - intros H. now apply elem_of_nil in H.
  - intros Hin. destruct (decide (k0 = t)) as [-> | Hne]; f_equal.
    + unfold tabulate. apply map_ext_in. intros k Hk.
      destruct (decide (k = t)) as [-> | ?]; [| reflexivity].
      exfalso. apply Hnin. now apply list_elem_of_In.
    + apply IH. apply elem_of_cons in Hin as [? | ?]; [congruence | assumption].
Qed.
End Groups.

Lemma elem_of_Set_add (seen : list MetricType) (t t' : MetricType) :
  t' ∈ Set_add seen t <-> t' ∈ seen \/ t' = t.
Proof.
  unfold Set_add. destruct (decide (t ∈ seen)).
  - split; [now left | intros [? | ->]; assumption].
  - rewrite elem_of_app, list_elem_of_singleton. reflexivity.
Qed.

Lemma NoDup_Set_add (seen : list MetricType) (t : MetricType) :
  NoDup seen -> NoDup (Set_add seen t).
Proof.
  intros H. unfold Set_add. destruct (decide (t ∈ seen)) as [? | Hnin]; [assumption |].
  apply NoDup_app. split; [assumption |]. split.
  - intros x Hx Hx'. apply list_elem_of_singleton in Hx'. congruence.
  - apply NoDup_singleton.
Qed.

Lemma Set_of_snoc (types : list MetricType) (t : MetricType) :
  Set_of (types ++ [t]) = Set_add (Set_of types) t.
Proof. unfold Set_of. now rewrite fold_left_app. Qed.

Lemma elem_of_Set_of (types : list MetricType) (t : MetricType) :
  t ∈ Set_of types <-> t ∈ types.
Proof.
  induction types as [|t0 types IH] using rev_ind.
  - reflexivity.
  - rewrite Set_of_snoc, elem_of_Set_add, elem_of_app, list_elem_of_singleton, IH.
    reflexivity.
Qed.

Lemma NoDup_Set_of (types : list MetricType) : NoDup (Set_of types).
Proof.
  induction types as [|t0 types IH] using rev_ind.
  - apply NoDup_nil_2.
  - rewrite Set_of_snoc. now apply NoDup_Set_add.
Qed.

Lemma filter_all {A} (P : A -> Prop) `{!forall x, Decision (P x)} (l : list A) :
  (forall x, P x) -> filter P l = l.
Proof.
  intros HP. induction l as [|x l IH]; [reflexivity |].
  rewrite filter_cons, decide_True by apply HP. now rewrite IH.
Qed.

Lemma Set_of_from (types seen : list MetricType) :
  fold_left Set_add types seen
  = seen ++ filter (fun t => t ∉ seen) (first_occurrences types).
Proof.
  revert seen. induction types as [|t types IH]; intros seen; simpl.
  - now rewrite app_nil_r.
  - rewrite IH. unfold Set_add. rewrite filter_cons.
    destruct (decide (t ∈ seen)) as [Hin | Hnin].
    + rewrite decide_False by (intros H; now apply H).
      f_equal. rewrite list_filter_filter. apply list_filter_iff.
      intros x. split; [intros ?; split; [assumption | congruence] | intros [? _]; assumption].
    + rewrite decide_True by assumption.
      rewrite <- app_assoc. simpl. do 2 f_equal.
      rewrite list_filter_filter. apply list_filter_iff.
      intros x. rewrite elem_of_app, list_elem_of_singleton. tauto.
Qed.

(** [new Set] keeps the types in the order of their first occurrence. *)
Lemma Set_of_first_occurrences (types : list MetricType) :
  Set_of types = first_occurrences types.
Proof.
  unfold Set_of. rewrite Set_of_from. simpl.
  apply filter_all. intros x. apply not_elem_of_nil.
Qed.

Lemma of_type_snoc (t : MetricType) (healthData : list HealthMetric) (d : HealthMetric) :
  of_type t (healthData ++ [d])
  = of_type t healthData ++ (if decide (m_type d = t) then [d] else []).
Proof.
  unfold of_type. rewrite filter_app, filter_cons, filter_nil.
  destruct (decide (m_type d = t)); reflexivity.
Qed.

Lemma of_type_nil_iff (t : MetricType) (healthData : list HealthMetric) :
  of_type t healthData = [] <-> t ∉ map m_type healthData.
Proof.
  unfold of_type. rewrite list_elem_of_fmap. split.
  - intros H (d & -> & Hd).
    assert (Hin : d ∈ filter (fun d0 => m_type d0 = m_type d) healthData)
      by now apply list_elem_of_filter.
    rewrite H in Hin. now apply elem_of_nil in Hin.
  - intros H. induction healthData as [|d healthData IH]; [reflexivity |].
    rewrite filter_cons. destruct (decide (m_type d = t)) as [Ht | Hne].
    + exfalso. apply H. exists d. split; [now symmetry | left].
    + apply IH. intros (d' & Hd' & Hin). apply H. exists d'. split; [assumption | now right].
Qed.

(** The groups that the grouping loop builds: for every type of the data,
    in the order of first occurrence, the records of the type in the order
    of the data. *)
Lemma group_push_all (healthData : list HealthMetric) :
  fold_left group_push healthData []
  = tabulate (fun t => of_type t healthData) (Set_of (map m_type healthData)).
Proof.
  induction healthData as [|d healthData IH] using rev_ind; [reflexivity |].
  rewrite fold_left_app, IH, map_app. clear IH.
  change (map m_type [d]) with [m_type d]. rewrite Set_of_snoc.
  change (fold_left group_push [d] ?x) with (group_push x d).
  set (keys := Set_of (map m_type healthData)).
  assert (Hnd : NoDup keys) by apply NoDup_Set_of.
  unfold group_push, Set_add. rewrite group_lookup_tabulate.
  destruct (decide (m_type d ∈ keys)) as [Hin | Hnin].
  - rewrite group_lookup_tabulate, decide_True by assumption.
    rewrite group_update_tabulate by assumption.
    unfold tabulate. apply map_ext. intros k. f_equal.
    rewrite of_type_snoc.
    destruct (decide (k = m_type d)) as [-> | Hne].
    + now rewrite decide_True.
    + rewrite decide_False by congruence. now rewrite app_nil_r.
  - assert (Hfresh : group_lookup (tabulate (fun t => of_type t healthData) keys) (m_type d) = None).
    { rewrite group_lookup_tabulate. now rewrite decide_False. }
    rewrite group_lookup_update, decide_True by reflexivity.
    rewrite (group_update_fresh _ _ _ Hfresh).
    rewrite (group_update_last _ _ _ _ Hfresh).
    unfold tabulate. rewrite map_app. simpl. f_equal.
    + apply map_ext_in. intros k Hk. f_equal.
      rewrite of_type_snoc, decide_False, app_nil_r; [reflexivity |].
      intros Heq. apply Hnin. rewrite Heq. now apply list_elem_of_In.
    + rewrite of_type_snoc, decide_True by reflexivity.
      assert (Hnil : of_type (m_type d) healthData = []).
      { apply of_type_nil_iff. intros H. apply Hnin. now apply elem_of_Set_of. }
      now rewrite Hnil.
Qed.


(** ** The summary *)

Lemma append_empty_r (a : string) : a +:+ "" = a.
Proof.
  induction a as [|x a IH]; [reflexivity |].
  rewrite append_cons. f_equal. exact IH.
Qed.

Lemma last_of_type (healthData : list HealthMetric) (t : MetricType) :
  t ∈ map m_type healthData ->
  exists earlier latest,
    of_type t healthData = earlier ++ [latest] /\ last (of_type t healthData) = Some latest.
Proof.
  intros Hin.
  destruct (of_type t healthData) as [|d l] eqn:E using rev_ind.
  - exfalso. apply of_type_nil_iff in E. contradiction.
  - exists l, d. split; [reflexivity | apply last_snoc].
Qed.

Lemma converts_ToString (v : JsValue) :
  converts v = true -> exists text, ToString v = Some text.
Proof. unfold converts. destruct (ToString v); [eauto | discriminate]. Qed.

Lemma summary_lines_tabulate (healthData : list HealthMetric) (keys : list MetricType)
    (summary : string) :
  (forall t, t ∈ keys -> t ∈ map m_type healthData) ->
  latest_convert healthData ->
  summary_lines (tabulate (fun t => of_type t healthData) keys) summary
  = Some (summary +:+ join_lines (map (summary_entry healthData) keys)).
Proof.
  intros Hkeys Hconv. revert summary Hkeys.
  induction keys as [|t keys IH]; intros summary Hkeys.
  - simpl. now rewrite append_empty_r.
  - destruct (last_of_type healthData t) as (earlier & latest & _ & Hlast).
    { apply Hkeys. left. }
    destruct (converts_ToString _ (Hconv t latest Hlast)) as [value Hvalue].
    assert (Hline : exists line,
               summary_line t latest (length (of_type t healthData)) = Some line /\
               summary_entry healthData t = line).
    { unfold summary_entry. rewrite Hlast. unfold summary_line. rewrite Hvalue.
      eexists. split; reflexivity. }
    destruct Hline as (line & Hline & Hentry).
    change (tabulate (fun t => of_type t healthData) (t :: keys))
      with ((t, of_type t healthData) :: tabulate (fun t => of_type t healthData) keys).
    change (map (summary_entry healthData) (t :: keys))
      with (summary_entry healthData t :: map (summary_entry healthData) keys).
    change (join_lines (summary_entry healthData t :: map (summary_entry healthData) keys))
      with (summary_entry healthData t +:+ join_lines (map (summary_entry healthData) keys)).
    cbn [summary_lines]. rewrite Hlast, Hline, Hentry.
    rewrite IH by (intros t' Ht'; apply Hkeys; now right).
    now rewrite append_assoc.
Qed.

(** The loop throws when the last record of one of the groups has a value
    that does not convert. *)
Lemma summary_lines_throws (healthData : list HealthMetric) (keys : list MetricType)
    (summary : string) (t : MetricType) (latest : HealthMetric) :
  t ∈ keys ->
  last (of_type t healthData) = Some latest ->
  converts (m_value latest) = false ->
  summary_lines (tabulate (fun t => of_type t healthData) keys) summary = None.
Proof.
  intros Hin Hlast Hconv. revert summary.
  induction keys as [|k keys IH]; intros summary; [now apply elem_of_nil in Hin |].
  change (tabulate (fun t => of_type t healthData) (k :: keys))
    with ((k, of_type k healthData) :: tabulate (fun t => of_type t healthData) keys).
  cbn [summary_lines].
  destruct (decide (k = t)) as [-> | Hne].
  - rewrite Hlast. unfold summary_line. unfold converts in Hconv.
    destruct (ToString (m_value latest)); [discriminate | reflexivity].
  - apply elem_of_cons in Hin as [-> | Hin]; [congruence |].
    destruct (last (of_type k healthData)); [| reflexivity].
    destruct (summary_line _ _ _); [now apply IH | reflexivity].
Qed.

Lemma generateHealthSummary_throws (healthData : list HealthMetric)
    (t : MetricType) (latest : HealthMetric) :
  last (of_type t healthData) = Some latest ->
  converts (m_value latest) = false ->
  generateHealthSummary healthData = None.
Proof.
  intros Hlast Hconv. unfold generateHealthSummary.
  rewrite group_push_all, (summary_lines_throws _ _ _ t latest); [reflexivity | | exact Hlast | exact Hconv].
  apply elem_of_Set_of.
  destruct (decide (t ∈ map m_type healthData)) as [Hin | Hnin]; [exact Hin |].
  apply of_type_nil_iff in Hnin. now rewrite Hnin in Hlast.
Qed.

(** C8, as the code has it.  For a list that is not empty, in which the
    record of each type that was inserted last has a value that converts
    to a string, the summary is the header, one line for each distinct
    type of the list, in the order in which the types first occur, and the
    footer; the line of a type shows the value and the unit of the record
    of the type that was inserted last, and the number of records of the
    type.  It is the reply to a message of the summary intent. *)
Theorem summary_one_line_per_type (healthData : list HealthMetric) :
  healthData <> [] ->
  latest_convert healthData ->
  let types := first_occurrences (map m_type healthData) in
  generateHealthSummary healthData
  = Some (summary_header +:+ join_lines (map (summary_entry healthData) types) +:+
          summary_footer) /\
  NoDup types /\
  (forall t, t ∈ types <-> exists d, d ∈ healthData /\ m_type d = t) /\
  (forall t, t ∈ types ->
     exists earlier latest value,
       of_type t healthData = earlier ++ [latest] /\
       ToString (m_value latest) = Some value /\
       summary_entry healthData t
       = "• **" +:+ toUpperCase (replace (type_name t) "_" " ") +:+ "**: " +:+
         value +:+ " " +:+ m_unit latest +:+
         " (" +:+ Nat_toString (length (of_type t healthData)) +:+ " recordings)" +:+ nl) /\
  (forall draw message,
     matched_intent message = Summary ->
     generateResponse draw message healthData = generateHealthSummary healthData).
Proof.
  intros Hne Hconv types. subst types. rewrite <- Set_of_first_occurrences.
  split; [| split; [| split; [| split]]].
  - unfold generateHealthSummary. rewrite group_push_all, summary_lines_tabulate.
    + now rewrite append_assoc.
    + intros t. apply elem_of_Set_of.
    + exact Hconv.
  - apply NoDup_Set_of.
  - intros t. rewrite elem_of_Set_of, list_elem_of_fmap. split.
    + intros (d & -> & Hd). now exists d.
    + intros (d & Hd & <-). now exists d.
  - intros t Ht. rewrite elem_of_Set_of in Ht.
    destruct (last_of_type healthData t Ht) as (earlier & latest & Heq & Hlast).
    destruct (converts_ToString _ (Hconv t latest Hlast)) as [value Hvalue].
    exists earlier, latest, value. split; [exact Heq |]. split; [exact Hvalue |].
    unfold summary_entry. rewrite Hlast. unfold summary_line. rewrite Hvalue. reflexivity.
  - intros draw message Hi. rewrite generateResponse_by_intent, Hi. simpl.
    destruct healthData; [congruence | reflexivity].
Qed.

Lemma summary_one_line_per_type_witness :
  let healthData :=
    [ mkHealthMetric "1" weight (VNum 70) "kg" 10 None None;
      mkHealthMetric "2" blood_pressure (VStr "120/80") "mmHg" 20 None None;
      mkHealthMetric "3" weight (VNum 68.5) "kg" 5 None None ] in
  generateHealthSummary healthData
  = Some (summary_header +:+
          ("• **WEIGHT**: 68.5 kg (2 recordings)" +:+ nl) +:+
          ("• **BLOOD PRESSURE**: 120/80 mmHg (1 recordings)" +:+ nl) +:+
          summary_footer).
Proof.
  intros healthData.
  assert (Hne : healthData <> []) by discriminate.
  assert (Hconv : latest_convert healthData).
  { intros t latest Hlast.
    destruct t; vm_compute in Hlast; try discriminate Hlast;
      injection Hlast as <-; reflexivity. }
  destruct (summary_one_line_per_type healthData Hne Hconv) as [-> _].
  vm_compute. reflexivity.
Defined.

(** C8 fails as it is stated.  The validation admits an object as a value,
    also one with a member named toString; the line of its type cannot be
    composed, the summary throws and the chat request is answered with
    status 500. *)
Lemma summary_throws_on_unprintable_value :
  let body := mkMetricBody weight (VObj ["toString"]) "kg" None None None in
  let s := snd (handle (PostHealthData body "1" 10) initial) in
  let healthData := userData_of s "default" in
  healthData = [mkHealthMetric "1" weight (VObj ["toString"]) "kg" 10 None None] /\
  healthData <> [] /\
  matched_intent "summary" = Summary /\
  generateHealthSummary healthData = None /\
  generateResponse 0 "summary" healthData = None /\
  fst (handle (PostChat (mkChatBody "summary" None None) 0 20 21) s) = InternalServerError.
Proof.
  cbv zeta.
  assert (Hdata : userData_of
            (snd (handle (PostHealthData
                            (mkMetricBody weight (VObj ["toString"]) "kg" None None None)
                            "1" 10) initial)) "default"
          = [mkHealthMetric "1" weight (VObj ["toString"]) "kg" 10 None None])
    by (vm_compute; reflexivity).
  rewrite Hdata.
  split; [reflexivity |]. split; [discriminate |].
  split; [vm_compute; reflexivity |]. split; [vm_compute; reflexivity |].
  split; vm_compute; reflexivity.
Qed.

Lemma generateHealthSummary_Some (healthData : list HealthMetric) :
  latest_convert healthData -> is_Some (generateHealthSummary healthData).
Proof.
  intros Hconv. unfold generateHealthSummary.
  rewrite group_push_all, summary_lines_tabulate.
  - eexists. reflexivity.
  - intros t. apply elem_of_Set_of.
  - exact Hconv.
Qed.

(** [generateResponse] returns a reply for every message when the last
    record of each type has a value that converts: it does not throw. *)
Lemma generateResponse_Some (draw : N) (message : string) (healthData : list HealthMetric) :
  latest_convert healthData -> is_Some (generateResponse draw message healthData).
Proof.
  intros Hconv. rewrite generateResponse_by_intent.
  destruct (matched_intent message) as [| t | | |]; simpl; try (eexists; reflexivity).
  - destruct (last (of_type t healthData)) as [latest |] eqn:Hlast.
    + destruct (converts_ToString _ (Hconv t latest Hlast)) as [value ->].
      destruct t; eexists; reflexivity.
    + destruct (no_data_prompt t); eexists; reflexivity.
  - destruct healthData; [eexists; reflexivity | now apply generateHealthSummary_Some].
Qed.

(** ** The heap and the groups of the insights *)

Lemma at_ref_app (h more : Heap) (r : ref) :
  (r < length h)%nat -> at_ref (h ++ more) r = at_ref h r.
Proof. intros H. unfold at_ref. now rewrite lookup_app_l. Qed.

Lemma at_ref_alter_ne (f : list HealthMetric -> list HealthMetric) (h : Heap) (a r : ref) :
  a <> r -> at_ref (alter f a h) r = at_ref h r.
Proof. intros H. unfold at_ref. now rewrite list_lookup_alter_ne. Qed.

Lemma at_ref_alter (f : list HealthMetric -> list HealthMetric) (h : Heap) (a : ref) :
  (a < length h)%nat -> at_ref (alter f a h) a = f (at_ref h a).
Proof.
  intros H. unfold at_ref. rewrite list_lookup_alter_eq.
  destruct (lookup_lt_is_Some_2 h a H) as [x ->]. reflexivity.
Qed.

Lemma group_lookup_deref (h : Heap) (typeGroups : list (MetricType * ref)) (t : MetricType) :
  group_lookup (deref h typeGroups) t = at_ref h <$> group_lookup typeGroups t.
Proof.
  induction typeGroups as [|[k r] rest IH]; simpl; [reflexivity |].
  destruct (decide (k = t)); [reflexivity | exact IH].
Qed.

Lemma deref_update (h : Heap) (typeGroups : list (MetricType * ref)) (t : MetricType) (r : ref) :
  deref h (group_update typeGroups t r) = group_update (deref h typeGroups) t (at_ref h r).
Proof.
  induction typeGroups as [|[k r0] rest IH]; simpl; [reflexivity |].
  destruct (decide (k = t)); simpl; [reflexivity | now rewrite IH].
Qed.

Lemma deref_app (h more : Heap) (typeGroups : list (MetricType * ref)) :
  Forall (fun r => (r < length h)%nat) (map snd typeGroups) ->
  deref (h ++ more) typeGroups = deref h typeGroups.
Proof.
  induction typeGroups as [|[k r] rest IH]; simpl; [reflexivity |].
  intros H. inversion H as [|? ? Hr Hrest]; subst.
  now rewrite at_ref_app, IH.
Qed.

Lemma deref_alter_ne (f : list HealthMetric -> list HealthMetric) (h : Heap) (a : ref)
    (typeGroups : list (MetricType * ref)) :
  a ∉ map snd typeGroups -> deref (alter f a h) typeGroups = deref h typeGroups.
Proof.
  induction typeGroups as [|[k r] rest IH]; simpl; [reflexivity |].
  rewrite not_elem_of_cons. intros [Hne Hrest].
  now rewrite at_ref_alter_ne, IH.
Qed.

Lemma group_lookup_ref (typeGroups : list (MetricType * ref)) (t : MetricType) (a : ref) :
  group_lookup typeGroups t = Some a -> a ∈ map snd typeGroups.
Proof.
  induction typeGroups as [|[k r] rest IH]; simpl; [discriminate |].
  destruct (decide (k = t)).
  - intros [= ->]. left.
  - intros H. right. now apply IH.
Qed.

(** Writing the array of the group of [t] changes that group alone. *)
Lemma deref_alter (f : list HealthMetric -> list HealthMetric) (h : Heap) (a : ref)
    (typeGroups : list (MetricType * ref)) (t : MetricType) :
  NoDup (map snd typeGroups) -> (a < length h)%nat ->
  group_lookup typeGroups t = Some a ->
  deref (alter f a h) typeGroups = group_update (deref h typeGroups) t (f (at_ref h a)).
Proof.
  intros Hnd Ha. induction typeGroups as [|[k r] rest IH]; simpl; [discriminate |].
  apply NoDup_cons in Hnd as [Hr Hnd].
  destruct (decide (k = t)) as [-> | Hne].
  - intros [= ->]. now rewrite at_ref_alter, deref_alter_ne.
  - intros Hl. rewrite IH by assumption.
    rewrite at_ref_alter_ne; [reflexivity |].
    intros ->. apply Hr. now apply (group_lookup_ref _ t).
Qed.

Lemma fresh_groups_lt (n0 : nat) (h : Heap) (typeGroups : list (MetricType * ref)) :
  fresh_groups n0 h typeGroups -> Forall (fun r => (r < length h)%nat) (map snd typeGroups).
Proof. intros (_ & _ & H). eapply Forall_impl; [exact H |]. simpl. lia. Qed.

Lemma fresh_groups_ref (n0 : nat) (h : Heap) (typeGroups : list (MetricType * ref)) (r : ref) :
  fresh_groups n0 h typeGroups -> r ∈ map snd typeGroups -> (n0 <= r < length h)%nat.
Proof. intros (_ & _ & H) Hr. rewrite Forall_forall in H. now apply H. Qed.

(** One round of the grouping loop: the record goes to the end of the group
    of its type, and the arrays below [n0] stay as they are. *)
Lemma group_record_spec (n0 : nat) (h : Heap) (typeGroups : list (MetricType * ref))
    (record : HealthMetric) :
  fresh_groups n0 h typeGroups ->
  exists typeGroups' h',
    group_record typeGroups record h = (typeGroups', h') /\
    fresh_groups n0 h' typeGroups' /\
    take n0 h' = take n0 h /\
    deref h' typeGroups' = group_push (deref h typeGroups) record.
Proof.
  intros Hf. pose proof Hf as (Hn0 & Hnd & Hrange).
  unfold group_record, group_push, bind. rewrite group_lookup_deref.
  destruct (group_lookup typeGroups (m_type record)) as [a |] eqn:El; simpl.
  - rewrite El. simpl. rewrite group_lookup_deref, El. simpl.
    pose proof (fresh_groups_ref _ _ _ _ Hf (group_lookup_ref _ _ _ El)) as Ha.
    eexists _, _. split; [reflexivity |]. split; [| split].
    + split; [| split]; rewrite ?length_alter; assumption.
    + apply take_alter_ge. lia.
    + apply deref_alter; [assumption | lia | assumption].
  - rewrite group_lookup_update, decide_True by reflexivity. simpl.
    rewrite group_lookup_update, decide_True by reflexivity.
    assert (Hnew : length h ∉ map snd typeGroups).
    { intros Hin. pose proof (fresh_groups_ref _ _ _ _ Hf Hin). lia. }
    eexists _, _. split; [reflexivity |]. split; [| split].
    + unfold fresh_groups. rewrite (group_update_fresh _ _ _ El), map_app. simpl.
      split; [| split]; rewrite ?length_alter, ?length_app; simpl.
      * lia.
      * apply NoDup_app. split; [assumption |]. split; [| apply NoDup_singleton].
        intros x Hx Hx'. apply list_elem_of_singleton in Hx'. congruence.
      * apply Forall_app. split.
        -- eapply Forall_impl; [exact Hrange |]. simpl. lia.
        -- apply Forall_singleton. lia.
    + rewrite take_alter_ge by lia. apply take_app_le. lia.
    + rewrite (deref_alter _ _ _ _ (m_type record)).
      * rewrite deref_update, deref_app by (now apply (fresh_groups_lt n0)).
        unfold at_ref at 1 2. rewrite lookup_app_r, Nat.sub_diag by lia.
        reflexivity.
      * rewrite (group_update_fresh _ _ _ El), map_app. simpl.
        apply NoDup_app. split; [assumption |]. split; [| apply NoDup_singleton].
        intros x Hx Hx'. apply list_elem_of_singleton in Hx'. congruence.
      * rewrite length_app. simpl. lia.
      * rewrite group_lookup_update. now rewrite decide_True.
Qed.

Lemma group_records_spec (n0 : nat) (records : list HealthMetric) :
  forall (h : Heap) (typeGroups : list (MetricType * ref)),
  fresh_groups n0 h typeGroups ->
  exists typeGroups' h',
    group_records records typeGroups h = (typeGroups', h') /\
    fresh_groups n0 h' typeGroups' /\
    take n0 h' = take n0 h /\
    deref h' typeGroups' = fold_left group_push records (deref h typeGroups).
Proof.
  induction records as [|record rest IH]; intros h typeGroups Hf; simpl.
  - exists typeGroups, h. repeat split; try reflexivity; apply Hf.
  - destruct (group_record_spec n0 h typeGroups record Hf)
      as (tg1 & h1 & E1 & Hf1 & Htake1 & Hd1).
    destruct (IH h1 tg1 Hf1) as (tg2 & h2 & E2 & Hf2 & Htake2 & Hd2).
    exists tg2, h2. unfold bind. rewrite E1, E2.
    split; [reflexivity |]. split; [assumption |]. split; [congruence |].
    now rewrite Hd2, Hd1.
Qed.

Lemma trend_step_None (groups : list (MetricType * list HealthMetric)) :
  fold_left trend_step groups None = None.
Proof. induction groups as [|entry rest IH]; simpl; [reflexivity | exact IH]. Qed.

Lemma trend_step_Some (trends : list (MetricType * Trend)) (k : MetricType)
    (g : list HealthMetric) :
  trend_step (Some trends) (k, g)
  = match trend_of (Array_sort by_timestamp g) with
    | Some (Some tr) => Some (group_update trends k tr)
    | Some None => Some trends
    | None => None
    end.
Proof. reflexivity. Qed.

(** The trend loop sorts the arrays of the groups, one after the other, up
    to the group at which it throws, and leaves the arrays below [n0] as
    they are. *)
Lemma trend_records_spec (n0 : nat) (typeGroups : list (MetricType * ref)) :
  forall (h : Heap) (trends : list (MetricType * Trend)),
  fresh_groups n0 h typeGroups ->
  exists h',
    trend_records typeGroups trends h
    = (fold_left trend_step (deref h typeGroups) (Some trends), h') /\
    take n0 h' = take n0 h.
Proof.
  induction typeGroups as [|[t a] rest IH]; intros h trends Hf.
  - exists h. split; reflexivity.
  - pose proof Hf as (Hn0 & Hnd & Hrange). simpl in Hnd, Hrange.
    apply NoDup_cons in Hnd as [Ha Hnd].
    apply Forall_cons in Hrange as [Hra Hrange].
    set (h1 := alter (Array_sort by_timestamp) a h).
    assert (Hf1 : fresh_groups n0 h1 rest).
    { subst h1. split; [| split]; rewrite ?length_alter; assumption. }
    assert (Hsorted : at_ref h1 a = Array_sort by_timestamp (at_ref h a)).
    { subst h1. apply at_ref_alter. lia. }
    assert (Hrest : deref h1 rest = deref h rest).
    { subst h1. now apply deref_alter_ne. }
    assert (Htake1 : take n0 h1 = take n0 h).
    { subst h1. apply take_alter_ge. lia. }
    assert (Hrun : trend_records ((t, a) :: rest) trends h
                   = match trend_of (Array_sort by_timestamp (at_ref h a)) with
                     | Some (Some tr) => trend_records rest (group_update trends t tr) h1
                     | Some None => trend_records rest trends h1
                     | None => (None, h1)
                     end).
    { cbn [trend_records]. unfold bind, trend_record, array_sort, array_get, bind.
      fold h1. change (default [] (h1 !! a)) with (at_ref h1 a). rewrite Hsorted.
      destruct (trend_of (Array_sort by_timestamp (at_ref h a))) as [[tr |] |];
        reflexivity. }
    rewrite Hrun.
    change (fold_left trend_step (deref h ((t, a) :: rest)) (Some trends))
      with (fold_left trend_step (deref h rest) (trend_step (Some trends) (t, at_ref h a))).
    rewrite trend_step_Some.
    destruct (trend_of (Array_sort by_timestamp (at_ref h a))) as [[tr |] |].
    + destruct (IH h1 (group_update trends t tr) Hf1) as (h2 & E2 & Htake2).
      exists h2. rewrite Hrest in E2. split; [exact E2 | congruence].
    + destruct (IH h1 trends Hf1) as (h2 & E2 & Htake2).
      exists h2. rewrite Hrest in E2. split; [exact E2 | congruence].
    + exists h1. rewrite trend_step_None. split; [reflexivity | exact Htake1].
Qed.

(** When the loop ends without a throw, no group threw, and the entry of a
    type is the one that its group gives. *)
Lemma trend_step_lookup (groups : list (MetricType * list HealthMetric)) :
  forall (trends final : list (MetricType * Trend)) (t : MetricType),
  NoDup (map fst groups) ->
  fold_left trend_step groups (Some trends) = Some final ->
  match group_lookup groups t with
  | Some g =>
      exists entry,
        trend_of (Array_sort by_timestamp g) = Some entry /\
        group_lookup final t = match entry with
                               | Some tr => Some tr
                               | None => group_lookup trends t
                               end
  | None => group_lookup final t = group_lookup trends t
  end.
Proof.
  induction groups as [|[k g] rest IH]; intros trends final t Hnd Hfold.
  - simpl in *. now injection Hfold as <-.
  - simpl in Hnd. apply NoDup_cons in Hnd as [Hk Hnd].
    change (fold_left trend_step ((k, g) :: rest) (Some trends))
      with (fold_left trend_step rest (trend_step (Some trends) (k, g))) in Hfold.
    rewrite trend_step_Some in Hfold.
    cbn [group_lookup].
    destruct (trend_of (Array_sort by_timestamp g)) as [[tr |] |] eqn:Et.
    + specialize (IH _ _ t Hnd Hfold).
      destruct (decide (k = t)) as [-> | Hne].
      * apply group_lookup_None in Hk. rewrite Hk in IH.
        exists (Some tr). split; [exact Et |].
        now rewrite IH, group_lookup_update, decide_True.
      * rewrite group_lookup_update, decide_False in IH by exact Hne. exact IH.
    + specialize (IH _ _ t Hnd Hfold).
      destruct (decide (k = t)) as [-> | Hne].
      * apply group_lookup_None in Hk. rewrite Hk in IH.
        exists None. split; [exact Et | exact IH].
      * exact IH.
    + now rewrite trend_step_None in Hfold.
Qed.

(** When the loop throws, one of the groups threw. *)
Lemma trend_step_throws (groups : list (MetricType * list HealthMetric)) :
  forall (trends : list (MetricType * Trend)),
  fold_left trend_step groups (Some trends) = None ->
  exists k g, (k, g) ∈ groups /\ trend_of (Array_sort by_timestamp g) = None.
Proof.
  induction groups as [|[k g] rest IH]; intros trends Hfold; [discriminate Hfold |].
  change (fold_left trend_step ((k, g) :: rest) (Some trends))
    with (fold_left trend_step rest (trend_step (Some trends) (k, g))) in Hfold.
  rewrite trend_step_Some in Hfold.
  destruct (trend_of (Array_sort by_timestamp g)) as [[tr |] |] eqn:Et.
  - destruct (IH _ Hfold) as (k' & g' & Hin & Hthrow).
    exists k', g'. split; [now right | exact Hthrow].
  - destruct (IH _ Hfold) as (k' & g' & Hin & Hthrow).
    exists k', g'. split; [now right | exact Hthrow].
  - exists k, g. split; [left | exact Et].
Qed.

(** What [generateHealthInsights] does on the array [data], whose elements
    are [records]: every array that was there before the call, [data]
    among them, is as it was; it throws when the group of some type does;
    and when it returns, the trend of a type comes from the records of the
    type in the order of their timestamps. *)
Lemma generateHealthInsights_spec (h : Heap) (data : ref) (records : list HealthMetric) :
  h !! data = Some records ->
  exists result h',
    generateHealthInsights data h = (result, h') /\
    take (length h) h' = h /\
    match result with
    | Some insights =>
        totalRecords insights = length records /\
        metricsTracked insights = first_occurrences (map m_type records) /\
        (forall t, trend_of (Array_sort by_timestamp (of_type t records))
                   = Some (group_lookup (trends insights) t)) /\
        recommendations insights
        = (if (length (first_occurrences (map m_type records)) <? 3)%nat
           then [recommend_more_metrics] else []) ++
          (if (length records <? 7)%nat then [recommend_more_often] else []) ++
          [recommend_keep_going]
    | None => exists t, trend_of (Array_sort by_timestamp (of_type t records)) = None
    end.
Proof.
  intros Hdata.
  assert (Hf : fresh_groups (length h) h []).
  { split; [lia |]. split; [apply NoDup_nil_2 | apply Forall_nil_2]. }
  destruct (group_records_spec (length h) records h [] Hf)
    as (tg & h1 & E1 & Hf1 & Htake1 & Hd1).
  destruct (trend_records_spec (length h) tg h1 [] Hf1) as (h2 & E2 & Htake2).
  simpl in Hd1. rewrite Hd1, group_push_all in E2.
  assert (Hframe : take (length h) h2 = h).
  { rewrite Htake2, Htake1. apply firstn_all. }
  assert (Hnd : NoDup (map fst (tabulate (fun t => of_type t records)
                                         (Set_of (map m_type records))))).
  { unfold tabulate. rewrite map_map. simpl. rewrite map_id. apply NoDup_Set_of. }
  destruct (fold_left trend_step
              (tabulate (fun t => of_type t records) (Set_of (map m_type records)))
              (Some [])) as [final |] eqn:Efold.
  - eexists (Some _), h2. unfold generateHealthInsights, bind, array_get.
    rewrite Hdata. simpl. rewrite E1, E2. unfold ret.
    split; [reflexivity |]. split; [exact Hframe |]. simpl.
    split; [reflexivity |]. split; [apply Set_of_first_occurrences |].
    split; [| now rewrite Set_of_first_occurrences].
    intros t. pose proof (trend_step_lookup _ _ _ t Hnd Efold) as Hlook.
    rewrite group_lookup_tabulate in Hlook.
    destruct (decide (t ∈ Set_of (map m_type records))) as [Hin | Hnin].
    + destruct Hlook as (entry & -> & ->). now destruct entry.
    + rewrite elem_of_Set_of in Hnin. apply of_type_nil_iff in Hnin.
      rewrite Hnin, Hlook. reflexivity.
  - exists None, h2. unfold generateHealthInsights, bind, array_get.
    rewrite Hdata. simpl. rewrite E1, E2. unfold ret.
    split; [reflexivity |]. split; [exact Hframe |].
    destruct (trend_step_throws _ _ Efold) as (k & g & Hin & Hthrow).
    exists k. unfold tabulate in Hin. apply list_elem_of_fmap in Hin as (k' & [= -> ->] & _).
    exact Hthrow.
Qed.

Lemma parseFloat_converts (v : JsValue) :
  converts v = true -> exists x, parseFloat v = Some x.
Proof.
  intros H. destruct (converts_ToString v H) as [text Htext].
  unfold parseFloat. rewrite Htext. eauto.
Qed.

(** ** Trends *)

Lemma sort_insert_length {A} (cmp : A -> A -> Z) (x : A) (l : list A) :
  length (sort_insert cmp x l) = S (length l).
Proof.
  induction l as [|y l IH]; simpl; [reflexivity |].
  destruct (cmp x y <=? 0); simpl; [reflexivity | now rewrite IH].
Qed.

Lemma Array_sort_length {A} (cmp : A -> A -> Z) (l : list A) :
  length (Array_sort cmp l) = length l.
Proof.
  induction l as [|x l IH]; simpl; [reflexivity |].
  now rewrite sort_insert_length, IH.
Qed.

Lemma sort_insert_perm {A} (cmp : A -> A -> Z) (x : A) (l : list A) :
  Permutation (sort_insert cmp x l) (x :: l).
Proof.
  induction l as [|y l IH]; simpl; [reflexivity |].
  destruct (cmp x y <=? 0); [reflexivity |].
  rewrite IH. apply perm_swap.
Qed.

(** The sort rearranges the array and loses no element. *)
Lemma Array_sort_perm {A} (cmp : A -> A -> Z) (l : list A) :
  Permutation (Array_sort cmp l) l.
Proof.
  induction l as [|x l IH]; simpl; [reflexivity |].
  now rewrite sort_insert_perm, IH.
Qed.

(** By the timestamp comparator the result is in ascending order. *)
Lemma Array_sort_sorted (l : list HealthMetric) :
  Sorted (fun a b => m_timestamp a <= m_timestamp b) (Array_sort by_timestamp l).
Proof.
  induction l as [|x l IH]; simpl; [constructor |].
  induction IH as [|y l' Hl' IH' Hhd]; simpl.
  - repeat constructor.
  - unfold by_timestamp at 1. destruct (Z.leb_spec (m_timestamp x - m_timestamp y) 0).
    + constructor; [now constructor | constructor; lia].
    + constructor; [exact IH' |].
      destruct l' as [|z l'']; simpl.
      * constructor. lia.
      * unfold by_timestamp at 1.
        destruct (Z.leb_spec (m_timestamp x - m_timestamp z) 0); constructor; try lia.
        now inversion Hhd.
Qed.

(** The sort is stable: an array that is in timestamp order already is
    left as it is. *)
Lemma Array_sort_sorted_id (l : list HealthMetric) :
  Sorted (fun a b => m_timestamp a <= m_timestamp b) l -> Array_sort by_timestamp l = l.
Proof.
  induction 1 as [|x l Hl IH Hhd]; simpl; [reflexivity |].
  rewrite IH. destruct Hhd as [|y l' Hxy]; simpl; [reflexivity |].
  unfold by_timestamp. now replace (m_timestamp x - m_timestamp y <=? 0) with true
    by (symmetry; apply Z.leb_le; lia).
Qed.

Lemma all_convert_group (records : list HealthMetric) (t : MetricType) :
  all_convert records -> all_convert (Array_sort by_timestamp (of_type t records)).
Proof.
  unfold all_convert. rewrite !Forall_forall. intros Hall r Hr.
  apply Hall. rewrite Array_sort_perm in Hr.
  unfold of_type in Hr. now apply list_elem_of_filter in Hr as [_ Hr].
Qed.

(** A group whose values convert does not throw. *)
Lemma trend_of_converts (group : list HealthMetric) :
  all_convert group -> exists entry, trend_of group = Some entry.
Proof.
  intros Hall. unfold trend_of.
  destruct (2 <=? length group)%nat; [| eauto].
  destruct (head group) as [r0 |] eqn:E0; [| eauto].
  destruct (last group) as [rn |] eqn:En; [| eauto].
  unfold all_convert in Hall. rewrite Forall_forall in Hall.
  destruct (parseFloat_converts (m_value r0)) as [first ->].
  { apply Hall. destruct group; [discriminate E0 |]. injection E0 as ->. left. }
  destruct (parseFloat_converts (m_value rn)) as [last' ->].
  { apply Hall. now apply last_Some_elem_of. }
  destruct (negb (PrimFloat.is_nan first) && negb (PrimFloat.is_nan last')); eauto.
Qed.

(** The report is returned when the values of the records convert. *)
Lemma generateHealthInsights_returns (h : Heap) (data : ref) (records : list HealthMetric) :
  h !! data = Some records ->
  all_convert records ->
  exists insights, fst (generateHealthInsights data h) = Some insights.
Proof.
  intros Hdata Hall.
  destruct (generateHealthInsights_spec h data records Hdata)
    as ([insights |] & h' & -> & _ & Hres); [now exists insights |].
  destruct Hres as [t Hthrow].
  destruct (trend_of_converts _ (all_convert_group records t Hall)) as [entry Hentry].
  congruence.
Qed.

(** The entry of a type in a report that is returned. *)
Lemma generateHealthInsights_trend (h : Heap) (data : ref) (records : list HealthMetric)
    (insights : Insights) (t : MetricType) :
  h !! data = Some records ->
  fst (generateHealthInsights data h) = Some insights ->
  trend_of (Array_sort by_timestamp (of_type t records))
  = Some (group_lookup (trends insights) t).
Proof.
  intros Hdata Hret.
  destruct (generateHealthInsights_spec h data records Hdata)
    as (result & h' & E & _ & Hres).
  rewrite E in Hret. simpl in Hret. subst result.
  now destruct Hres as (_ & _ & Htrend & _).
Qed.

(** C5. When the weight records of the data are two, of values 70 and 68,
    and the first is not later than the second, the insights give weight
    the trend of change -2, percent change "-2.9", direction "decrease"
    and record count 2; the insights are returned when the values of the
    records convert to a string, as numbers and strings do. *)
Theorem scenario_A_weight_trend
    (h : Heap) (data : ref) (records : list HealthMetric) (r1 r2 : HealthMetric) :
  h !! data = Some records ->
  of_type weight records = [r1; r2] ->
  m_value r1 = VNum 70 -> m_unit r1 = "kg" ->
  m_value r2 = VNum 68 -> m_unit r2 = "kg" ->
  m_timestamp r1 <= m_timestamp r2 ->
  (forall insights,
     fst (generateHealthInsights data h) = Some insights ->
     group_lookup (trends insights) weight
     = Some {| change := (-2)%float; percentChange := "-2.9";
               direction := "decrease"; recordCount := 2 |}) /\
  (all_convert records ->
   exists insights, fst (generateHealthInsights data h) = Some insights).
Proof.
  intros Hdata Hw Hv1 _ Hv2 _ Hts.
  split; [| now apply generateHealthInsights_returns].
  intros insights Hret.
  pose proof (generateHealthInsights_trend h data records insights weight Hdata Hret)
    as Htrend.
  rewrite Hw in Htrend. simpl in Htrend.
  unfold by_timestamp in Htrend.
  replace (m_timestamp r1 - m_timestamp r2 <=? 0) with true in Htrend
    by (symmetry; apply Z.leb_le; lia).
  unfold trend_of in Htrend.
  change (head [r1; r2]) with (Some r1) in Htrend.
  change (last [r1; r2]) with (Some r2) in Htrend.
  change (length [r1; r2]) with 2%nat in Htrend. cbv beta iota in Htrend.
  rewrite Hv1, Hv2 in Htrend.
  set (entry := group_lookup (trends insights) weight) in *. clearbody entry.
  vm_compute in Htrend. injection Htrend as <-. reflexivity.
Qed.

Lemma scenario_A_weight_trend_witness :
  let r1 := mkHealthMetric "a" weight (VNum 70) "kg" 1000 None None in
  let r2 := mkHealthMetric "b" weight (VNum 68) "kg" 2000 None None in
  let bp := mkHealthMetric "c" blood_pressure (VStr "120/80") "mmHg" 1500 None None in
  exists insights,
    fst (generateHealthInsights 0 [[r1; bp; r2]]) = Some insights /\
    group_lookup (trends insights) weight
    = Some {| change := (-2)%float; percentChange := "-2.9";
              direction := "decrease"; recordCount := 2 |}.
Proof.
  intros r1 r2 bp.
  destruct (scenario_A_weight_trend [[r1; bp; r2]] 0%nat [r1; bp; r2] r1 r2)
    as [Htrend Hret]; try reflexivity.
  - discriminate.
  - destruct Hret as [insights E].
    + repeat constructor.
    + exists insights. split; [exact E | now apply Htrend].
Defined.

(** Scenario A through the server: two records, then the insights. *)
Example scenario_A_served :
  let body v := mkMetricBody weight (VNum v) "kg" None None None in
  fst (serve [ PostHealthData (body 70%float) "a" 1000;
               PostHealthData (body 68%float) "b" 2000;
               GetInsights None ] initial)
  = [ MetricCreated (mkHealthMetric "a" weight (VNum 70) "kg" 1000 None None);
      MetricCreated (mkHealthMetric "b" weight (VNum 68) "kg" 2000 None None);
      InsightsJson
        {| totalRecords := 2;
           metricsTracked := [weight];
           trends := [(weight, {| change := (-2)%float; percentChange := "-2.9";
                                  direction := "decrease"; recordCount := 2 |})];
           recommendations :=
             [recommend_more_metrics; recommend_more_often; recommend_keep_going] |} ].
Proof. vm_compute. reflexivity. Qed.

(** C2, as the code has it.  For a group of two records or more, in
    insights that are returned, [parseFloat] has read the value of the
    first and of the last record in timestamp order, and no trend is
    written exactly when it gave NaN for one of them: a value whose text
    does not start with a number, such as "high" or the text of an
    object.  The insights are returned when the values of the records
    convert to a string. *)
Theorem trend_skipped_iff_nan
    (h : Heap) (data : ref) (records : list HealthMetric) (t : MetricType)
    (first_record last_record : HealthMetric) :
  h !! data = Some records ->
  (2 <= length (of_type t records))%nat ->
  head (Array_sort by_timestamp (of_type t records)) = Some first_record ->
  last (Array_sort by_timestamp (of_type t records)) = Some last_record ->
  (forall insights,
     fst (generateHealthInsights data h) = Some insights ->
     exists first_number last_number : float,
       parseFloat (m_value first_record) = Some first_number /\
       parseFloat (m_value last_record) = Some last_number /\
       (group_lookup (trends insights) t = None <->
        PrimFloat.is_nan first_number = true \/ PrimFloat.is_nan last_number = true)) /\
  (all_convert records ->
   exists insights, fst (generateHealthInsights data h) = Some insights).
Proof.
  intros Hdata Hlen Hfirst Hlast.
  split; [| now apply generateHealthInsights_returns].
  intros insights Hret.
  pose proof (generateHealthInsights_trend h data records insights t Hdata Hret)
    as Htrend.
  unfold trend_of in Htrend. rewrite Hfirst, Hlast in Htrend.
  assert (Hlen' : length (Array_sort by_timestamp (of_type t records))
                  = length (of_type t records)) by apply Array_sort_length.
  rewrite Hlen' in Htrend.
  replace (2 <=? length (of_type t records))%nat with true in Htrend
    by (symmetry; apply Nat.leb_le; lia).
  destruct (parseFloat (m_value first_record)) as [first_number |]; [| discriminate Htrend].
  destruct (parseFloat (m_value last_record)) as [last_number |]; [| discriminate Htrend].
  exists first_number, last_number. split; [reflexivity |]. split; [reflexivity |].
  destruct (PrimFloat.is_nan first_number); destruct (PrimFloat.is_nan last_number);
    simpl in Htrend; injection Htrend as Htrend; rewrite <- Htrend;
    (split; [intros H; try discriminate H; tauto
            | intros [H | H]; try discriminate H; reflexivity]).
Qed.

Lemma trend_skipped_iff_nan_witness :
  let r1 := mkHealthMetric "a" steps (VStr "many") "steps" 1000 None None in
  let r2 := mkHealthMetric "b" steps (VStr "12000") "steps" 2000 None None in
  parseFloat (m_value r1) = Some nan /\
  exists insights,
    fst (generateHealthInsights 0 [[r1; r2]]) = Some insights /\
    group_lookup (trends insights) steps = None.
Proof.
  intros r1 r2. split; [reflexivity |].
  destruct (trend_skipped_iff_nan [[r1; r2]] 0%nat [r1; r2] steps r1 r2)
    as [Hskip Hret].
  - reflexivity.
  - simpl. lia.
  - reflexivity.
  - reflexivity.
  - destruct Hret as [insights E].
    + repeat constructor.
    + exists insights. split; [exact E |].
      destruct (Hskip insights E) as (first_number & last_number & H1 & H2 & Hiff).
      apply Hiff. left. vm_compute in H1. injection H1 as <-. reflexivity.
Defined.

(** An object without a member toString reads "[object Object]", which is
    no number: its group gets no trend. *)
Example object_value_is_skipped :
  let r1 := mkHealthMetric "a" sleep_hours (VObj ["hours"]) "h" 1000 None None in
  let r2 := mkHealthMetric "b" sleep_hours (VNum 8) "h" 2000 None None in
  parseFloat (m_value r1) = Some nan /\
  fst (generateHealthInsights 0 [[r1; r2]])
  = Some {| totalRecords := 2; metricsTracked := [sleep_hours]; trends := [];
            recommendations :=
              [recommend_more_metrics; recommend_more_often; recommend_keep_going] |}.
Proof. cbv zeta. split; vm_compute; reflexivity. Qed.

(** An object with a member toString cannot be read: no insights are
    returned, and the request is answered with status 500. *)
Example object_value_throws :
  let body v := mkMetricBody sleep_hours v "h" None None None in
  parseFloat (VObj ["toString"]) = None /\
  fst (serve [ PostHealthData (body (VObj ["toString"])) "a" 1000;
               PostHealthData (body (VNum 8)) "b" 2000;
               GetInsights None ] initial)
  = [ MetricCreated (mkHealthMetric "a" sleep_hours (VObj ["toString"]) "h" 1000 None None);
      MetricCreated (mkHealthMetric "b" sleep_hours (VNum 8) "h" 2000 None None);
      UncaughtError ].
Proof. cbv zeta. split; vm_compute; reflexivity. Qed.

(** C2 fails for "120/80": [parseFloat] reads the number at the start of a
    string, 120 here, so that two blood pressure readings do get a trend. *)
Lemma blood_pressure_trend_is_written :
  let r1 := mkHealthMetric "a" blood_pressure (VStr "120/80") "mmHg" 1000 None None in
  let r2 := mkHealthMetric "b" blood_pressure (VStr "130/85") "mmHg" 2000 None None in
  parseFloat (VStr "120/80") = Some 120%float /\
  parseFloat (VStr "130/85") = Some 130%float /\
  fst (generateHealthInsights 0 [[r1; r2]])
  = Some {| totalRecords := 2; metricsTracked := [blood_pressure];
            trends := [(blood_pressure,
                        {| change := 10%float; percentChange := "8.3";
                           direction := "increase"; recordCount := 2 |})];
            recommendations :=
              [recommend_more_metrics; recommend_more_often; recommend_keep_going] |}.
Proof. cbv zeta. split; [| split]; vm_compute; reflexivity. Qed.

(** ** The stores *)

Lemma userData_of_at_ref (s : Server) (userId : string) :
  userData_of s userId
  = match healthData s !! userId with
    | Some r => at_ref (heap s) r
    | None => []
    end.
Proof. reflexivity. Qed.

Lemma at_ref_take (n : nat) (h h' : Heap) (r : ref) :
  take n h' = take n h -> (r < n)%nat -> at_ref h' r = at_ref h r.
Proof.
  intros Htake Hr. unfold at_ref.
  rewrite <- (lookup_take_lt h' n r), <- (lookup_take_lt h n r) by assumption.
  now rewrite Htake.
Qed.

Lemma store_ok_initial : store_ok initial.
Proof. intros userId r H. simpl in H. now rewrite lookup_empty in H. Qed.

Lemma getInsights_frame (userId : option string) (s : Server) :
  store_ok s ->
  healthData (snd (getInsights userId s)) = healthData s /\
  conversations (snd (getInsights userId s)) = conversations s /\
  take (length (heap s)) (heap (snd (getInsights userId s))) = heap s.
Proof.
  intros Hok. unfold getInsights.
  destruct (healthData s !! param_userId userId) as [r |] eqn:Er; simpl.
  2:{ repeat split. apply firstn_all. }
  destruct (length (default [] (heap s !! r)) =? 0)%nat; simpl.
  { repeat split. apply firstn_all. }
  destruct (lookup_lt_is_Some_2 (heap s) r (Hok _ _ Er)) as [records Hrecords].
  destruct (generateHealthInsights_spec (heap s) r records Hrecords)
    as (insights & h' & E & Htake & _).
  rewrite E. simpl. repeat split. exact Htake.
Qed.

Lemma postHealthData_store_ok (body : MetricBody) (uuid : string) (now : Z) (s : Server) :
  store_ok s -> store_ok (snd (postHealthData body uuid now s)).
Proof.
  intros Hok. unfold postHealthData, array_push, new_array. simpl.
  destruct (healthData s !! default "default" (b_userId body)) as [r |] eqn:Er; simpl.
  - intros u r' Hu. simpl in Hu |- *. rewrite length_alter. now apply (Hok u).
  - intros u r' Hu. simpl in Hu |- *. rewrite length_alter, length_app. simpl.
    destruct (decide (default "default" (b_userId body) = u)) as [<- | Hne].
    + rewrite lookup_insert_eq in Hu. injection Hu as <-. lia.
    + rewrite lookup_insert_ne in Hu by assumption.
      pose proof (Hok u r' Hu). lia.
Qed.

Lemma handle_store_ok (req : Request) (s : Server) :
  store_ok s -> store_ok (snd (handle req s)).
Proof.
  intros Hok. destruct req as [u | body uuid now | body draw now now' | sid | u]; simpl.
  - exact Hok.
  - now apply postHealthData_store_ok.
  - unfold postChat. destruct (generateResponse _ _ _); exact Hok.
  - exact Hok.
  - destruct (getInsights_frame u s Hok) as (Hhd & _ & Htake).
    intros userId r Hr. rewrite Hhd in Hr. pose proof (Hok _ _ Hr) as Hlt.
    assert (Hlen : (length (heap s) <= length (heap (snd (getInsights u s))))%nat).
    { rewrite <- Htake at 1. rewrite length_take. lia. }
    lia.
Qed.

Lemma serve_cons (req : Request) (rest : list Request) (s : Server) :
  serve (req :: rest) s
  = (fst (handle req s) :: fst (serve rest (snd (handle req s))),
     snd (serve rest (snd (handle req s)))).
Proof.
  simpl. destruct (handle req s) as [resp s']. simpl.
  destruct (serve rest s') as [resps s'']. reflexivity.
Qed.

Lemma serve_store_ok (reqs : list Request) :
  forall s, store_ok s -> store_ok (snd (serve reqs s)).
Proof.
  induction reqs as [|req rest IH]; intros s Hok; [exact Hok |].
  rewrite serve_cons. simpl. apply IH. now apply handle_store_ok.
Qed.

Lemma reachable_store_ok (s : Server) : reachable s -> store_ok s.
Proof. intros [reqs <-]. apply serve_store_ok, store_ok_initial. Qed.

(** A request that records nothing leaves every user's measurements as
    they are. *)
Lemma handle_userData (req : Request) (s : Server) (userId : string) :
  store_ok s -> is_record req = false ->
  userData_of (snd (handle req s)) userId = userData_of s userId.
Proof.
  intros Hok Hreq. destruct req as [u | body uuid now | body draw now now' | sid | u]; simpl.
  - reflexivity.
  - discriminate Hreq.
  - unfold postChat. destruct (generateResponse _ _ _); reflexivity.
  - reflexivity.
  - destruct (getInsights_frame u s Hok) as (Hhd & _ & Htake).
    rewrite !userData_of_at_ref, Hhd.
    destruct (healthData s !! userId) as [r |] eqn:Er; [| reflexivity].
    apply (at_ref_take (length (heap s))).
    + rewrite Htake. symmetry. apply firstn_all.
    + now apply (Hok userId).
Qed.

Lemma serve_userData (reqs : list Request) :
  forall (s : Server) (userId : string),
  store_ok s -> Forall (fun req => is_record req = false) reqs ->
  userData_of (snd (serve reqs s)) userId = userData_of s userId.
Proof.
  induction reqs as [|req rest IH]; intros s userId Hok Hreqs; [reflexivity |].
  apply Forall_cons in Hreqs as [Hreq Hrest].
  rewrite serve_cons. simpl.
  rewrite IH by (try apply handle_store_ok; assumption).
  now apply handle_userData.
Qed.

(** C9. From a state that the server can be in, requests that record no
    measurement, such as listing the measurements and asking for the
    insights, leave the stored sequence of every user as it is: the sort of
    the insights works on arrays of its own.  Listing the measurements
    again gives the same sequence, in the same order. *)
Theorem measurements_unchanged_without_record (s : Server) (reqs : list Request) :
  reachable s ->
  Forall (fun req => is_record req = false) reqs ->
  (forall userId : string, userData_of (snd (serve reqs s)) userId = userData_of s userId) /\
  (forall userId : option string,
     fst (handle (GetHealthData userId) (snd (serve reqs s)))
     = fst (handle (GetHealthData userId) s)).
Proof.
  intros Hreach Hreqs. apply reachable_store_ok in Hreach.
  assert (H : forall userId : string,
             userData_of (snd (serve reqs s)) userId = userData_of s userId).
  { intros userId. now apply serve_userData. }
  split; [exact H |].
  intros userId. simpl. now rewrite H.
Qed.

Lemma measurements_unchanged_without_record_witness :
  let body v := mkMetricBody weight (VNum v) "kg" None None None in
  let s := snd (serve [ PostHealthData (body 70%float) "a" 3000;
                        PostHealthData (body 68%float) "b" 1000 ] initial) in
  let reqs := [GetHealthData None; GetInsights None; GetInsights None] in
  fst (handle (GetInsights None) s)
  = InsightsJson
      {| totalRecords := 2;
         metricsTracked := [weight];
         trends := [(weight, {| change := 2%float; percentChange := "2.9";
                                direction := "increase"; recordCount := 2 |})];
         recommendations :=
           [recommend_more_metrics; recommend_more_often; recommend_keep_going] |} /\
  fst (handle (GetHealthData None) (snd (serve reqs s)))
  = HealthDataJson [ mkHealthMetric "a" weight (VNum 70) "kg" 3000 None None;
                     mkHealthMetric "b" weight (VNum 68) "kg" 1000 None None ].
Proof.
  intros body s reqs. split; [vm_compute; reflexivity |].
  assert (Hreach : reachable s) by (eexists; reflexivity).
  assert (Hreqs : Forall (fun req => is_record req = false) reqs)
    by (repeat constructor).
  destruct (measurements_unchanged_without_record s reqs Hreach Hreqs) as [_ ->].
  vm_compute. reflexivity.
Defined.

(** ** Conversations *)

Lemma list_pair_ind {A} (P : list A -> Prop) :
  P [] -> (forall x, P [x]) -> (forall x y l, P l -> P (x :: y :: l)) -> forall l, P l.
Proof.
  intros Hnil Hone Hstep l.
  assert (H : P l /\ forall x, P (x :: l)).
  { induction l as [|y l [IH1 IH2]]; [split; [exact Hnil | exact Hone] |].
    split; [apply IH2 | intros x; now apply Hstep]. }
  apply H.
Qed.

Lemma paired_app (a b : list ChatMessage) : paired a -> paired b -> paired (a ++ b).
Proof.
  induction a as [| x | x y a IH] using list_pair_ind; simpl.
  - intros _ Hb. exact Hb.
  - intros [].
  - intros (Hx & Hy & Ha) Hb. repeat split; try assumption. now apply IH.
Qed.

Lemma paired_even (l : list ChatMessage) : paired l -> Nat.Even (length l).
Proof.
  induction l as [| x | x y l IH] using list_pair_ind; simpl.
  - intros _. exists 0%nat. reflexivity.
  - intros [].
  - intros (_ & _ & Hl). destruct (IH Hl) as [k Hk]. exists (S k). lia.
Qed.

Lemma paired_drop (k : nat) : forall l : list ChatMessage, paired l -> paired (drop (2 * k) l).
Proof.
  induction k as [|k IH]; intros l Hl; [exact Hl |].
  replace (2 * S k)%nat with (S (S (2 * k))) by lia.
  destruct l as [|x [|y l]]; simpl in *; try trivial.
  apply IH. apply Hl.
Qed.

(** The last ten entries of a conversation of exchanges are at most ten,
    an even number, and exchanges again. *)
Lemma slice_last_paired (conversation : list ChatMessage) :
  paired conversation ->
  (length (slice_last 10 conversation) <= 10)%nat /\
  Nat.Even (length (slice_last 10 conversation)) /\
  paired (slice_last 10 conversation).
Proof.
  intros Hp. destruct (paired_even _ Hp) as [k Hk]. unfold slice_last.
  assert (Hd : (length conversation - 10 = 2 * (k - 5))%nat) by lia.
  rewrite Hd. split; [| split].
  - rewrite length_drop. lia.
  - rewrite length_drop. exists (k - (k - 5))%nat. lia.
  - now apply paired_drop.
Qed.

Lemma conversations_paired_initial : conversations_paired initial.
Proof. intros sid c H. simpl in H. now rewrite lookup_empty in H. Qed.

Lemma postChat_paired (body : ChatBody) (draw : N) (now now' : Z) (s : Server) :
  conversations_paired s ->
  conversations_paired (snd (postChat body draw now now' s)) /\
  forall response sessionId conversation,
    fst (postChat body draw now now' s) = ChatJson response sessionId conversation ->
    (length conversation <= 10)%nat /\ Nat.Even (length conversation) /\ paired conversation.
Proof.
  intros Hp. unfold postChat.
  destruct (generateResponse draw (q_message body) _) as [response |]; simpl.
  2:{ split; [exact Hp | intros ? ? ? [=]]. }
  set (sid := default "default" (q_sessionId body)).
  set (turns := [ _; _ ]).
  assert (Hnew : paired (default [] (conversations s !! sid) ++ turns)).
  { apply paired_app.
    - destruct (conversations s !! sid) as [c |] eqn:Ec; simpl; [now apply (Hp sid) | exact I].
    - subst turns. simpl. repeat split. }
  split.
  - intros sid' c Hc. simpl in Hc.
    destruct (decide (sid = sid')) as [<- | Hne].
    + rewrite lookup_insert_eq in Hc. injection Hc as <-. exact Hnew.
    + rewrite lookup_insert_ne in Hc by assumption. now apply (Hp sid').
  - intros response' sessionId conversation [= _ _ <-]. now apply slice_last_paired.
Qed.

Lemma handle_paired (req : Request) (s : Server) :
  conversations_paired s ->
  conversations_paired (snd (handle req s)) /\
  forall response sessionId conversation,
    fst (handle req s) = ChatJson response sessionId conversation ->
    (length conversation <= 10)%nat /\ Nat.Even (length conversation) /\ paired conversation.
Proof.
  intros Hp. destruct req as [u | body uuid now | body draw now now' | sid | u]; simpl.
  - split; [exact Hp | intros ? ? ? [=]].
  - split; [| intros ? ? ? H; unfold postHealthData in H; simpl in H;
               destruct (healthData s !! _); discriminate H].
    unfold postHealthData. simpl. destruct (healthData s !! _); exact Hp.
  - now apply postChat_paired.
  - split; [exact Hp | intros ? ? ? [=]].
  - unfold getInsights. destruct (healthData s !! _) as [r |]; simpl.
    2:{ split; [exact Hp | intros ? ? ? [=]]. }
    destruct (length _ =? 0)%nat; simpl.
    { split; [exact Hp | intros ? ? ? [=]]. }
    destruct (generateHealthInsights r (heap s)) as [[insights |] h]; simpl;
      (split; [exact Hp | intros ? ? ? [=]]).
Qed.

(** C7. Whatever requests the server has handled, the conversation that a
    chat request returns has at most ten entries, an even number of them,
    and is made of exchanges: each user entry with the bot entry that
    answers it. *)
Theorem recent_history_bounded_and_paired
    (reqs : list Request) (response sessionId : string) (conversation : list ChatMessage) :
  In (ChatJson response sessionId conversation) (fst (serve reqs initial)) ->
  (length conversation <= 10)%nat /\
  Nat.Even (length conversation) /\
  paired conversation.
Proof.
  generalize conversations_paired_initial. generalize initial.
  induction reqs as [|req rest IH]; intros s Hp Hin; [destruct Hin |].
  rewrite serve_cons in Hin. simpl in Hin.
  destruct (handle_paired req s Hp) as [Hp' Hresp].
  destruct Hin as [Heq | Hin].
  - now apply (Hresp response sessionId).
  - now apply (IH (snd (handle req s))).
Qed.

Lemma recent_history_bounded_and_paired_witness :
  let chat := PostChat (mkChatBody "my weight?" (Some "s1") None) 7 100 101 in
  let exchange := [ mkChatMessage "user" "my weight?" 100;
                    mkChatMessage "bot" no_weight_data 101 ] in
  let conversation := exchange ++ exchange ++ exchange ++ exchange ++ exchange in
  (length conversation <= 10)%nat /\
  Nat.Even (length conversation) /\
  paired conversation.
Proof.
  intros chat exchange conversation.
  apply (recent_history_bounded_and_paired
           [chat; chat; chat; chat; chat; chat] no_weight_data "s1" conversation).
  vm_compute. do 5 right. left. reflexivity.
Defined.

(** ** Recording a measurement *)

Lemma postHealthData_created (body : MetricBody) (uuid : string) (now : Z) (s : Server) :
  fst (postHealthData body uuid now s)
  = MetricCreated {| m_id := uuid; m_type := b_type body; m_value := b_value body;
                     m_unit := b_unit body; m_timestamp := now;
                     m_notes := b_notes body; m_userId := b_userId body |}.
Proof.
  unfold postHealthData. simpl.
  destruct (healthData s !! default "default" (b_userId body)); reflexivity.
Qed.

(** C3, at the input where the code departs from it: a body that carries
    the timestamp 1000 and is recorded when the clock reads 5000 is stored
    with the timestamp 5000; the timestamp of the body is not kept. *)
Theorem client_timestamp_is_overwritten :
  let body := mkMetricBody weight (VNum 70) "kg" (Some 1000) None None in
  let stored := mkHealthMetric "a" weight (VNum 70) "kg" 5000 None None in
  b_timestamp (healthMetricSchema_validate 5000 body) = Some 1000 /\
  fst (handle (PostHealthData body "a" 5000) initial) = MetricCreated stored /\
  fst (handle (GetHealthData None) (snd (handle (PostHealthData body "a" 5000) initial)))
  = HealthDataJson [stored] /\
  m_timestamp stored <> 1000.
Proof. cbv zeta. repeat split; try (vm_compute; reflexivity). discriminate. Qed.

(** ** The store of measurements *)

Lemma store_separate_initial : store_separate initial.
Proof. intros u1 u2 r H. simpl in H. now rewrite lookup_empty in H. Qed.

(** Recording a measurement puts the created record at the end of the
    sequence of its user and changes the sequence of no other user. *)
Lemma postHealthData_userData
    (body : MetricBody) (uuid : string) (now : Z) (s : Server) (userId : string) :
  store_ok s -> store_separate s ->
  userData_of (snd (postHealthData body uuid now s)) userId
  = userData_of s userId ++
    (if decide (default "default" (b_userId body) = userId)
     then [created_metric body uuid now] else []).
Proof.
  intros Hok Hsep. unfold postHealthData, array_push, new_array. simpl.
  rewrite !userData_of_at_ref.
  set (uid := default "default" (b_userId body)).
  change (with_timestamp now (spread_value uuid now (healthMetricSchema_validate now body)))
    with (created_metric body uuid now).
  destruct (healthData s !! uid) as [r |] eqn:Er; simpl.
  - destruct (decide (uid = userId)) as [<- | Hne].
    + rewrite Er. apply at_ref_alter. now apply (Hok uid).
    + rewrite app_nil_r. destruct (healthData s !! userId) as [r' |] eqn:Er'; [| reflexivity].
      apply at_ref_alter_ne. intros ->. apply Hne. now apply (Hsep uid userId r').
  - destruct (decide (uid = userId)) as [<- | Hne].
    + rewrite lookup_insert_eq, Er. simpl.
      rewrite at_ref_alter by (rewrite length_app; simpl; lia).
      unfold at_ref. rewrite lookup_app_r, Nat.sub_diag by lia. reflexivity.
    + rewrite lookup_insert_ne, app_nil_r by assumption.
      destruct (healthData s !! userId) as [r' |] eqn:Er'; [| reflexivity].
      pose proof (Hok _ _ Er') as Hlt.
      rewrite at_ref_alter_ne by lia. now apply at_ref_app.
Qed.

Lemma postHealthData_store_separate (body : MetricBody) (uuid : string) (now : Z) (s : Server) :
  store_ok s -> store_separate s -> store_separate (snd (postHealthData body uuid now s)).
Proof.
  intros Hok Hsep. unfold postHealthData, array_push, new_array. simpl.
  set (uid := default "default" (b_userId body)).
  destruct (healthData s !! uid) as [r |] eqn:Er; simpl.
  - exact Hsep.
  - intros u1 u2 r H1 H2. simpl in H1, H2.
    destruct (decide (uid = u1)) as [<- | Hne1]; destruct (decide (uid = u2)) as [<- | Hne2].
    + reflexivity.
    + rewrite lookup_insert_eq in H1. rewrite lookup_insert_ne in H2 by assumption.
      injection H1 as <-. pose proof (Hok _ _ H2). lia.
    + rewrite lookup_insert_eq in H2. rewrite lookup_insert_ne in H1 by assumption.
      injection H2 as <-. pose proof (Hok _ _ H1). lia.
    + rewrite lookup_insert_ne in H1, H2 by assumption. now apply (Hsep u1 u2 r).
Qed.

Lemma handle_store_separate (req : Request) (s : Server) :
  store_ok s -> store_separate s -> store_separate (snd (handle req s)).
Proof.
  intros Hok Hsep. destruct req as [u | body uuid now | body draw now now' | sid | u]; simpl.
  - exact Hsep.
  - now apply postHealthData_store_separate.
  - unfold postChat. destruct (generateResponse _ _ _); exact Hsep.
  - exact Hsep.
  - destruct (getInsights_frame u s Hok) as (Hhd & _ & _).
    intros u1 u2 r. rewrite Hhd. apply Hsep.
Qed.

Lemma handle_posted (req : Request) (s : Server) (userId : string) :
  store_ok s -> store_separate s ->
  userData_of (snd (handle req s)) userId = userData_of s userId ++ posted_for userId [req].
Proof.
  intros Hok Hsep. destruct (is_record req) eqn:Hrec.
  - destruct req as [u | body uuid now | body draw now now' | sid | u]; try discriminate Hrec.
    simpl. rewrite app_nil_r. now apply postHealthData_userData.
  - rewrite handle_userData by assumption.
    destruct req; try discriminate Hrec; simpl; now rewrite app_nil_r.
Qed.

Lemma posted_for_cons (userId : string) (req : Request) (rest : list Request) :
  posted_for userId (req :: rest) = posted_for userId [req] ++ posted_for userId rest.
Proof. destruct req; simpl; rewrite ?app_nil_r; reflexivity. Qed.

Lemma serve_posted (reqs : list Request) :
  forall (s : Server) (userId : string),
  store_ok s -> store_separate s ->
  userData_of (snd (serve reqs s)) userId = userData_of s userId ++ posted_for userId reqs.
Proof.
  induction reqs as [|req rest IH]; intros s userId Hok Hsep.
  - simpl. now rewrite app_nil_r.
  - rewrite serve_cons. simpl snd.
    rewrite IH by (try apply handle_store_ok; try apply handle_store_separate; assumption).
    rewrite handle_posted by assumption.
    rewrite (posted_for_cons userId req rest). now rewrite app_assoc.
Qed.

Lemma recorded_for_cons (userId : string) (resp : Response) (rest : list Response) :
  recorded_for userId (resp :: rest) = recorded_for userId [resp] ++ recorded_for userId rest.
Proof. destruct resp; simpl; rewrite ?app_nil_r; reflexivity. Qed.

(** The records that a run reports as created are those that its requests
    create. *)
Lemma handle_recorded (req : Request) (s : Server) (userId : string) :
  recorded_for userId [fst (handle req s)] = posted_for userId [req].
Proof.
  destruct req as [u | body uuid now | body draw now now' | sid | u]; simpl.
  - reflexivity.
  - rewrite postHealthData_created. reflexivity.
  - unfold postChat. destruct (generateResponse _ _ _); reflexivity.
  - reflexivity.
  - unfold getInsights. destruct (healthData s !! _) as [r |]; [| reflexivity].
    destruct (length _ =? 0)%nat; [reflexivity |].
    destruct (generateHealthInsights r (heap s)) as [[insights |] h]; reflexivity.
Qed.

Lemma serve_recorded (reqs : list Request) (userId : string) :
  forall s : Server, recorded_for userId (fst (serve reqs s)) = posted_for userId reqs.
Proof.
  induction reqs as [|req rest IH]; intros s; [reflexivity |].
  rewrite serve_cons. simpl fst.
  rewrite recorded_for_cons, handle_recorded, IH.
  symmetry. apply posted_for_cons.
Qed.

(** X1. After any sequence of requests, the measurements that are listed
    for a user are the records that the recording requests of that user
    were answered with, in the order of the requests; a user for whom
    nothing was recorded has the empty list.  When the recorded values are
    numbers or objects, which validation returns as they are, these are
    the records made of the bodies, each with the id and the clock reading
    of its request. *)
Theorem listed_measurements_are_the_posted (reqs : list Request) (userId : option string) :
  fst (handle (GetHealthData userId) (snd (serve reqs initial)))
  = HealthDataJson (recorded_for (param_userId userId) (fst (serve reqs initial))) /\
  (kept_values reqs ->
   recorded_for (param_userId userId) (fst (serve reqs initial))
   = posted_for (param_userId userId) reqs).
Proof.
  split; [| intros _; apply serve_recorded].
  simpl. f_equal.
  rewrite (serve_posted reqs initial _ store_ok_initial store_separate_initial).
  rewrite serve_recorded. reflexivity.
Qed.

Lemma listed_measurements_are_the_posted_witness :
  let body v u := mkMetricBody weight (VNum v) "kg" None None u in
  let reqs := [ PostHealthData (body 70%float None) "a" 10;
                PostHealthData (body 80%float (Some "bob")) "b" 20;
                GetInsights None;
                PostHealthData (body 69%float None) "c" 30 ] in
  fst (handle (GetHealthData None) (snd (serve reqs initial)))
  = HealthDataJson [ mkHealthMetric "a" weight (VNum 70) "kg" 10 None None;
                     mkHealthMetric "c" weight (VNum 69) "kg" 30 None None ] /\
  fst (handle (GetHealthData (Some "eve")) (snd (serve reqs initial))) = HealthDataJson [].
Proof.
  intros body reqs.
  assert (Hkept : kept_values reqs) by (repeat constructor).
  split.
  - destruct (listed_measurements_are_the_posted reqs None) as [-> Hposted].
    rewrite (Hposted Hkept). reflexivity.
  - destruct (listed_measurements_are_the_posted reqs (Some "eve")) as [-> Hposted].
    rewrite (Hposted Hkept). reflexivity.
Defined.

Lemma reachable_store_separate (s : Server) : reachable s -> store_separate s.
Proof.
  intros [reqs <-]. generalize store_ok_initial store_separate_initial. generalize initial.
  induction reqs as [|req rest IH]; intros s Hok Hsep; [exact Hsep |].
  rewrite serve_cons. simpl. apply IH; [now apply handle_store_ok | now apply handle_store_separate].
Qed.

(** X2. In a state the server can be in, recording a measurement answers
    with the created record, which has the id and the clock reading of the
    request, the type, the unit, the notes and the user of the body, and
    the value of the body when that is a number or an object, which
    validation returns as it is; the record is then the last of the
    sequence of its user, after the records that were there, and the
    sequences of the other users and all conversations are as before. *)
Theorem record_appends_to_its_user
    (body : MetricBody) (uuid : string) (now : Z) (s : Server) :
  reachable s ->
  let userId := default "default" (b_userId body) in
  let s' := snd (handle (PostHealthData body uuid now) s) in
  exists data : HealthMetric,
    fst (handle (PostHealthData body uuid now) s) = MetricCreated data /\
    m_id data = uuid /\ m_timestamp data = now /\
    m_type data = b_type body /\ m_unit data = b_unit body /\
    m_notes data = b_notes body /\ m_userId data = b_userId body /\
    (kept_value (b_value body) = true -> m_value data = b_value body) /\
    userData_of s' userId = userData_of s userId ++ [data] /\
    (forall other, other <> userId -> userData_of s' other = userData_of s other) /\
    conversations s' = conversations s.
Proof.
  intros Hreach userId s'.
  pose proof (reachable_store_ok s Hreach) as Hok.
  pose proof (reachable_store_separate s Hreach) as Hsep.
  exists (created_metric body uuid now).
  split; [apply postHealthData_created |].
  do 7 (split; [reflexivity |]).
  split; [| split].
  - subst s'. simpl. rewrite postHealthData_userData by assumption.
    fold userId. now rewrite decide_True.
  - intros other Hne. subst s'. simpl. rewrite postHealthData_userData by assumption.
    fold userId. rewrite decide_False by congruence. apply app_nil_r.
  - subst s'. simpl. unfold postHealthData. simpl.
    destruct (healthData s !! _); reflexivity.
Qed.

Lemma record_appends_to_its_user_witness :
  let body v u := mkMetricBody weight (VNum v) "kg" None None u in
  let s := snd (serve [PostHealthData (body 70%float (Some "ann")) "a" 10;
                       PostHealthData (body 80%float (Some "bob")) "b" 20] initial) in
  let s' := snd (handle (PostHealthData (body 69%float (Some "ann")) "c" 30) s) in
  exists data : HealthMetric,
    m_id data = "c" /\ m_value data = VNum 69 /\
    userData_of s' "ann" = [mkHealthMetric "a" weight (VNum 70) "kg" 10 None (Some "ann"); data] /\
    userData_of s' "bob" = [mkHealthMetric "b" weight (VNum 80) "kg" 20 None (Some "bob")].
Proof.
  intros body s s'.
  assert (Hreach : reachable s) by (eexists; reflexivity).
  destruct (record_appends_to_its_user (body 69%float (Some "ann")) "c" 30 s Hreach)
    as (data & _ & Hid & _ & _ & _ & _ & _ & Hvalue & Hann & Hother & _).
  exists data. split; [exact Hid |]. split; [now apply Hvalue |]. split.
  - subst s'. simpl default in Hann. rewrite Hann. f_equal.
  - subst s'. rewrite (Hother "bob") by discriminate. vm_compute. reflexivity.
Defined.

(** ** Chat requests *)

Lemma postChat_effect (body : ChatBody) (draw : N) (now now' : Z) (s : Server)
    (response : string) :
  generateResponse draw (q_message body) (userData_of s (default "default" (q_userId body)))
  = Some response ->
  postChat body draw now now' s
  = (ChatJson response (default "default" (q_sessionId body))
       (slice_last 10 (history_of s (default "default" (q_sessionId body)) ++
                       exchange (q_message body) response now now')),
     {| heap := heap s; healthData := healthData s;
        conversations :=
          <[default "default" (q_sessionId body) :=
              history_of s (default "default" (q_sessionId body)) ++
              exchange (q_message body) response now now']> (conversations s) |}).
Proof. intros Hr. unfold postChat. rewrite Hr. reflexivity. Qed.

Lemma postChat_throws (body : ChatBody) (draw : N) (now now' : Z) (s : Server) :
  generateResponse draw (q_message body) (userData_of s (default "default" (q_userId body)))
  = None ->
  postChat body draw now now' s = (InternalServerError, s).
Proof. intros Hr. unfold postChat. rewrite Hr. reflexivity. Qed.

(** X3. A chat request is answered with a reply and the recent
    conversation whenever, for each type, the value of the record of the
    user that was inserted last converts to a string, whatever the message
    is; it is answered with the internal server error only when one of
    these values does not convert, and then nothing is stored. *)
Theorem chat_fails_on_unprintable_value_only
    (body : ChatBody) (draw : N) (now now' : Z) (s : Server) :
  let userData := userData_of s (default "default" (q_userId body)) in
  (latest_convert userData ->
   exists response conversation,
     fst (handle (PostChat body draw now now') s)
     = ChatJson response (default "default" (q_sessionId body)) conversation /\
     generateResponse draw (q_message body) userData = Some response) /\
  (fst (handle (PostChat body draw now now') s) = InternalServerError ->
   ~ latest_convert userData /\ snd (handle (PostChat body draw now now') s) = s).
Proof.
  intros userData. split.
  - intros Hconv.
    destruct (generateResponse_Some draw (q_message body) userData Hconv) as [response Hr].
    exists response. eexists. simpl.
    rewrite (postChat_effect body draw now now' s response Hr).
    split; [reflexivity | exact Hr].
  - simpl. intros Hfail.
    destruct (generateResponse draw (q_message body) userData) as [response |] eqn:Hr.
    + rewrite (postChat_effect body draw now now' s response Hr) in Hfail.
      discriminate Hfail.
    + split; [| now rewrite (postChat_throws body draw now now' s Hr)].
      intros Hconv.
      destruct (generateResponse_Some draw (q_message body) userData Hconv) as [response Hr'].
      congruence.
Qed.

Lemma chat_fails_on_unprintable_value_only_witness :
  let body v := mkMetricBody weight v "kg" None None None in
  let chat := mkChatBody "my weight" None None in
  let printable := snd (handle (PostHealthData (body (VObj ["kg"])) "a" 10) initial) in
  let unprintable := snd (handle (PostHealthData (body (VObj ["toString"])) "a" 10) initial) in
  (exists response conversation,
     fst (handle (PostChat chat 0 20 21) printable) = ChatJson response "default" conversation /\
     generateResponse 0 "my weight" (userData_of printable "default") = Some response /\
     response = "Your latest weight is [object Object] kg. " +:+ responses_weight_advice) /\
  fst (handle (PostChat chat 0 20 21) unprintable) = InternalServerError /\
  ~ latest_convert (userData_of unprintable "default") /\
  snd (handle (PostChat chat 0 20 21) unprintable) = unprintable.
Proof.
  intros body chat printable unprintable.
  destruct (chat_fails_on_unprintable_value_only chat 0 20 21 printable) as [Hanswer _].
  destruct (chat_fails_on_unprintable_value_only chat 0 20 21 unprintable) as [_ Hfail].
  assert (E : fst (handle (PostChat chat 0 20 21) unprintable) = InternalServerError)
    by (vm_compute; reflexivity).
  split; [| split; [exact E | exact (Hfail E)]].
  destruct Hanswer as (response & conversation & Hresp & Hreply).
  - intros t latest Hlast.
    destruct t; vm_compute in Hlast; try discriminate Hlast;
      injection Hlast as <-; reflexivity.
  - exists response, conversation. split; [exact Hresp |]. split; [exact Hreply |].
    vm_compute in Hreply. now injection Hreply as <-.
Defined.

(** X4. A chat request whose reply is composed adds to the conversation of
    its session the user entry with the message as it was sent and then
    the bot entry with the reply, each with its reading of the clock and
    both after the entries that were there; it answers with the last ten
    entries of the conversation so extended, and leaves the conversations
    of the other sessions and all measurements as they were. *)
Theorem chat_appends_exchange
    (body : ChatBody) (draw : N) (now now' : Z) (s : Server) (response : string) :
  generateResponse draw (q_message body) (userData_of s (default "default" (q_userId body)))
  = Some response ->
  let sessionId := default "default" (q_sessionId body) in
  let s' := snd (handle (PostChat body draw now now') s) in
  history_of s' sessionId
  = history_of s sessionId ++ exchange (q_message body) response now now' /\
  fst (handle (PostChat body draw now now') s)
  = ChatJson response sessionId (slice_last 10 (history_of s' sessionId)) /\
  (forall other, other <> sessionId -> history_of s' other = history_of s other) /\
  healthData s' = healthData s /\ heap s' = heap s.
Proof.
  intros Hr sessionId s'.
  subst s'. simpl. rewrite (postChat_effect body draw now now' s response Hr).
  simpl. fold sessionId.
  set (s1 := {| heap := heap s; healthData := healthData s; conversations := _ |}).
  assert (Hh : history_of s1 sessionId
               = history_of s sessionId ++ exchange (q_message body) response now now').
  { unfold history_of at 1. subst s1. simpl. now rewrite lookup_insert_eq. }
  split; [exact Hh |]. split; [now rewrite Hh |]. split; [| split; reflexivity].
  intros other Hne. unfold history_of. subst s1. simpl. now rewrite lookup_insert_ne.
Qed.

Lemma chat_appends_exchange_witness :
  let first := PostChat (mkChatBody "help" (Some "s1") None) 0 10 11 in
  let s := snd (handle first initial) in
  let s' := snd (handle (PostChat (mkChatBody "what can you do" (Some "s1") None) 0 20 22) s) in
  history_of s' "s1"
  = [ mkChatMessage "user" "help" 10; mkChatMessage "bot" help_text 11;
      mkChatMessage "user" "what can you do" 20; mkChatMessage "bot" help_text 22 ].
Proof.
  intros first s s'.
  destruct (chat_appends_exchange (mkChatBody "what can you do" (Some "s1") None)
              0 20 22 s help_text) as [Hh _].
  - vm_compute. reflexivity.
  - subst s'. simpl default in Hh. rewrite Hh. vm_compute. reflexivity.
Defined.

Lemma answered_cons (sessionId : string) (req : Request) (reqs : list Request)
    (resp : Response) (resps : list Response) :
  answered sessionId (req :: reqs) (resp :: resps)
  = answered sessionId [req] [resp] ++ answered sessionId reqs resps.
Proof.
  destruct req; simpl; try reflexivity.
  destruct resp; simpl; rewrite ?app_nil_r; reflexivity.
Qed.

Lemma handle_answered (req : Request) (s : Server) (sessionId : string) :
  history_of (snd (handle req s)) sessionId
  = history_of s sessionId ++ answered sessionId [req] [fst (handle req s)].
Proof.
  assert (Hsame : forall s', conversations s' = conversations s ->
            history_of s' sessionId = history_of s sessionId ++ []).
  { intros s' Hc. rewrite app_nil_r. unfold history_of. now rewrite Hc. }
  destruct req as [u | body uuid now | body draw now now' | sid | u]; simpl handle.
  - now apply Hsame.
  - apply Hsame. unfold postHealthData. simpl. destruct (healthData s !! _); reflexivity.
  - destruct (generateResponse draw (q_message body)
                (userData_of s (default "default" (q_userId body)))) as [response |] eqn:Hr.
    + rewrite (postChat_effect body draw now now' s response Hr).
      simpl snd. simpl fst. simpl answered. rewrite app_nil_r.
      destruct (decide (default "default" (q_sessionId body) = sessionId)) as [<- | Hne].
      * unfold history_of at 1. simpl. rewrite lookup_insert_eq. reflexivity.
      * rewrite app_nil_r. unfold history_of. simpl. now rewrite lookup_insert_ne.
    + rewrite (postChat_throws body draw now now' s Hr). now apply Hsame.
  - now apply Hsame.
  - apply Hsame.
    unfold getInsights. destruct (healthData s !! _) as [r |]; [| reflexivity].
    destruct (length _ =? 0)%nat; [reflexivity |].
    destruct (generateHealthInsights r (heap s)). reflexivity.
Qed.

Lemma serve_answered (reqs : list Request) :
  forall (s : Server) (sessionId : string),
  history_of (snd (serve reqs s)) sessionId
  = history_of s sessionId ++ answered sessionId reqs (fst (serve reqs s)).
Proof.
  induction reqs as [|req rest IH]; intros s sessionId.
  - simpl. now rewrite app_nil_r.
  - rewrite serve_cons. simpl snd. simpl fst.
    rewrite IH, handle_answered, (answered_cons sessionId req rest).
    now rewrite app_assoc.
Qed.

(** X5. The history of a session is not cut to ten entries: after any
    sequence of requests it is, exchange by exchange and in the order of
    the requests, the message of every chat request of the session that
    was answered with a reply, followed by that reply. *)
Theorem history_is_every_exchange (reqs : list Request) (sessionId : string) :
  fst (handle (GetChatHistory sessionId) (snd (serve reqs initial)))
  = HistoryJson (answered sessionId reqs (fst (serve reqs initial))).
Proof.
  simpl. f_equal.
  change (default [] (conversations (snd (serve reqs initial)) !! sessionId))
    with (history_of (snd (serve reqs initial)) sessionId).
  now rewrite serve_answered.
Qed.

(** Six chat requests: the chat answers with ten entries, the history has
    all twelve. *)
Example history_is_not_cut :
  let chat := PostChat (mkChatBody "help" (Some "s1") None) 0 10 11 in
  let reqs := [chat; chat; chat; chat; chat; chat; GetChatHistory "s1"] in
  exists conversation history,
    nth 5 (fst (serve reqs initial)) UncaughtError = ChatJson help_text "s1" conversation /\
    length conversation = 10%nat /\
    nth 6 (fst (serve reqs initial)) UncaughtError = HistoryJson history /\
    length history = 12%nat.
Proof.
  cbv zeta. eexists _, _.
  split; [vm_compute; reflexivity |]. split; [reflexivity |].
  split; [vm_compute; reflexivity | reflexivity].
Qed.

(** ** The insights report *)

(** X6. The insights answer with the fixed message that no data is
    available exactly when no measurement is stored for the user, an
    unknown user included; the state is then left as it is, and no report
    is computed. *)
Theorem insights_without_data (userId : option string) (s : Server) :
  (fst (handle (GetInsights userId) s) = InsightsMessage no_insights <->
   userData_of s (param_userId userId) = []) /\
  (userData_of s (param_userId userId) = [] -> snd (handle (GetInsights userId) s) = s).
Proof.
  simpl. unfold getInsights, userData_of.
  destruct (healthData s !! param_userId userId) as [r |]; simpl.
  2:{ split; [split; reflexivity | reflexivity]. }
  destruct (default [] (heap s !! r)) as [|d records] eqn:E; simpl.
  { split; [split; reflexivity | reflexivity]. }
  destruct (generateHealthInsights r (heap s)) as [[insights |] h]; simpl;
    (split; [split; discriminate | discriminate]).
Qed.

Lemma store_ok_lookup (s : Server) (userId : string) (r : ref) :
  store_ok s -> healthData s !! userId = Some r ->
  heap s !! r = Some (userData_of s userId).
Proof.
  intros Hok Hr. unfold userData_of. rewrite Hr.
  destruct (lookup_lt_is_Some_2 (heap s) r (Hok _ _ Hr)) as [records ->]. reflexivity.
Qed.

(** The answer of the insights request, in terms of the measurements of the
    user. *)
Lemma getInsights_report (userId : option string) (s : Server) :
  store_ok s ->
  userData_of s (param_userId userId) <> [] ->
  exists r : ref,
    heap s !! r = Some (userData_of s (param_userId userId)) /\
    fst (getInsights userId s)
    = match fst (generateHealthInsights r (heap s)) with
      | Some insights => InsightsJson insights
      | None => UncaughtError
      end.
Proof.
  intros Hok Hne. unfold getInsights.
  destruct (healthData s !! param_userId userId) as [r |] eqn:Er.
  2:{ exfalso. apply Hne. unfold userData_of. now rewrite Er. }
  pose proof (store_ok_lookup s _ r Hok Er) as Hrecords.
  rewrite Hrecords. simpl.
  destruct (userData_of s (param_userId userId)) as [|d records] eqn:E; [congruence |].
  simpl. destruct (generateHealthInsights r (heap s)) as [result h] eqn:Eg.
  exists r. now rewrite Eg.
Qed.

(** X7. For a user with measurements, in a state the server can be in, the
    insights request is answered with a report or, when reading a value
    throws, with the error of an uncaught exception; the report is given
    when the values of the user convert to a string.  The report counts
    all records of the user, and lists as tracked each type that some
    record has, once, in the order in which the types first occur among
    the records. *)
Theorem insights_report_totals (userId : option string) (s : Server) :
  reachable s ->
  userData_of s (param_userId userId) <> [] ->
  (forall insights,
     fst (handle (GetInsights userId) s) = InsightsJson insights ->
     totalRecords insights = length (userData_of s (param_userId userId)) /\
     metricsTracked insights
     = first_occurrences (map m_type (userData_of s (param_userId userId))) /\
     NoDup (metricsTracked insights) /\
     (forall t, t ∈ metricsTracked insights <->
                exists d, d ∈ userData_of s (param_userId userId) /\ m_type d = t)) /\
  (all_convert (userData_of s (param_userId userId)) ->
   exists insights, fst (handle (GetInsights userId) s) = InsightsJson insights) /\
  (fst (handle (GetInsights userId) s) = UncaughtError \/
   exists insights, fst (handle (GetInsights userId) s) = InsightsJson insights).
Proof.
  intros Hreach Hne. apply reachable_store_ok in Hreach.
  destruct (getInsights_report userId s Hreach Hne) as (r & Hrecords & Hresp).
  simpl. rewrite Hresp.
  destruct (generateHealthInsights_spec (heap s) r _ Hrecords)
    as (result & h' & E & _ & Hres).
  split; [| split].
  - intros insights Hjson. rewrite E in Hjson. simpl in Hjson.
    destruct result as [insights' |]; [| discriminate Hjson].
    injection Hjson as ->.
    destruct Hres as (Htotal & Htracked & _).
    split; [exact Htotal |]. split; [exact Htracked |].
    rewrite Htracked, <- Set_of_first_occurrences. split; [apply NoDup_Set_of |].
    intros t. rewrite elem_of_Set_of, list_elem_of_fmap. split.
    + intros (d & -> & Hd). now exists d.
    + intros (d & Hd & <-). now exists d.
  - intros Hall.
    destruct (generateHealthInsights_returns (heap s) r _ Hrecords Hall) as [insights ->].
    now exists insights.
  - rewrite E. simpl. destruct result as [insights |]; [right; now exists insights | now left].
Qed.

Lemma insights_report_totals_witness :
  let body t v := mkMetricBody t (VNum v) "x" None None None in
  let s := snd (serve [PostHealthData (body steps 9000%float) "a" 10;
                       PostHealthData (body weight 70%float) "b" 20;
                       PostHealthData (body steps 9500%float) "c" 30] initial) in
  exists insights,
    fst (handle (GetInsights None) s) = InsightsJson insights /\
    totalRecords insights = 3%nat /\
    metricsTracked insights = [steps; weight].
Proof.
  intros body s.
  assert (Hreach : reachable s) by (eexists; reflexivity).
  assert (Hdata : userData_of s (param_userId None)
                  = [ mkHealthMetric "a" steps (VNum 9000) "x" 10 None None;
                      mkHealthMetric "b" weight (VNum 70) "x" 20 None None;
                      mkHealthMetric "c" steps (VNum 9500) "x" 30 None None ])
    by (vm_compute; reflexivity).
  assert (Hne : userData_of s (param_userId None) <> []) by (rewrite Hdata; discriminate).
  destruct (insights_report_totals None s Hreach Hne) as (Htotals & Hret & _).
  destruct Hret as [insights Hjson]; [rewrite Hdata; repeat constructor |].
  exists insights. split; [exact Hjson |].
  destruct (Htotals insights Hjson) as (Ht & Hm & _).
  rewrite Ht, Hm, Hdata. split; reflexivity.
Defined.

(** X8. The recommendations of a report are taken, in this order, from the
    advice to track more metrics, the advice to log more often and the
    encouragement: the encouragement is always the last of them, the
    advice to track more metrics is present exactly when fewer than three
    types are tracked, and the advice to log more often exactly when there
    are fewer than seven records. *)
Theorem recommendations_of_report
    (h : Heap) (data : ref) (records : list HealthMetric) (insights : Insights) :
  h !! data = Some records ->
  fst (generateHealthInsights data h) = Some insights ->
  sublist (recommendations insights)
    [recommend_more_metrics; recommend_more_often; recommend_keep_going] /\
  last (recommendations insights) = Some recommend_keep_going /\
  (recommend_more_metrics ∈ recommendations insights <->
   (length (first_occurrences (map m_type records)) < 3)%nat) /\
  (recommend_more_often ∈ recommendations insights <-> (length records < 7)%nat).
Proof.
  intros Hdata Hret.
  destruct (generateHealthInsights_spec h data records Hdata)
    as (result & h' & E & _ & Hres).
  rewrite E in Hret. simpl in Hret. subst result.
  destruct Hres as (_ & _ & _ & Hrecs). rewrite Hrecs.
  destruct (Nat.ltb_spec (length (first_occurrences (map m_type records))) 3) as [Hm | Hm];
    destruct (Nat.ltb_spec (length records) 7) as [Hr | Hr]; simpl;
    (split; [repeat first [apply sublist_nil | apply sublist_skip | apply sublist_cons];
             fail |]);
    (split; [reflexivity |]);
    rewrite ?elem_of_cons, ?elem_of_nil; unfold recommend_more_metrics,
      recommend_more_often, recommend_keep_going;
    split; split; intros H; try lia; try tauto;
    try (destruct H as [H | [H | H]]; try discriminate H; tauto);
    try (destruct H as [H | H]; try discriminate H; tauto).
Qed.

Lemma recommendations_of_report_witness :
  let r t ts := mkHealthMetric "i" t (VNum 1) "x" ts None None in
  let records := [r weight 1; r steps 2; r height 3; r weight 4;
                  r steps 5; r height 6; r weight 7; r steps 8] in
  exists insights,
    fst (generateHealthInsights 0 [records]) = Some insights /\
    recommendations insights = [recommend_keep_going] /\
    recommend_more_metrics ∉ recommendations insights.
Proof.
  intros r records.
  assert (E : exists insights, fst (generateHealthInsights 0 [records]) = Some insights
                               /\ recommendations insights = [recommend_keep_going]).
  { eexists. split; vm_compute; reflexivity. }
  destruct E as (insights & E & Hrecs).
  exists insights. split; [exact E |]. split; [exact Hrecs |].
  destruct (recommendations_of_report [records] 0%nat records insights eq_refl E)
    as (_ & _ & Hm & _).
  rewrite Hm. vm_compute. lia.
Defined.

Lemma timestamps_strongly_sorted (l : list HealthMetric) :
  Sorted (fun a b => m_timestamp a <= m_timestamp b) l ->
  StronglySorted (fun a b => m_timestamp a <= m_timestamp b) l.
Proof. apply Sorted_StronglySorted. intros a b c. lia. Qed.

Lemma strongly_sorted_last (l : list HealthMetric) (b : HealthMetric) :
  StronglySorted (fun a b => m_timestamp a <= m_timestamp b) l ->
  last l = Some b ->
  Forall (fun x => m_timestamp x <= m_timestamp b) l.
Proof.
  induction 1 as [|x l Hl IH Hx]; intros Hlast; [constructor |].
  destruct l as [|y l'].
  - injection Hlast as <-. repeat constructor. lia.
  - change (last (x :: y :: l')) with (last (y :: l')) in Hlast.
    constructor; [| now apply IH].
    rewrite Forall_forall in Hx. apply Hx.
    eapply last_Some_elem_of. exact Hlast.
Qed.

(** In an array sorted by timestamp, the first record is the earliest and
    the last record is the latest. *)
Lemma sorted_first_last (l : list HealthMetric) (a b : HealthMetric) :
  Sorted (fun a b => m_timestamp a <= m_timestamp b) l ->
  head l = Some a -> last l = Some b ->
  Forall (fun x => m_timestamp a <= m_timestamp x <= m_timestamp b) l.
Proof.
  intros Hs Ha Hb. apply timestamps_strongly_sorted in Hs.
  pose proof (strongly_sorted_last l b Hs Hb) as Hmax.
  destruct l as [|x l]; [constructor |]. injection Ha as ->.
  inversion Hs as [|? ? _ Hmin]; subst.
  rewrite Forall_forall in Hmax, Hmin. apply Forall_forall. intros y Hy.
  split; [| now apply Hmax].
  apply elem_of_cons in Hy as [-> | Hy]; [lia | now apply Hmin].
Qed.

(** X9. A trend entry is written for a type only when the type has two
    records or more.  It then compares two records of the type, one with
    the earliest and one with the latest timestamp of the type, whatever
    the order of insertion: the change is the number read from the latest
    value minus the number read from the earliest, the percent change is
    their quotient by the earliest, times 100, with one decimal, and the
    record count is the number of records of the type. *)
Theorem trend_compares_earliest_and_latest
    (h : Heap) (data : ref) (records : list HealthMetric) (insights : Insights)
    (t : MetricType) (tr : Trend) :
  h !! data = Some records ->
  fst (generateHealthInsights data h) = Some insights ->
  group_lookup (trends insights) t = Some tr ->
  exists (earliest latest : HealthMetric) (first_number last_number : float),
    earliest ∈ of_type t records /\ latest ∈ of_type t records /\
    (forall r, r ∈ of_type t records ->
       m_timestamp earliest <= m_timestamp r <= m_timestamp latest) /\
    parseFloat (m_value earliest) = Some first_number /\
    parseFloat (m_value latest) = Some last_number /\
    change tr = (last_number - first_number)%float /\
    percentChange tr
    = toFixed ((last_number - first_number) / first_number * 100)%float 1 /\
    recordCount tr = length (of_type t records) /\
    (2 <= length (of_type t records))%nat.
Proof.
  intros Hdata Hret Htr.
  pose proof (generateHealthInsights_trend h data records insights t Hdata Hret) as Htrend.
  rewrite Htr in Htrend.
  set (sorted := Array_sort by_timestamp (of_type t records)) in *.
  assert (Hlen : length sorted = length (of_type t records)) by apply Array_sort_length.
  assert (Hin : forall r, r ∈ sorted <-> r ∈ of_type t records).
  { intros r. subst sorted. now rewrite Array_sort_perm. }
  unfold trend_of in Htrend.
  destruct (Nat.leb_spec 2 (length sorted)) as [Hge |]; [| discriminate Htrend].
  destruct (head sorted) as [r0 |] eqn:Ehead; [| discriminate Htrend].
  destruct (last sorted) as [rn |] eqn:Elast; [| discriminate Htrend].
  destruct (parseFloat (m_value r0)) as [first_number |] eqn:E0; [| discriminate Htrend].
  destruct (parseFloat (m_value rn)) as [last_number |] eqn:En; [| discriminate Htrend].
  destruct (negb (PrimFloat.is_nan first_number) && negb (PrimFloat.is_nan last_number));
    [| discriminate Htrend].
  injection Htrend as <-. simpl.
  exists r0, rn, first_number, last_number.
  pose proof (sorted_first_last sorted r0 rn (Array_sort_sorted _) Ehead Elast) as Hbounds.
  rewrite Forall_forall in Hbounds.
  split; [apply Hin; now apply head_Some_elem_of |].
  split; [apply Hin; now apply last_Some_elem_of |].
  split; [intros r Hr; apply Hbounds; now apply Hin |].
  repeat split; try reflexivity; try assumption; lia.
Qed.

Lemma trend_compares_earliest_and_latest_witness :
  let r1 := mkHealthMetric "a" weight (VNum 70) "kg" 3000 None None in
  let r2 := mkHealthMetric "b" weight (VNum 68) "kg" 1000 None None in
  let r3 := mkHealthMetric "c" weight (VNum 69) "kg" 2000 None None in
  let tr := {| change := 2%float; percentChange := "2.9";
               direction := "increase"; recordCount := 3 |} in
  exists (earliest latest : HealthMetric) (first_number last_number : float),
    m_timestamp earliest = 1000 /\ m_timestamp latest = 3000 /\
    parseFloat (m_value earliest) = Some first_number /\
    parseFloat (m_value latest) = Some last_number /\
    change tr = (last_number - first_number)%float.
Proof.
  intros r1 r2 r3 tr.
  destruct (trend_compares_earliest_and_latest [[r1; r2; r3]] 0%nat [r1; r2; r3]
              {| totalRecords := 3; metricsTracked := [weight]; trends := [(weight, tr)];
                 recommendations :=
                   [recommend_more_metrics; recommend_more_often; recommend_keep_going] |}
              weight tr)
    as (earliest & latest & first_number & last_number & He & Hl & Hb & H0 & Hn & Hc & _).
  - reflexivity.
  - vm_compute. reflexivity.
  - reflexivity.
  - exists earliest, latest, first_number, last_number.
    assert (H1 : r1 ∈ of_type weight [r1; r2; r3]) by (vm_compute; left).
    assert (H2 : r2 ∈ of_type weight [r1; r2; r3]) by (vm_compute; right; left).
    pose proof (Hb r1 H1) as B1. pose proof (Hb r2 H2) as B2.
    pose proof (Hb earliest He) as Be. pose proof (Hb latest Hl) as Bl.
    assert (Hte : m_timestamp earliest = 1000 \/ m_timestamp earliest = 3000 \/
                  m_timestamp earliest = 2000).
    { change (of_type weight [r1; r2; r3]) with [r1; r2; r3] in He.
      rewrite !elem_of_cons, elem_of_nil in He.
      destruct He as [-> | [-> | [-> | []]]]; simpl; tauto. }
    assert (Htl : m_timestamp latest = 1000 \/ m_timestamp latest = 3000 \/
                  m_timestamp latest = 2000).
    { change (of_type weight [r1; r2; r3]) with [r1; r2; r3] in Hl.
      rewrite !elem_of_cons, elem_of_nil in Hl.
      destruct Hl as [-> | [-> | [-> | []]]]; simpl; tauto. }
    simpl in B1, B2. split; [lia |]. split; [lia |].
    split; [exact H0 |]. split; [exact Hn | exact Hc].
Defined.

Lemma toFixed_not_finite (x : float) (f : nat) :
  Prim2SF x = S754_nan \/ (exists b, Prim2SF x = S754_infinity b) ->
  toFixed x f ∈ ["NaN"; "Infinity"; "-Infinity"].
Proof.
  intros [H | [b H]]; unfold toFixed, Number_toString; rewrite H.
  - left.
  - destruct b; [right; right; left | right; left].
Qed.

Lemma eqb_zero (x : float) : (x =? 0)%float = true -> exists s, Prim2SF x = S754_zero s.
Proof.
  rewrite FloatAxioms.eqb_spec. change (Prim2SF 0) with (S754_zero false).
  destruct (Prim2SF x) as [s | s | | s m e]; simpl; try discriminate.
  - intros _. now exists s.
  - destruct s; discriminate.
  - destruct s; discriminate.
Qed.

Lemma not_nan (x : float) : PrimFloat.is_nan x = false -> Prim2SF x <> S754_nan.
Proof.
  unfold PrimFloat.is_nan. rewrite FloatAxioms.eqb_spec. intros H E. rewrite E in H. discriminate H.
Qed.

(** The percent change from a start of zero is not a finite number. *)
Lemma percent_from_zero (first last : float) :
  (first =? 0)%float = true -> PrimFloat.is_nan last = false ->
  Prim2SF ((last - first) / first * 100)%float = S754_nan \/
  exists b, Prim2SF ((last - first) / first * 100)%float = S754_infinity b.
Proof.
  intros Hz Hn. destruct (eqb_zero first Hz) as [s Hs]. apply not_nan in Hn.
  rewrite FloatAxioms.mul_spec, FloatAxioms.div_spec, FloatAxioms.sub_spec, Hs.
  change (Prim2SF 100) with (S754_finite false 7036874417766400 (-46)).
  destruct (Prim2SF last) as [sl | sl | | sl m e]; [| | congruence |].
  - left. destruct sl, s; reflexivity.
  - right. eexists. reflexivity.
  - right. eexists. reflexivity.
Qed.

(** X10. When the earliest value of a type reads as zero, the division of
    the percent change is a division by zero, and the trend entry, if one
    is written, has "NaN", "Infinity" or "-Infinity" as its percent change:
    the report is still produced. *)
Theorem percent_change_from_zero
    (h : Heap) (data : ref) (records : list HealthMetric) (insights : Insights)
    (t : MetricType) (tr : Trend) (r0 : HealthMetric) (first_number : float) :
  h !! data = Some records ->
  fst (generateHealthInsights data h) = Some insights ->
  group_lookup (trends insights) t = Some tr ->
  head (Array_sort by_timestamp (of_type t records)) = Some r0 ->
  parseFloat (m_value r0) = Some first_number ->
  (first_number =? 0)%float = true ->
  percentChange tr ∈ ["NaN"; "Infinity"; "-Infinity"].
Proof.
  intros Hdata Hret Htr Hhead Hfirst Hzero.
  pose proof (generateHealthInsights_trend h data records insights t Hdata Hret) as Htrend.
  rewrite Htr in Htrend.
  unfold trend_of in Htrend. rewrite Hhead, Hfirst in Htrend.
  destruct (2 <=? length _)%nat; [| discriminate Htrend].
  destruct (last _) as [rn |]; [| discriminate Htrend].
  destruct (parseFloat (m_value rn)) as [last_number |]; [| discriminate Htrend].
  destruct (PrimFloat.is_nan first_number); [discriminate Htrend |].
  destruct (PrimFloat.is_nan last_number) eqn:En; [discriminate Htrend |].
  injection Htrend as <-. simpl.
  apply toFixed_not_finite. now apply percent_from_zero.
Qed.

Lemma percent_change_from_zero_witness :
  let r1 := mkHealthMetric "a" steps (VNum 0) "steps" 1000 None None in
  let r2 := mkHealthMetric "b" steps (VNum 5000) "steps" 2000 None None in
  let tr := {| change := 5000%float; percentChange := "Infinity";
               direction := "increase"; recordCount := 2 |} in
  let insights :=
    {| totalRecords := 2; metricsTracked := [steps]; trends := [(steps, tr)];
       recommendations :=
         [recommend_more_metrics; recommend_more_often; recommend_keep_going] |} in
  fst (generateHealthInsights 0 [[r1; r2]]) = Some insights /\
  percentChange tr ∈ ["NaN"; "Infinity"; "-Infinity"].
Proof.
  intros r1 r2 tr insights.
  assert (Hret : fst (generateHealthInsights 0 [[r1; r2]]) = Some insights)
    by (vm_compute; reflexivity).
  split; [exact Hret |].
  apply (percent_change_from_zero [[r1; r2]] 0%nat [r1; r2] insights steps tr r1 0%float).
  - reflexivity.
  - exact Hret.
  - reflexivity.
  - reflexivity.
  - reflexivity.
  - reflexivity.
Defined.

(** ** Timestamps and the order of insertion *)

Lemma posted_for_clock_bound (userId : string) (lo : Z) (reqs : list Request) :
  Forall (fun c => lo <= c) (record_clocks reqs) ->
  Forall (fun r => lo <= m_timestamp r) (posted_for userId reqs).
Proof.
  induction reqs as [|req rest IH]; intros H; [constructor |].
  destruct req as [u | body uuid now | body draw now now' | sid | u]; simpl in *; try now apply IH.
  apply Forall_cons in H as [Hnow Hrest].
  destruct (decide (default "default" (b_userId body) = userId)); simpl; [| now apply IH].
  constructor; [exact Hnow | now apply IH].
Qed.

Lemma posted_for_sorted (userId : string) (reqs : list Request) :
  StronglySorted Z.le (record_clocks reqs) ->
  StronglySorted (fun a b => m_timestamp a <= m_timestamp b) (posted_for userId reqs).
Proof.
  induction reqs as [|req rest IH]; intros H; [constructor |].
  destruct req as [u | body uuid now | body draw now now' | sid | u]; simpl in *; try now apply IH.
  inversion H as [|? ? Hrest Hnow]; subst.
  destruct (decide (default "default" (b_userId body) = userId)); simpl; [| now apply IH].
  constructor; [now apply IH |].
  now apply (posted_for_clock_bound userId now rest).
Qed.

Lemma strongly_sorted_filter {A} (R : A -> A -> Prop) (P : A -> Prop)
    `{!forall x, Decision (P x)} (l : list A) :
  StronglySorted R l -> StronglySorted R (filter P l).
Proof.
  induction 1 as [|x l Hl IH Hx]; [constructor |].
  rewrite filter_cons. destruct (decide (P x)); [| exact IH].
  constructor; [exact IH |].
  rewrite Forall_forall in Hx. apply Forall_forall. intros y Hy.
  apply Hx. now apply list_elem_of_filter in Hy as [_ Hy].
Qed.

(** X11. When the clock readings of the recording requests never go back,
    the sequence stored for a user is in the order of its timestamps, and
    so is every group of it: the timestamp sort of the insights changes
    nothing, and a trend compares the record of a type that was inserted
    first with the one that was inserted last. *)
Theorem monotone_clock_keeps_insertion_order
    (reqs : list Request) (userId : string) (t : MetricType) :
  Sorted Z.le (record_clocks reqs) ->
  let records := userData_of (snd (serve reqs initial)) userId in
  Sorted (fun a b => m_timestamp a <= m_timestamp b) records /\
  Array_sort by_timestamp (of_type t records) = of_type t records.
Proof.
  intros Hclock records.
  assert (Hss : StronglySorted (fun a b => m_timestamp a <= m_timestamp b) records).
  { subst records.
    rewrite (serve_posted reqs initial _ store_ok_initial store_separate_initial).
    apply posted_for_sorted. apply Sorted_StronglySorted; [| exact Hclock].
    intros a b c. lia. }
  split; [now apply StronglySorted_Sorted |].
  apply Array_sort_sorted_id, StronglySorted_Sorted.
  unfold of_type. now apply strongly_sorted_filter.
Qed.

Lemma monotone_clock_keeps_insertion_order_witness :
  let body t v := mkMetricBody t (VNum v) "x" None None None in
  let reqs := [PostHealthData (body weight 70%float) "a" 10;
               PostHealthData (body steps 9000%float) "b" 10;
               GetInsights None;
               PostHealthData (body weight 68%float) "c" 25] in
  Array_sort by_timestamp (of_type weight (userData_of (snd (serve reqs initial)) "default"))
  = [created_metric (body weight 70%float) "a" 10;
     created_metric (body weight 68%float) "c" 25].
Proof.
  intros body reqs.
  destruct (monotone_clock_keeps_insertion_order reqs "default" weight) as [_ ->].
  - simpl. repeat constructor; lia.
  - vm_compute. reflexivity.
Defined.

(** ** More on the replies *)

(** X12. A message with none of the keywords in it, in whatever case, is
    answered with the fallback, which quotes the message as it was sent,
    with its own letter case. *)
Theorem unknown_message_is_echoed
    (draw : N) (message : string) (healthData : list HealthMetric) :
  Forall (fun keyword => includes (toLowerCase message) keyword = false)
    ["hello"; "hi"; "hey"; "weight"; "blood pressure"; "heart rate";
     "summary"; "overview"; "help"; "what can you do"] ->
  generateResponse draw message healthData = Some (default_response message) /\
  includes (default_response message) (quote +:+ message +:+ quote) = true.
Proof.
  intros H.
  repeat match type of H with
         | Forall _ (_ :: _) => apply Forall_cons in H as [? H]
         end.
  split.
  - unfold generateResponse.
    repeat match goal with
           | Hk : includes _ ?k = false |- context [includes _ ?k] => rewrite Hk
           end.
    reflexivity.
  - unfold default_response.
    rewrite <- (append_assoc message quote), <- (append_assoc quote (message +:+ quote)).
    apply includes_infix.
Qed.

Lemma unknown_message_is_echoed_witness :
  generateResponse 3 "Tell me a JOKE" []
  = Some (default_response "Tell me a JOKE") /\
  includes (default_response "Tell me a JOKE") (quote +:+ "Tell me a JOKE" +:+ quote) = true.
Proof.
  apply (unknown_message_is_echoed 3 "Tell me a JOKE" []).
  repeat constructor.
Defined.

(** X13. Only the lowercased message decides the branch: two messages that
    differ in letter case alone match the same intent, and get the same
    reply unless the reply is the fallback, which quotes the message. *)
Theorem keywords_ignore_case
    (draw : N) (message1 message2 : string) (healthData : list HealthMetric) :
  toLowerCase message1 = toLowerCase message2 ->
  matched_intent message1 = matched_intent message2 /\
  (matched_intent message1 <> Unknown ->
   generateResponse draw message1 healthData = generateResponse draw message2 healthData).
Proof.
  intros Hlow. split.
  - unfold matched_intent. now rewrite Hlow.
  - unfold matched_intent, generateResponse, has_greeting. rewrite Hlow.
    repeat match goal with
           | |- context [if ?b then _ else _] => destruct b; try (intros _; reflexivity)
           end.
    intros H. now contradiction H.
Qed.

Lemma keywords_ignore_case_witness :
  matched_intent "My WEIGHT please" = matched_intent "my weight please" /\
  generateResponse 0 "My WEIGHT please" [] = generateResponse 0 "my weight please" [].
Proof.
  destruct (keywords_ignore_case 0 "My WEIGHT please" "my weight please" [] eq_refl)
    as [Hi Hr].
  split; [exact Hi | apply Hr]. vm_compute. discriminate.
Defined.

(** X15. The heading of the summary line of every metric type shows no
    underscore and no lowercase letter: each type name has one underscore
    at most, which the replacement turns into a space. *)
Theorem summary_heading_is_humanized (t : MetricType) :
  let heading := toUpperCase (replace (type_name t) "_" " ") in
  includes heading "_" = false /\
  toUpperCase heading = heading /\
  toLowerCase heading = human_name t /\
  String.length heading = String.length (type_name t).
Proof. destruct t; vm_compute; repeat split; reflexivity. Qed.

Lemma count_in_cons (k : MetricType) (keys : list MetricType) (l : list HealthMetric) :
  k ∉ keys ->
  length (filter (fun d => m_type d ∈ k :: keys) l)
  = (length (of_type k l) + length (filter (fun d => m_type d ∈ keys) l))%nat.
Proof.
  intros Hk. unfold of_type. induction l as [|d l IH]; [reflexivity |].
  rewrite !filter_cons.
  destruct (decide (m_type d = k)) as [-> | Hne].
  - rewrite decide_True by left. rewrite (decide_False (P := k ∈ keys)) by assumption.
    simpl. now rewrite IH.
  - destruct (decide (m_type d ∈ keys)) as [Hin | Hnin].
    + rewrite decide_True by now right. simpl. rewrite IH. lia.
    + rewrite decide_False; [exact IH |].
      rewrite elem_of_cons. tauto.
Qed.

Lemma counts_sum_over (keys : list MetricType) (l : list HealthMetric) :
  NoDup keys ->
  sum_list (map (fun t => length (of_type t l)) keys)
  = length (filter (fun d => m_type d ∈ keys) l).
Proof.
  induction 1 as [|k keys Hk Hnd IH]; simpl.
  - induction l as [|d l IHl]; [reflexivity |].
    rewrite filter_cons, decide_False by apply not_elem_of_nil. exact IHl.
  - now rewrite count_in_cons, IH.
Qed.

Lemma filter_all_in {A} (P : A -> Prop) `{!forall x, Decision (P x)} (l : list A) :
  (forall x, x ∈ l -> P x) -> filter P l = l.
Proof.
  intros HP. induction l as [|x l IH]; [reflexivity |].
  rewrite filter_cons, decide_True by (apply HP; left).
  f_equal. apply IH. intros y Hy. apply HP. now right.
Qed.

Lemma counts_add_up (healthData : list HealthMetric) :
  sum_list (map (fun t => length (of_type t healthData))
              (first_occurrences (map m_type healthData)))
  = length healthData.
Proof.
  rewrite <- Set_of_first_occurrences.
  rewrite counts_sum_over by apply NoDup_Set_of.
  f_equal. apply filter_all_in.
  intros d Hd. apply elem_of_Set_of, list_elem_of_fmap. now exists d.
Qed.

(** When the summary is composed, the last record of each type has a
    value that converts. *)
Lemma generateHealthSummary_latest_convert (healthData : list HealthMetric) (summary : string) :
  generateHealthSummary healthData = Some summary -> latest_convert healthData.
Proof.
  intros Hsum t latest Hlast.
  destruct (converts (m_value latest)) eqn:Hconv; [reflexivity |].
  rewrite (generateHealthSummary_throws healthData t latest Hlast Hconv) in Hsum.
  discriminate Hsum.
Qed.

(** X16. In a summary that is composed, the lines are those of the types
    of the records, each made by [summary_line] from the last record of
    its type and the number of records of the type, and these record
    counts add up to the number of records: every record is counted in the
    line of its type and in no other. *)
Theorem summary_counts_add_up (healthData : list HealthMetric) (summary : string) :
  generateHealthSummary healthData = Some summary ->
  let types := first_occurrences (map m_type healthData) in
  let count t := length (of_type t healthData) in
  summary
  = summary_header +:+ join_lines (map (summary_entry healthData) types) +:+ summary_footer /\
  (forall t, t ∈ types ->
     exists latest,
       last (of_type t healthData) = Some latest /\
       summary_line t latest (count t) = Some (summary_entry healthData t)) /\
  sum_list (map count types) = length healthData.
Proof.
  intros Hsum types count. subst types count.
  pose proof (generateHealthSummary_latest_convert healthData summary Hsum) as Hconv.
  split; [| split; [| apply counts_add_up]].
  - rewrite <- Set_of_first_occurrences.
    unfold generateHealthSummary in Hsum.
    rewrite group_push_all, summary_lines_tabulate in Hsum.
    + injection Hsum as <-. now rewrite append_assoc.
    + intros t. apply elem_of_Set_of.
    + exact Hconv.
  - intros t Ht. rewrite <- Set_of_first_occurrences, elem_of_Set_of in Ht.
    destruct (last_of_type healthData t Ht) as (earlier & latest & _ & Hlast).
    exists latest. split; [exact Hlast |].
    destruct (converts_ToString _ (Hconv t latest Hlast)) as [value Hvalue].
    unfold summary_entry. rewrite Hlast. unfold summary_line. rewrite Hvalue. reflexivity.
Qed.

Lemma summary_counts_add_up_witness :
  let healthData :=
    [ mkHealthMetric "1" weight (VNum 70) "kg" 10 None None;
      mkHealthMetric "2" steps (VNum 9000) "steps" 20 None None;
      mkHealthMetric "3" weight (VNum 68.5) "kg" 30 None None ] in
  summary_line weight (mkHealthMetric "3" weight (VNum 68.5) "kg" 30 None None) 2
  = Some ("• **WEIGHT**: 68.5 kg (2 recordings)" +:+ nl) /\
  sum_list (map (fun t => length (of_type t healthData)) [weight; steps]) = 3%nat.
Proof.
  intros healthData. split; [vm_compute; reflexivity |].
  assert (E : exists summary, generateHealthSummary healthData = Some summary).
  { eexists. vm_compute. reflexivity. }
  destruct E as [summary E].
  destruct (summary_counts_add_up healthData summary E) as (_ & _ & Hsum).
  exact Hsum.
Defined.

(** ** Recording, then asking *)

Lemma of_type_app (t : MetricType) (l1 l2 : list HealthMetric) :
  of_type t (l1 ++ l2) = of_type t l1 ++ of_type t l2.
Proof. unfold of_type. apply filter_app. Qed.

(** X17. After a measurement is recorded for a user, a chat message of
    that user which asks for the type of the measurement is answered from
    the record that the recording was answered with, when its value
    converts to a string: the reply shows the value (and, for weight and
    heart rate, the unit) of that record, whatever was recorded before. *)
Theorem chat_reports_the_new_record
    (body : MetricBody) (uuid : string) (now : Z) (s : Server) (data : HealthMetric)
    (chat : ChatBody) (draw : N) (clock clock' : Z) (value : string) :
  reachable s ->
  fst (handle (PostHealthData body uuid now) s) = MetricCreated data ->
  matched_intent (q_message chat) = MetricQuery (m_type data) ->
  default "default" (q_userId chat) = default "default" (m_userId data) ->
  ToString (m_value data) = Some value ->
  exists conversation,
    fst (handle (PostChat chat draw clock clock')
           (snd (handle (PostHealthData body uuid now) s)))
    = ChatJson
        (match m_type data with
         | blood_pressure =>
             "Your latest blood pressure is " +:+ value +:+
             ". " +:+ responses_blood_pressure_advice
         | heart_rate =>
             "Your latest heart rate is " +:+ value +:+ " " +:+
             m_unit data +:+ ". " +:+ responses_heart_rate_advice
         | _ =>
             "Your latest weight is " +:+ value +:+ " " +:+
             m_unit data +:+ ". " +:+ responses_weight_advice
         end)
        (default "default" (q_sessionId chat)) conversation.
Proof.
  intros Hreach Hcreated Hi Hu Hvalue.
  pose proof (reachable_store_ok s Hreach) as Hok.
  pose proof (reachable_store_separate s Hreach) as Hsep.
  simpl in Hcreated. rewrite postHealthData_created in Hcreated.
  injection Hcreated as Hdata'.
  change (created_metric body uuid now = data) in Hdata'.
  set (s' := snd (handle (PostHealthData body uuid now) s)).
  assert (Hdata : userData_of s' (default "default" (m_userId data))
                  = userData_of s (default "default" (m_userId data)) ++ [data]).
  { subst s' data. simpl. rewrite postHealthData_userData by assumption.
    now rewrite decide_True. }
  assert (Hgroup : of_type (m_type data) (userData_of s' (default "default" (q_userId chat)))
                   = of_type (m_type data)
                       (userData_of s (default "default" (m_userId data))) ++ [data]).
  { rewrite Hu, Hdata, of_type_app. f_equal. unfold of_type.
    rewrite filter_cons, decide_True by reflexivity. reflexivity. }
  pose proof (metric_reply_of_last_inserted draw (q_message chat) _ _ _ _ Hi Hgroup) as Hr.
  rewrite Hvalue in Hr.
  simpl handle at 1.
  rewrite (postChat_effect chat draw clock clock' s' _ Hr).
  eexists. reflexivity.
Qed.

Lemma chat_reports_the_new_record_witness :
  let old := mkMetricBody heart_rate (VNum 80) "bpm" None None (Some "ann") in
  let body := mkMetricBody heart_rate (VNum 72) "bpm" None None (Some "ann") in
  let s := snd (serve [PostHealthData old "a" 10] initial) in
  let chat := mkChatBody "What is my heart rate?" None (Some "ann") in
  exists conversation,
    fst (handle (PostChat chat 0 30 31) (snd (handle (PostHealthData body "b" 20) s)))
    = ChatJson ("Your latest heart rate is 72 bpm. " +:+ responses_heart_rate_advice)
        "default" conversation.
Proof.
  intros old body s chat.
  assert (Hreach : reachable s) by (eexists; reflexivity).
  destruct (chat_reports_the_new_record body "b" 20 s
              (mkHealthMetric "b" heart_rate (VNum 72) "bpm" 20 None (Some "ann"))
              chat 0 30 31 "72" Hreach)
    as [conversation H].
  - vm_compute. reflexivity.
  - reflexivity.
  - reflexivity.
  - reflexivity.
  - exists conversation. rewrite H. f_equal.
Defined.

(** X18. The trend of a type depends on the records of that type alone:
    two arrays with the same records of the type, in the same order, give
    the type the same trend in the reports that are returned for them,
    whatever other records they hold. *)
Theorem trend_depends_on_its_type_only
    (h1 h2 : Heap) (data1 data2 : ref) (records1 records2 : list HealthMetric)
    (insights1 insights2 : Insights) (t : MetricType) :
  h1 !! data1 = Some records1 ->
  h2 !! data2 = Some records2 ->
  of_type t records1 = of_type t records2 ->
  fst (generateHealthInsights data1 h1) = Some insights1 ->
  fst (generateHealthInsights data2 h2) = Some insights2 ->
  group_lookup (trends insights1) t = group_lookup (trends insights2) t.
Proof.
  intros H1 H2 Heq Hret1 Hret2.
  pose proof (generateHealthInsights_trend h1 data1 records1 insights1 t H1 Hret1) as Ht1.
  pose proof (generateHealthInsights_trend h2 data2 records2 insights2 t H2 Hret2) as Ht2.
  rewrite Heq in Ht1. congruence.
Qed.

Lemma trend_depends_on_its_type_only_witness :
  let w1 := mkHealthMetric "a" weight (VNum 70) "kg" 10 None None in
  let w2 := mkHealthMetric "b" weight (VNum 72) "kg" 20 None None in
  let bp := mkHealthMetric "c" blood_pressure (VStr "120/80") "mmHg" 15 None None in
  exists insights1 insights2,
    fst (generateHealthInsights 0 [[w1; w2]]) = Some insights1 /\
    fst (generateHealthInsights 1 [[]; [bp; w1; bp; w2]]) = Some insights2 /\
    trends insights1 <> trends insights2 /\
    group_lookup (trends insights1) weight = group_lookup (trends insights2) weight.
Proof.
  intros w1 w2 bp. eexists _, _.
  split; [vm_compute; reflexivity |]. split; [vm_compute; reflexivity |].
  split; [discriminate |].
  apply (trend_depends_on_its_type_only [[w1; w2]] [[]; [bp; w1; bp; w2]] 0%nat 1%nat
           [w1; w2] [bp; w1; bp; w2] _ _ weight); reflexivity.
Defined.

(** ** The client's validation *)

Lemma skip_digits_inv (s : string) :
  forall (n : nat) (rest : string),
  skip_digits s = (n, rest) ->
  exists a, s = a +:+ rest /\ all_digits a = true /\ String.length a = n.
Proof.
  induction s as [|c s IH]; intros n rest H; simpl in H.
  - injection H as <- <-. exists "". repeat split.
  - destruct (is_digit c) eqn:Ec.
    + destruct (skip_digits s) as [n' rest'] eqn:Es. injection H as <- <-.
      destruct (IH n' rest' eq_refl) as (a & -> & Ha & Hl).
      exists (String c a). rewrite append_cons. simpl. rewrite Ec, Ha, Hl. repeat split.
    + injection H as <- <-. exists "". repeat split.
Qed.

Lemma skip_digits_app (a rest : string) :
  all_digits a = true ->
  (rest = "" \/ exists c rest', rest = String c rest' /\ is_digit c = false) ->
  skip_digits (a +:+ rest) = (String.length a, rest).
Proof.
  intros Ha Hrest. induction a as [|c a IH].
  - change ("" +:+ rest) with rest.
    destruct Hrest as [-> | (c & rest' & -> & Hc)]; simpl; [reflexivity |].
    now rewrite Hc.
  - simpl in Ha. apply andb_true_iff in Ha as [Hc Ha].
    rewrite append_cons. simpl. rewrite Hc, (IH Ha). reflexivity.
Qed.

Lemma length_zero_empty (a : string) : String.length a = 0%nat -> a = "".
Proof. destruct a; [reflexivity | discriminate]. Qed.

(** The test of the blood pressure pattern succeeds exactly on digits, a
    slash and digits. *)
Lemma bpRegex_test_spec (s : string) :
  bpRegex_test s = true <->
  exists a b, s = a +:+ "/" +:+ b /\ digits_only a /\ digits_only b.
Proof.
  unfold bpRegex_test, digits_only. split.
  - destruct (skip_digits s) as [n1 rest1] eqn:E1.
    destruct rest1 as [|c rest2]; [discriminate |].
    destruct (Ascii.eqb_spec c "/") as [-> | Hc].
    2:{ intros H. exfalso. revert H.
        destruct c as [[] [] [] [] [] [] [] []]; try discriminate. now contradiction Hc. }
    destruct (skip_digits rest2) as [n2 rest3] eqn:E2.
    intros H. apply andb_true_iff in H as [H H3]. apply andb_true_iff in H as [H1 H2].
    apply String.eqb_eq in H3. subst rest3.
    apply Nat.ltb_lt in H1, H2.
    destruct (skip_digits_inv _ _ _ E1) as (a & -> & Ha & Hla).
    destruct (skip_digits_inv _ _ _ E2) as (b & -> & Hb & Hlb).
    exists a, b. rewrite append_empty_r.
    split; [reflexivity |].
    split; (split; [intros -> ; simpl in *; lia | assumption]).
  - intros (a & b & -> & [Hna Ha] & [Hnb Hb]).
    rewrite (skip_digits_app a ("/" +:+ b) Ha).
    2:{ right. exists "/"%char, b. split; reflexivity. }
    change ("/" +:+ b) with (String "/" b). cbv iota beta.
    rewrite <- (append_empty_r b) at 1.
    rewrite (skip_digits_app b "" Hb) by now left.
    destruct a; [congruence |]. destruct b; [congruence |]. reflexivity.
Qed.

Lemma falsy_false (x : option string) :
  falsy x = false <-> exists s, x = Some s /\ s <> "".
Proof.
  destruct x as [s |]; simpl.
  - rewrite String.eqb_neq. split; [intros H; now exists s | intros (s' & [= <-] & H); exact H].
  - split; [discriminate | intros (s & [=] & _)].
Qed.

Lemma Array_includes_In (arr : list string) (s : string) :
  Array_includes arr s = true <-> In s arr.
Proof.
  unfold Array_includes. rewrite existsb_exists. split.
  - intros (x & Hx & Heq). apply String.eqb_eq in Heq. now subst.
  - intros H. exists s. split; [exact H | apply String.eqb_refl].
Qed.

Lemma length_app_singleton_nonzero {A} (l : list A) (x : A) : (length (l ++ [x]) =? 0)%nat = false.
Proof. rewrite length_app. simpl. apply Nat.eqb_neq. lia. Qed.

(** The record is valid when none of the six checks fires. *)
Lemma validateHealthData_isValid (data : PartialMetric) :
  fst (validateHealthData data)
  = negb (falsy (p_type data) ||
          match p_value data with
          | AUndefined | ANull => true
          | AString v => String.eqb v ""
          | _ => false
          end ||
          falsy (p_unit data) ||
          match p_type data with
          | Some t => negb (String.eqb t "") && negb (Array_includes validTypes t)
          | None => false
          end ||
          match p_type data, p_value data with
          | Some t, AString v =>
              negb (String.eqb t "") && Array_includes numericMetrics t &&
              PrimFloat.is_nan (StringToNumber v)
          | _, _ => false
          end ||
          match p_type data, p_value data with
          | Some t, AString v => String.eqb t "blood_pressure" && negb (bpRegex_test v)
          | _, _ => false
          end).
Proof.
  unfold validateHealthData.
  destruct (p_type data) as [t |], (p_value data) as [| | x | v |], (p_unit data) as [u |];
    cbn [falsy fst];
    repeat match goal with
           | |- context [if ?b then _ else _] => destruct b
           end; reflexivity.
Qed.

(** X19. A partial record passes the validation exactly when it has a type
    of the list of valid types and a unit that is not empty, and its value
    is present and, when it is a string, is not empty, reads as a number
    for a numeric metric, and has the blood pressure format for blood
    pressure.  A value that is a number or an object passes for every
    type. *)
Theorem valid_health_data (data : PartialMetric) :
  fst (validateHealthData data) = true <->
  exists t unit,
    p_type data = Some t /\ In t validTypes /\
    p_unit data = Some unit /\ unit <> "" /\
    match p_value data with
    | AUndefined | ANull => False
    | AString v =>
        v <> "" /\
        (In t numericMetrics -> PrimFloat.is_nan (StringToNumber v) = false) /\
        (t = "blood_pressure" -> bpRegex_test v = true)
    | _ => True
    end.
Proof.
  rewrite validateHealthData_isValid, negb_true_iff, !orb_false_iff.
  rewrite !falsy_false. split.
  - intros (((((( t & Ht & Hne) & Hv) & (u & Hu & Hune)) & H4) & H5) & H6).
    exists t, u. rewrite Ht in *. apply String.eqb_neq in Hne as Hneb.
    rewrite Hneb in *. cbn [negb andb] in H4, H5.
    apply negb_false_iff, Array_includes_In in H4.
    repeat split; try assumption.
    destruct (p_value data) as [| | x | v |]; try discriminate Hv; try exact I.
    apply String.eqb_neq in Hv. split; [exact Hv |]. split.
    + intros Hin. apply Array_includes_In in Hin. rewrite Hin in H5. exact H5.
    + intros ->. rewrite String.eqb_refl in H6. now apply negb_false_iff in H6.
  - intros (t & u & Ht & Hin & Hu & Hune & Hv).
    assert (Hne : t <> "").
    { intros ->. simpl in Hin. repeat destruct Hin as [Hin | Hin]; try discriminate Hin.
      exact Hin. }
    rewrite Ht. apply String.eqb_neq in Hne as Hneb. rewrite Hneb.
    apply Array_includes_In in Hin. rewrite Hin. cbn [negb andb].
    repeat split.
    + now exists t.
    + destruct (p_value data) as [| | x | v |]; try reflexivity; try contradiction.
      destruct Hv as [Hv _]. now apply String.eqb_neq.
    + now exists u.
    + destruct (p_value data) as [| | x | v |]; try reflexivity.
      destruct Hv as (_ & Hnum & _).
      destruct (Array_includes numericMetrics t) eqn:En; [| reflexivity].
      cbn [andb]. apply Hnum. now apply Array_includes_In.
    + destruct (p_value data) as [| | x | v |]; try reflexivity.
      destruct Hv as (_ & _ & Hbp).
      destruct (String.eqb_spec t "blood_pressure") as [-> | ?]; [| reflexivity].
      cbn [andb]. now rewrite Hbp.
Qed.

(** X20. With blood pressure as the type, a unit, and a string as the
    value, the record is valid exactly when the string is digits, a slash
    and digits, with nothing before, between or after them. *)
Theorem blood_pressure_format (v unit : string) :
  unit <> "" ->
  fst (validateHealthData (mkPartialMetric (Some "blood_pressure") (AString v) (Some unit)))
  = true <->
  exists a b, v = a +:+ "/" +:+ b /\ digits_only a /\ digits_only b.
Proof.
  intros Hunit. rewrite validateHealthData_isValid. simpl.
  apply String.eqb_neq in Hunit. rewrite Hunit. simpl.
  rewrite <- bpRegex_test_spec.
  destruct (bpRegex_test v) eqn:Ev; simpl.
  - destruct (String.eqb_spec v "") as [-> | _]; [discriminate Ev |]. tauto.
  - rewrite orb_true_r. simpl. split; discriminate.
Qed.

Lemma blood_pressure_format_witness :
  fst (validateHealthData (mkPartialMetric (Some "blood_pressure") (AString "120/80")
                             (Some "mmHg"))) = true /\
  fst (validateHealthData (mkPartialMetric (Some "blood_pressure") (AString "120-80")
                             (Some "mmHg"))) = false.
Proof.
  split.
  - apply (blood_pressure_format "120/80" "mmHg"); [discriminate |].
    exists "120", "80". repeat split; discriminate.
  - reflexivity.
Defined.
